(** * SmartWeightDistributor (src/xl.py): a shallow embedding

    The class [SmartWeightDistributor] of [src/xl.py] detects the column of
    a pandas [DataFrame] that holds the weights, makes room for container
    columns and writes an equal share of every positive weight into them.

    The embedding follows the Python text:
    - a [DataFrame] is a mutable object, so frames live in a store and the
      methods run in a small state-and-exception monad [Py];
    - Python numbers are [Z] (int) and binary64 (float), the latter as Rocq's
      primitive floats, with [round(x, 2)] written out on the exact value;
      that division and [round] give the nearest binary64 number is derived
      from the Standard Library's specification of floats;
    - the calls to [st.error], [st.info] and [st.success] are recorded as
      events, since the number of processed rows is only ever reported there. *)

From Stdlib Require Import ZArith QArith Qabs Qpower Lia Lqa.
From Stdlib Require Import PrimFloat SpecFloat FloatOps FloatAxioms.
From Stdlib Require Import Decimal DecimalString DecimalPos DecimalZ.
From stdpp Require Import base decidable option list numbers strings gmap.

Set Default Proof Using "Type".
Local Open Scope Z_scope.

(** ** Python numbers *)

Module PyNum.

(** [float(z)] for a Python int: the binary64 nearest to [z], ties to even. *)
Definition float_of_Z (z : Z) : float :=
  SF2Prim (binary_normalize prec emax z 0 false).

(** An integer as an unrounded binary number [±m·2^0]. *)
Definition SF_of_Z (z : Z) : spec_float :=
  match z with
  | Z0 => S754_zero false
  | Zpos p => S754_finite false p 0
  | Zneg p => S754_finite true p 0
  end.

(** [a / b] for two Python ints, [b ≠ 0]: the binary64 nearest to the exact
    quotient (true division of ints is correctly rounded). *)
Definition int_truediv (a b : Z) : float :=
  SF2Prim (SFdiv prec emax (SF_of_Z a) (SF_of_Z b)).

(** The integer nearest to [a / b] ([b > 0]), ties going to the even one. *)
Definition div_half_even (a b : Z) : Z :=
  let q := a / b in
  let r := a mod b in
  match 2 * r ?= b with
  | Lt => q
  | Gt => q + 1
  | Eq => if Z.even q then q else q + 1
  end.

(** The integer nearest to [100 · m · 2^e], ties to even: the two-decimal
    digits of a positive binary64 [m · 2^e]. *)
Definition hundredths (m : positive) (e : Z) : Z :=
  if 0 <=? e then 100 * Zpos m * 2 ^ e
  else div_half_even (100 * Zpos m) (2 ^ (- e)).

(** [round(x, 2)] for a Python float. CPython prints the exact value of [x]
    with two correctly rounded decimals and reads the string back, so the
    result is the binary64 nearest to [hundredths / 100], with the sign of
    [x]; infinities, NaN and zeros are returned as they are. *)
Definition round2 (x : float) : float :=
  match Prim2SF x with
  | S754_finite s m e =>
      match hundredths m e with
      | Zpos h => SF2Prim (SFdiv prec emax (S754_finite s h 0) (S754_finite false 100 0))
      | _ => SF2Prim (S754_zero s)
      end
  | _ => x
  end.

(** The binary64 nearest to a rational, ties to even. *)
Definition nearest_float (q : Q) : float :=
  SF2Prim (SFdiv prec emax (SF_of_Z (Qnum q)) (S754_finite false (Qden q) 0)).

(** The number with two decimals that [round2 x] is the binary64 nearest
    to, see [round2_nearest_decimal2] (0 where [x] is not finite). *)
Definition decimal2 (x : float) : Q :=
  match Prim2SF x with
  | S754_finite s m e =>
      let v := Qmake (hundredths m e) 100 in
      if s then Qopp v else v
  | _ => 0%Q
  end.

(** The exact value of a finite float as a rational (0 for NaN and the
    infinities, which no statement below reads). *)
Definition Q_of_float (x : float) : Q :=
  match Prim2SF x with
  | S754_finite s m e =>
      let v := if 0 <=? e then inject_Z (Zpos m * 2 ^ e)
               else Qmake (Zpos m) (Z.to_pos (2 ^ (- e))) in
      if s then Qopp v else v
  | _ => 0%Q
  end.

End PyNum.

(** ** Labels, cells and frames *)

(** A column label: [pd.read_csv(..., header=None)] numbers the columns
    0, 1, 2, ...; [pd.read_excel] takes the header texts; the shift path
    creates the texts [Container_k] and [Column_k]. *)
Inductive Label : Type :=
  | LInt (z : Z)
  | LStr (s : string).

#[global] Instance Label_eq_dec : EqDecision Label.
Proof. solve_decision. Defined.

(** A cell as the program reads it back from a column: a Python int, a
    Python float (NaN is pandas' missing value) or a text. Cells are modelled
    by value; the storage type pandas keeps per column is not. *)
Inductive Cell : Type :=
  | CInt (z : Z)
  | CFloat (f : float)
  | CStr (s : string).

(** A frame is its columns in order, each a label with its cells. *)
Abbreviation DataFrame := (list (Label * list Cell)).

(** [df.columns] *)
Definition columns (df : DataFrame) : list Label := df.*1.

(** [len(df)]: the number of rows. *)
Definition len (df : DataFrame) : nat :=
  match df with
  | [] => 0%nat
  | (_, cells) :: _ => length cells
  end.

(** [df[col]] for a label that names one column. *)
Fixpoint getitem (df : DataFrame) (col : Label) : option (list Cell) :=
  match df with
  | [] => None
  | (l, cells) :: rest => if decide (l = col) then Some cells else getitem rest col
  end.

(** The frames pandas' readers hand to the program: labels are pairwise
    distinct and every column has [len df] cells. *)
Definition well_formed (df : DataFrame) : Prop :=
  NoDup (columns df) ∧ Forall (λ c, length c.2 = len df) df.

#[global] Instance well_formed_dec df : Decision (well_formed df).
Proof. unfold well_formed. apply _. Defined.

(** ** Outcomes, the store and the monad *)

Inductive Exn : Type :=
  | ValueError
  | TypeError
  | KeyError
  | IndexError
  | ZeroDivisionError.

(** [Unmodelled] marks pandas behaviour outside this embedding (a reference
    to no object, [.at] enlarging a frame); the theorems show that the
    methods never reach it on a well-formed frame. *)
Inductive Outcome (A : Type) : Type :=
  | Ok (a : A)
  | Raise (e : Exn)
  | Unmodelled.
Arguments Ok {A} a.
Arguments Raise {A} e.
Arguments Unmodelled {A}.

#[global] Instance Exn_eq_dec : EqDecision Exn.
Proof. solve_decision. Defined.

#[global] Instance Outcome_eq_dec {A} `{EqDecision A} : EqDecision (Outcome A).
Proof. solve_decision. Defined.

(** What the methods show through streamlit. *)
Inductive StEvent : Type :=
  | StErrorNoNumericColumn
  | StInfoDetected (weight_column : Label) (weight_count : nat)
  | StInfoContainers (container_columns : list Label)
  | StInfoFinalWeight (final_weight_column : Label)
  | StSuccessProcessed (processed_rows : nat) (containers : nat).

Abbreviation loc := positive.

Record State : Type := mkState {
  heap : gmap loc DataFrame;
  shown : list StEvent
}.

Definition Py (A : Type) : Type := State → Outcome A * State.

#[global] Instance Py_ret : MRet Py := λ A a σ, (Ok a, σ).
#[global] Instance Py_bind : MBind Py := λ A B k m σ,
  match m σ with
  | (Ok a, σ') => k a σ'
  | (Raise e, σ') => (Raise e, σ')
  | (Unmodelled, σ') => (Unmodelled, σ')
  end.

Definition raise {A} (e : Exn) : Py A := λ σ, (Raise e, σ).

Definition lift {A} (o : Outcome A) : Py A := λ σ, (o, σ).

(** Reading the frame a reference points to. *)
Definition deref (l : loc) : Py DataFrame := λ σ,
  match heap σ !! l with
  | Some df => (Ok df, σ)
  | None => (Unmodelled, σ)
  end.

(** A new frame object. *)
Definition alloc (df : DataFrame) : Py loc := λ σ,
  let l := fresh (dom (heap σ)) in
  (Ok l, mkState (<[l := df]> (heap σ)) (shown σ)).

(** [df.copy()] *)
Definition copy (l : loc) : Py loc :=
  df ← deref l; alloc df.

(** [st.error], [st.info], [st.success] *)
Definition st (e : StEvent) : Py unit := λ σ,
  (Ok (), mkState (heap σ) (shown σ ++ [e])).

(** The frame with cell [i] of the column [col] set to [v]. *)
Definition set_cell (df : DataFrame) (i : nat) (col : Label) (v : Cell) : DataFrame :=
  (λ c : Label * list Cell,
     if decide (c.1 = col) then (c.1, <[i := v]> c.2) else c) <$> df.

(** [df.at[i, col] = v] for a row and a column that exist: the frame object
    is updated in place. *)
Definition at_set (l : loc) (i : nat) (col : Label) (v : Cell) : Py unit := λ σ,
  match heap σ !! l with
  | Some df =>
      if decide (col ∈ columns df ∧ (i < len df)%nat) then
        (Ok (), mkState (<[l := set_cell df i col v]> (heap σ)) (shown σ))
      else (Unmodelled, σ)
  | None => (Unmodelled, σ)
  end.

#[global] Instance Outcome_ret : MRet Outcome := λ A a, Ok a.
#[global] Instance Outcome_bind : MBind Outcome := λ A B k o,
  match o with
  | Ok a => k a
  | Raise e => Raise e
  | Unmodelled => Unmodelled
  end.

#[global] Instance Outcome_fmap : FMap Outcome := λ A B f o,
  match o with
  | Ok a => Ok (f a)
  | Raise e => Raise e
  | Unmodelled => Unmodelled
  end.

(** ** Python and pandas primitives the methods call *)

(** [str(z)] for an int, as an f-string prints it. *)
Definition str_of_int (z : Z) : string :=
  NilZero.string_of_int (Z.to_int z).

(** [range(n)]: empty when [n <= 0]. *)
Definition range (n : Z) : list Z :=
  Z.of_nat <$> seq 0 (Z.to_nat n).

(** [enumerate(l)] *)
Definition enumerate {A} (l : list A) : list (nat * A) :=
  zip (seq 0 (length l)) l.

(** [list.index(x)]: the first position of [x]; [ValueError] without one. *)
Fixpoint list_index (l : list Label) (x : Label) : Outcome nat :=
  match l with
  | [] => Raise ValueError
  | y :: rest => if decide (y = x) then Ok 0%nat else S <$> list_index rest x
  end.

(** [d[k] = v] on a dict, which keeps its keys in insertion order: a key
    already present keeps its place and takes the new value. *)
Fixpoint dict_set {V} (k : Label) (v : V) (d : list (Label * V)) : list (Label * V) :=
  match d with
  | [] => [(k, v)]
  | (k', v') :: rest =>
      if decide (k' = k) then (k, v) :: rest else (k', v') :: dict_set k v rest
  end.

(** [pd.DataFrame(d)] for a dict of columns: the columns in the dict's order;
    [ValueError] when their lengths differ. *)
Definition DataFrame_of_dict (d : list (Label * list Cell)) : Outcome DataFrame :=
  if decide (Forall (λ c, length c.2 = len d) d) then Ok d else Raise ValueError.

(** [l[j]] on a list *)
Definition list_getitem {A} (l : list A) (j : nat) : Outcome A :=
  match l !! j with
  | Some a => Ok a
  | None => Raise IndexError
  end.

(** [pd.isna(x)] on a cell *)
Definition isna (c : Cell) : bool :=
  match c with
  | CFloat f => is_nan f
  | _ => false
  end.

(** [x > 0]: a text does not compare with an int. *)
Definition gt_zero (c : Cell) : Outcome bool :=
  match c with
  | CInt z => Ok (0 <? z)
  | CFloat f => Ok (PrimFloat.ltb 0 f)
  | CStr _ => Raise TypeError
  end.

(** [x <= 0] *)
Definition le_zero (c : Cell) : Outcome bool :=
  match c with
  | CInt z => Ok (z <=? 0)
  | CFloat f => Ok (PrimFloat.leb f 0)
  | CStr _ => Raise TypeError
  end.

(** [x / n] for a cell and an int [n >= 0]: always a float; the quotient of
    two ints is the float nearest to the exact quotient. Where that is
    beyond the largest float (an int of more than 1000 bits, where the ints
    of a pandas integer column have 64) CPython raises [OverflowError]; the
    definition has the infinity of float division there, and the statements
    on the value of a quotient are for weights [in_float_range]. *)
Definition truediv (c : Cell) (n : nat) : Outcome float :=
  match c with
  | CStr _ => Raise TypeError
  | _ =>
      if decide (n = 0%nat) then Raise ZeroDivisionError
      else match c with
           | CInt z => Ok (PyNum.int_truediv z (Z.of_nat n))
           | CFloat f => Ok (PrimFloat.div f (PyNum.float_of_Z (Z.of_nat n)))
           | CStr _ => Raise TypeError
           end
  end.

(** ** The methods of [SmartWeightDistributor] *)

Section Distributor.

(** [pd.to_numeric(_, errors='coerce')] reads a text as a number or gives
    NaN; which texts it reads is pandas' business, so the test is a
    parameter of the development. *)
Variable parses_as_number : string → bool.

(** [pd.to_numeric(cell, errors='coerce')] is not NaN. *)
Definition numeric (c : Cell) : bool :=
  match c with
  | CInt _ => true
  | CFloat f => negb (is_nan f)
  | CStr s => parses_as_number s
  end.

(** [pd.to_numeric(series, errors='coerce').notna().sum()] *)
Definition numeric_count (series : list Cell) : nat :=
  length (filter (λ c, numeric c = true) series).

(** The loop of [find_weight_column] over the labels still to visit. *)
Fixpoint find_weight_loop (df : DataFrame) (cols : list Label)
    (weight_column : option Label) (max_numbers : nat) : Outcome (option Label * nat) :=
  match cols with
  | [] => Ok (weight_column, max_numbers)
  | col :: rest =>
      match getitem df col with
      | None => Raise KeyError
      | Some series =>
          let numeric_count := numeric_count series in
          if decide (max_numbers < numeric_count)%nat
          then find_weight_loop df rest (Some col) numeric_count
          else find_weight_loop df rest weight_column max_numbers
      end
  end.

(** [find_weight_column(df)]; it only reads the frame. *)
Definition find_weight_column (df : DataFrame) : Outcome (option Label * nat) :=
  find_weight_loop df (columns df) None 0%nat.

Definition Container_ (k : Z) : Label := LStr ("Container_" +:+ str_of_int k).
Definition Column_ (k : Z) : Label := LStr ("Column_" +:+ str_of_int k).

(** The first loop of the shift path: [new_columns[f'Container_{i+1}'] = [0.0] * len(df)]. *)
Definition add_containers (df : DataFrame) (user_defined_containers : Z)
    (new_columns : list (Label * list Cell)) : list (Label * list Cell) :=
  foldl (λ new_columns i,
           dict_set (Container_ (i + 1)) (replicate (len df) (CFloat 0)) new_columns)
        new_columns (range user_defined_containers).

(** The second loop: [new_columns[f'Column_{i + shift_amount}'] = df[col].values]. *)
Fixpoint add_shifted (df : DataFrame) (shift_amount : Z) (cols : list (nat * Label))
    (new_columns : list (Label * list Cell)) : Outcome (list (Label * list Cell)) :=
  match cols with
  | [] => Ok new_columns
  | (i, col) :: rest =>
      let new_col_index := Z.of_nat i + shift_amount in
      match getitem df col with
      | None => Raise KeyError
      | Some values =>
          add_shifted df shift_amount rest (dict_set (Column_ new_col_index) values new_columns)
      end
  end.

(** [shift_columns_and_create_containers(df, weight_column, user_defined_containers)].
    Both paths end in a new object: [pd.DataFrame(new_columns)] copies the
    arrays of the dict it is given, and [df.copy()] is a deep copy. *)
Definition shift_columns_and_create_containers (df : loc) (weight_column : Label)
    (user_defined_containers : Z) : Py (loc * Label * list Label) :=
  d ← deref df;
  weight_col_index ← lift (list_index (columns d) weight_column);
  if decide (Z.of_nat weight_col_index < user_defined_containers) then
    let shift_amount := user_defined_containers - Z.of_nat weight_col_index in
    let new_columns := add_containers d user_defined_containers [] in
    new_columns ← lift (add_shifted d shift_amount (enumerate (columns d)) new_columns);
    frame ← lift (DataFrame_of_dict new_columns);
    new_df ← alloc frame;
    let weight_column_new := Column_ (Z.of_nat weight_col_index + shift_amount) in
    let container_columns := (λ i, Container_ (i + 1)) <$> range user_defined_containers in
    mret (new_df, weight_column_new, container_columns)
  else
    let container_columns := take weight_col_index (columns d) in
    new_df ← copy df;
    mret (new_df, weight_column, container_columns).

(** [distribute_weight(weight, num_containers)] *)
Definition distribute_weight (weight : Cell) (num_containers : nat) : Outcome (list Cell) :=
  nonpositive ← (if isna weight then Ok true else le_zero weight);
  if (nonpositive : bool) then Ok (replicate num_containers (CInt 0))
  else
    quotient ← truediv weight num_containers;
    let weight_per_container := PyNum.round2 quotient in
    Ok (replicate num_containers (CFloat weight_per_container)).

(** The inner loop of [process_dataframe]:
    [processed_df.at[i, container_col] = distribution[j]]. *)
Fixpoint write_row (processed_df : loc) (i : nat) (distribution : list Cell)
    (cols : list (nat * Label)) : Py unit :=
  match cols with
  | [] => mret ()
  | (j, container_col) :: rest =>
      v ← lift (list_getitem distribution j);
      _ ← at_set processed_df i container_col v;
      write_row processed_df i distribution rest
  end.

(** The outer loop of [process_dataframe] over the enumerated weights; it
    returns [processed_rows]. *)
Fixpoint distribute_rows (processed_df : loc) (container_columns : list Label)
    (weights : list (nat * Cell)) (processed_rows : nat) : Py nat :=
  match weights with
  | [] => mret processed_rows
  | (i, weight) :: rest =>
      positive ← lift (if negb (isna weight) then gt_zero weight else Ok false);
      if (positive : bool) then
        distribution ← lift (distribute_weight weight (length container_columns));
        _ ← write_row processed_df i distribution (enumerate container_columns);
        distribute_rows processed_df container_columns rest (processed_rows + 1)
      else
        distribute_rows processed_df container_columns rest processed_rows
  end.

(** [process_dataframe(df, user_defined_containers)]; the result is [None]
    or the triple. The weights are read from the column once, before the
    loop: the loop writes container columns only, and these never include
    the weight column. *)
Definition process_dataframe (df : loc) (user_defined_containers : Z)
    : Py (option (loc * Label * list Label)) :=
  d ← deref df;
  '(weight_column, weight_count) ← lift (find_weight_column d);
  match weight_column with
  | None =>
      _ ← st StErrorNoNumericColumn;
      mret None
  | Some weight_column =>
      _ ← st (StInfoDetected weight_column weight_count);
      '(processed_df, final_weight_column, container_columns) ←
        shift_columns_and_create_containers df weight_column user_defined_containers;
      _ ← st (StInfoContainers container_columns);
      _ ← st (StInfoFinalWeight final_weight_column);
      p ← deref processed_df;
      weights ← (match getitem p final_weight_column with
                  | Some series => mret series
                  | None => raise KeyError
                  end);
      processed_rows ← distribute_rows processed_df container_columns (enumerate weights) 0%nat;
      _ ← st (StSuccessProcessed processed_rows (length container_columns));
      mret (Some (processed_df, final_weight_column, container_columns))
  end.

End Distributor.

(** ** The script around the class *)

(** What the script itself shows, one constructor for every call that
    displays a value; [st.columns], [st.spinner] and [st.balloons], which
    only lay out or decorate, leave no trace. The functions below return the
    notices of a run that ends normally, in the order of the calls; a run
    that raises has an exception for its outcome and its notices are not
    kept. *)
Inductive Notice : Type :=
  | MetricWeightColumn (weight_column : Label)
  | MetricNumericValues (weight_count : nat)
  | MetricColumnPosition (position : Z)
  | WarningShift (position : Z) (user_defined_containers : Z)
  | InfoMove (position : Z) (new_position : Z)
  | SuccessPerfect (position : Z) (available : nat)
  | ErrorNotDetected
  | SuccessFileProcessed
  | WriteSummaryTitle
  | WriteWeightColumn (final_weight_col : Label)
  | WriteContainerColumns (container_cols : list Label)
  | WriteTotalRows (rows : nat)
  | WriteExamplesTitle
  | WriteExample (weight : Cell) (container_weight : float).

(** [series.dropna().head(3).tolist()] *)
Definition sample (series : list Cell) : list Cell :=
  take 3 (filter (λ c, isna c = false) series).

(** The loop over [sample_weights]: a line for every weight above 0. *)
Fixpoint example_lines (sample_weights : list Cell) (container_cols : list Label)
    : Outcome (list Notice) :=
  match sample_weights with
  | [] => Ok []
  | weight :: rest =>
      positive ← gt_zero weight;
      if (positive : bool) then
        quotient ← truediv weight (length container_cols);
        let container_weight := PyNum.round2 quotient in
        lines ← example_lines rest container_cols;
        Ok (WriteExample weight container_weight :: lines)
      else example_lines rest container_cols
  end.

Section Script.

Variable parses_as_number : string → bool.

(** What follows [if st.button("Process File")] up to the example
    calculations (lines 159 to 185); the display of the processed table and
    the export come after and are not part of it. *)
Definition process_file (df : loc) (user_defined_containers : Z) : Py (list Notice) :=
  df_copy ← copy df;
  result ← process_dataframe parses_as_number df_copy user_defined_containers;
  match result with
  | Some (processed_df, final_weight_col, container_cols) =>
      p ← deref processed_df;
      series ← (match getitem p final_weight_col with
                 | Some series => mret series
                 | None => raise KeyError
                 end);
      let sample_weights := sample series in
      lines ← (match sample_weights with
                | [] => mret []
                | _ => lines ← lift (example_lines sample_weights container_cols);
                       mret (WriteExamplesTitle :: lines)
                end);
      mret ([SuccessFileProcessed; WriteSummaryTitle;
             WriteWeightColumn final_weight_col;
             WriteContainerColumns container_cols;
             WriteTotalRows (len p)] ++ lines)
  | None => mret []
  end.

(** The script from the creation of the distributor to the example
    calculations and its [else] branch (lines 136 to 185 and 214 to 216), for
    an uploaded table [df]; [clicked] is what [st.button] returns. The
    surrounding [try] turns whatever is raised into an error message. *)
Definition preview_and_process (df : loc) (user_defined_containers : Z) (clicked : bool)
    : Py (list Notice) :=
  d ← deref df;
  '(weight_column, weight_count) ← lift (find_weight_column parses_as_number d);
  match weight_column with
  | Some weight_column =>
      weight_col_index ← lift (list_index (columns d) weight_column);
      let metrics := [MetricWeightColumn weight_column;
                      MetricNumericValues weight_count;
                      MetricColumnPosition (Z.of_nat weight_col_index + 1)] in
      let plan :=
        if decide (Z.of_nat weight_col_index < user_defined_containers) then
          [WarningShift (Z.of_nat weight_col_index + 1) user_defined_containers;
           InfoMove (Z.of_nat weight_col_index + 1)
                    (user_defined_containers + (Z.of_nat weight_col_index + 1))]
        else
          [SuccessPerfect (Z.of_nat weight_col_index + 1) weight_col_index] in
      if clicked then
        shown_after ← process_file df user_defined_containers;
        mret (metrics ++ plan ++ shown_after)
      else mret (metrics ++ plan)
  | None => mret [ErrorNotDetected]
  end.

End Script.

(** ** Vocabulary of the statements *)

(** The test of [process_dataframe]'s loop, [pd.notna(weight) and weight > 0],
    where it has a value. *)
Definition positive_weight (weight : Cell) : bool :=
  negb (isna weight) &&
  match gt_zero weight with
  | Ok b => b
  | _ => false
  end.

Definition is_text (c : Cell) : bool :=
  match c with
  | CStr _ => true
  | _ => false
  end.

(** [round(weight / n, 2)] as a cell, where the division has a value. *)
Definition share (weight : Cell) (n : nat) : Cell :=
  match truediv weight n with
  | Ok quotient => CFloat (PyNum.round2 quotient)
  | _ => weight
  end.

(** The cells of one container column after the loop of [process_dataframe]
    has run over the rows [k, k+1, ...] with weights [ws]. *)
Fixpoint fill_cells (n k : nat) (ws : list Cell) (cells : list Cell) : list Cell :=
  match ws with
  | [] => cells
  | w :: rest =>
      fill_cells n (S k) rest (if positive_weight w then <[k := share w n]> cells else cells)
  end.

(** The frame after that loop: the columns named in [cs] are filled, the
    others are as before. *)
Definition fill_frame (cs : list Label) (k : nat) (ws : list Cell) (p : DataFrame) : DataFrame :=
  (λ c : Label * list Cell,
     if decide (c.1 ∈ cs) then (c.1, fill_cells (length cs) k ws c.2) else c) <$> p.

(** One row written: cell [i] of every column named in [cs] set to [v]. *)
Definition set_row (cs : list Label) (i : nat) (v : Cell) (p : DataFrame) : DataFrame :=
  (λ c : Label * list Cell,
     if decide (c.1 ∈ cs) then (c.1, <[i := v]> c.2) else c) <$> p.

(** The frame the shift path builds. *)
Definition shifted_frame (d : DataFrame) (n : Z) (shift_amount : Z) : DataFrame :=
  ((λ i, (Container_ (i + 1), replicate (len d) (CFloat 0))) <$> range n) ++
  ((λ ic : nat * (Label * list Cell), (Column_ (Z.of_nat ic.1 + shift_amount), ic.2.2))
     <$> enumerate d).

(** The sum of the exact values of the floats in a list of cells. *)
Definition exact_sum (cells : list Cell) : Q :=
  foldr (λ c acc, match c with
                  | CFloat f => (PyNum.Q_of_float f + acc)%Q
                  | CInt z => (inject_Z z + acc)%Q
                  | CStr _ => acc
                  end) 0%Q cells.

(** The exact value of a numeric cell. *)
Definition exact_value (c : Cell) : Q :=
  match c with
  | CFloat f => PyNum.Q_of_float f
  | CInt z => inject_Z z
  | CStr _ => 0%Q
  end.

(** [df.loc[i, cols]]: the cells of row [i] in the columns [cols]. *)
Definition row_values (df : DataFrame) (cols : list Label) (i : nat) : list Cell :=
  omap (λ c, cells ← getitem df c; cells !! i) cols.

(** A weight that the division takes without an error or an infinity: a
    finite float, or an int no larger than the largest float. *)
Definition in_float_range (weight : Cell) : Prop :=
  match weight with
  | CInt z => Z.abs z ≤ (2 ^ 53 - 1) * 2 ^ 971
  | CFloat f => is_finite f = true
  | CStr _ => False
  end.

(** [2^e] for an exponent of either sign. *)
Definition bpow (e : Z) : Q := (2 ^ e)%Q.

(** The binary number [±m·2^e] of the specification of floats, for a
    mantissa [m >= 0]. *)
Definition SF_of (s : bool) (m e : Z) : spec_float :=
  match m with
  | Z0 => S754_zero s
  | Zpos p => S754_finite s p e
  | Zneg _ => S754_nan
  end.

(** The exact value of a binary number (0 for NaN and the infinities). *)
Definition SF2Q (x : spec_float) : Q :=
  match x with
  | S754_finite s m e =>
      if s then (- (inject_Z (Zpos m) * bpow e))%Q else (inject_Z (Zpos m) * bpow e)%Q
  | _ => 0%Q
  end.

(** Where the exact value [X] lies between the integers [m] and [m + 1],
    as the round and sticky bits of a shifted mantissa record it. *)
Definition located (X : Q) (mrs : shr_record) : Prop :=
  let f := (X - inject_Z (shr_m mrs))%Q in
  match shr_r mrs, shr_s mrs with
  | false, false => (f == 0)%Q
  | false, true => (0 < f ∧ f < 1 # 2)%Q
  | true, false => (f == 1 # 2)%Q
  | true, true => ((1 # 2) < f ∧ f < 1)%Q
  end.

(** The largest binary64 number. *)
Definition max_float : Q := (inject_Z (2 ^ 53 - 1) * bpow 971)%Q.

(** The state in which a program starts on the frame [d]: the frame is the
    object 1 and nothing has been shown. *)
Definition initial (d : DataFrame) : State :=
  mkState {[ 1%positive := d ]} [].

(** What [find_weight_column] holds after the columns [pre]: no label and the
    count 0 while no column had a number; otherwise the label of the leftmost
    column with the greatest count, and that count. *)
Definition detected (parses_as_number : string → bool) (pre : DataFrame)
    (weight_column : option Label) (max_numbers : nat) : Prop :=
  match weight_column with
  | None =>
      max_numbers = 0%nat ∧
      Forall (λ c, numeric_count parses_as_number c.2 = 0%nat) pre
  | Some col =>
      ∃ j cells,
        pre !! j = Some (col, cells) ∧
        numeric_count parses_as_number cells = max_numbers ∧
        (0 < max_numbers)%nat ∧
        Forall (λ c, (numeric_count parses_as_number c.2 ≤ max_numbers)%nat) pre ∧
        Forall (λ c, (numeric_count parses_as_number c.2 < max_numbers)%nat) (take j pre)
  end.

(** ** Frames and parsers used as instances *)

Module Examples.

(** A reader of numbers that accepts the decimal integers only. *)
Definition digits (s : string) : bool :=
  bool_decide (is_Some (NilZero.int_of_string s)).

(** Columns [A, B, weight] with the rows [("x","y",10)] and [("p","q",0)]. *)
Definition abw : DataFrame :=
  [ (LStr "A", [CStr "x"; CStr "p"]);
    (LStr "B", [CStr "y"; CStr "q"]);
    (LStr "weight", [CInt 10; CInt 0]) ].

(** Columns [c1, ..., c6, weight] with one row: the weight is 9 and the
    six cells before it are empty. *)
Definition c1_c6_weight : DataFrame :=
  [ (LStr "c1", [CFloat nan]); (LStr "c2", [CFloat nan]); (LStr "c3", [CFloat nan]);
    (LStr "c4", [CFloat nan]); (LStr "c5", [CFloat nan]); (LStr "c6", [CFloat nan]);
    (LStr "weight", [CInt 9]) ].

(** A frame without any number. *)
Definition texts : DataFrame :=
  [ (LInt 0, [CStr "a"; CStr "b"]); (LInt 1, [CStr "c"; CStr "d"]) ].

(** Two columns with as many numbers each. *)
Definition tie : DataFrame :=
  [ (LInt 0, [CStr "a"; CStr "b"]);
    (LInt 1, [CInt 1; CInt 2]);
    (LInt 2, [CFloat 3; CFloat 4]) ].

End Examples.

Module MoreExamples.

(** One column of weights with a text in the second row. *)
Definition with_text : DataFrame :=
  [ (LInt 0, [CInt 5; CStr "x"; CInt 3]) ].

(** One column of weights. *)
Definition only_weights : DataFrame :=
  [ (LInt 0, [CInt 0; CInt 3]) ].

(** Weights first, then a column of texts; one weight is missing. *)
Definition weights_first : DataFrame :=
  [ (LInt 0, [CFloat 7; CFloat nan; CFloat 9; CFloat 1; CFloat 2]);
    (LInt 1, [CStr "a"; CStr "b"; CStr "c"; CStr "d"; CStr "e"]) ].

End MoreExamples.

(** ** Lemmas on the primitives *)

Lemma str_of_int_inj (a b : Z) : str_of_int a = str_of_int b → a = b.
Proof.
  unfold str_of_int. intros H.
  assert (Hs : ∀ z, NilZero.int_of_string (NilZero.string_of_int (Z.to_int z)) = Some (Z.to_int z)).
  { intros z. apply NilZero.isi; destruct z as [|p|p]; simpl; try discriminate;
      intros [= Hp]; by destruct (DecimalPos.Unsigned.to_uint_nonnil p). }
  apply DecimalZ.to_int_inj.
  pose proof (Hs a) as Ha. rewrite H, Hs in Ha. congruence.
Qed.

Lemma Container_inj (a b : Z) : Container_ a = Container_ b → a = b.
Proof. unfold Container_. intros [= H]. by apply str_of_int_inj. Qed.

Lemma Column_inj (a b : Z) : Column_ a = Column_ b → a = b.
Proof. unfold Column_. intros [= H]. by apply str_of_int_inj. Qed.

Lemma Column_Container (a b : Z) : Column_ a ≠ Container_ b.
Proof. unfold Column_, Container_. intros [= H]. Qed.

Lemma list_index_spec (l : list Label) (x : Label) (i : nat) :
  list_index l x = Ok i ↔ l !! i = Some x ∧ x ∉ take i l.
Proof.
  revert i. induction l as [|y l IH]; intros i; simpl.
  - split; [done | by intros [? _]].
  - destruct (decide (y = x)) as [->|Hne].
    + split.
      * intros [= <-]. split; [done | simpl; apply not_elem_of_nil].
      * intros [Hi Hn]. destruct i as [|i]; [done|].
        simpl in Hn. exfalso. apply Hn. left.
    + destruct i as [|i]; simpl.
      * split; [by destruct (list_index l x) | intros [[= ?] _]; done].
      * rewrite not_elem_of_cons. split.
        -- intros H. assert (list_index l x = Ok i) as [? ?]%IH
             by (destruct (list_index l x); simpl in H; congruence).
           repeat split; [done | congruence | done].
        -- intros (Hi & _ & Hn). by rewrite (proj2 (IH i) (conj Hi Hn)).
Qed.

Lemma list_index_elem (l : list Label) (x : Label) :
  x ∈ l → ∃ i, list_index l x = Ok i.
Proof.
  induction l as [|y l IH]; simpl.
  - by intros ?%elem_of_nil.
  - intros Hin. destruct (decide (y = x)); [by eexists|].
    apply elem_of_cons in Hin as [->|Hin]; [done|].
    destruct (IH Hin) as [i ->]. by eexists.
Qed.

Lemma list_index_lt (l : list Label) (x : Label) (i : nat) :
  list_index l x = Ok i → (i < length l)%nat.
Proof. intros [H _]%list_index_spec. by eapply lookup_lt_Some. Qed.

Lemma list_index_NoDup (l : list Label) (x : Label) (i : nat) :
  NoDup l → l !! i = Some x → list_index l x = Ok i.
Proof.
  intros Hnd Hi. apply list_index_spec. split; [done|].
  intros Hin. apply list_elem_of_lookup in Hin as [j Hj].
  apply lookup_take_Some in Hj as [Hj Hlt].
  assert (j = i) by (eapply NoDup_lookup; eauto). lia.
Qed.

Lemma getitem_elem (d : DataFrame) (c : Label) (cells : list Cell) :
  getitem d c = Some cells → (c, cells) ∈ d.
Proof.
  induction d as [|[l cs] d IH]; simpl; [done|].
  destruct (decide (l = c)) as [->|].
  - intros [= ->]. left.
  - intros H. right. by apply IH.
Qed.

Lemma getitem_app_fresh (pre post : DataFrame) (c : Label) :
  c ∉ columns pre → getitem (pre ++ post) c = getitem post c.
Proof.
  induction pre as [|[l cs] pre IH]; simpl; [done|].
  intros Hn. apply not_elem_of_cons in Hn as [Hne Hn].
  destruct (decide (l = c)); [congruence|]. by apply IH.
Qed.

Lemma getitem_lookup (d : DataFrame) (j : nat) (c : Label) (cells : list Cell) :
  NoDup (columns d) → d !! j = Some (c, cells) → getitem d c = Some cells.
Proof.
  intros Hnd Hj.
  rewrite <- (take_drop_middle d j (c, cells)) in Hnd |- * by done.
  unfold columns in Hnd. rewrite fmap_app, fmap_cons in Hnd. simpl in Hnd.
  apply NoDup_app in Hnd as (_ & Hdis & _).
  rewrite getitem_app_fresh.
  - simpl. by rewrite decide_True.
  - intros Hin. eapply Hdis; [exact Hin | left].
Qed.

Lemma getitem_is_Some (d : DataFrame) (c : Label) :
  c ∈ columns d → is_Some (getitem d c).
Proof.
  induction d as [|[l cs] d IH]; simpl.
  - by intros ?%elem_of_nil.
  - intros Hin. destruct (decide (l = c)); [by eexists|].
    apply elem_of_cons in Hin as [->|Hin]; [done | by apply IH].
Qed.

Lemma dict_set_fresh {V} (k : Label) (v : V) (d : list (Label * V)) :
  k ∉ d.*1 → dict_set k v d = d ++ [(k, v)].
Proof.
  induction d as [|[k' v'] d IH]; simpl; [done|].
  intros Hn. apply not_elem_of_cons in Hn as [Hne Hn].
  destruct (decide (k' = k)); [congruence|]. by rewrite IH.
Qed.

(** ** Detection *)

Section Detection.

Variable parses_as_number : string → bool.

Abbreviation count := (numeric_count parses_as_number).

Lemma detected_step (pre : DataFrame) (wc : option Label) (mx : nat)
    (col : Label) (cells : list Cell) :
  detected parses_as_number pre wc mx →
  detected parses_as_number (pre ++ [(col, cells)])
    (if decide (mx < count cells)%nat then Some col else wc)
    (if decide (mx < count cells)%nat then count cells else mx).
Proof.
  intros Hinv. destruct (decide (mx < count cells)%nat) as [Hlt|Hge].
  - exists (length pre), cells. split_and!.
    + by rewrite lookup_app_r, Nat.sub_diag by lia.
    + done.
    + lia.
    + apply Forall_app. split; [|by repeat constructor].
      destruct wc as [c|]; simpl in Hinv.
      * destruct Hinv as (j & cs & _ & _ & _ & Hall & _).
        eapply Forall_impl; [exact Hall|]. simpl. intros. lia.
      * destruct Hinv as [-> Hall].
        eapply Forall_impl; [exact Hall|]. simpl. intros. lia.
    + rewrite take_app_length.
      destruct wc as [c|]; simpl in Hinv.
      * destruct Hinv as (j & cs & _ & _ & _ & Hall & _).
        eapply Forall_impl; [exact Hall|]. simpl. intros. lia.
      * destruct Hinv as [-> Hall].
        eapply Forall_impl; [exact Hall|]. simpl. intros. lia.
  - destruct wc as [c|]; simpl in *.
    + destruct Hinv as (j & cs & Hj & Hc & Hpos & Hall & Hbefore).
      exists j, cs. split_and!; try done.
      * by apply lookup_app_l_Some.
      * apply Forall_app. split; [done|]. repeat constructor. simpl. lia.
      * rewrite take_app_le; [done|]. apply lookup_lt_Some in Hj. lia.
    + destruct Hinv as [-> Hall]. split; [done|].
      apply Forall_app. split; [done|]. repeat constructor. simpl. lia.
Qed.

Lemma find_weight_loop_detected (pre post : DataFrame) (wc : option Label) (mx : nat) :
  NoDup (columns (pre ++ post)) →
  detected parses_as_number pre wc mx →
  ∃ wc' mx',
    find_weight_loop parses_as_number (pre ++ post) (columns post) wc mx = Ok (wc', mx') ∧
    detected parses_as_number (pre ++ post) wc' mx'.
Proof.
  revert pre wc mx. induction post as [|[col cells] post IH]; intros pre wc mx Hnd Hinv.
  - rewrite app_nil_r. simpl. eauto.
  - simpl.
    rewrite (getitem_lookup _ (length pre) col cells); [|done|].
    2:{ by rewrite lookup_app_r, Nat.sub_diag by lia. }
    pose proof (detected_step pre wc mx col cells Hinv) as Hstep.
    specialize (IH (pre ++ [(col, cells)])).
    rewrite <- app_assoc in IH. simpl in IH.
    destruct (decide (mx < count cells)%nat); by apply IH.
Qed.

(** C3: on a frame with distinct labels [find_weight_column] returns the
    label of the leftmost column whose count of numeric cells is the greatest
    (every column has at most that count, every column to its left has
    strictly less) together with that count, which is positive; it returns no
    label, and the count 0, exactly when no column holds a numeric cell. *)
Theorem find_weight_column_leftmost_max (d : DataFrame) :
  NoDup (columns d) →
  ∃ weight_column max_numbers,
    find_weight_column parses_as_number d = Ok (weight_column, max_numbers) ∧
    match weight_column with
    | Some col =>
        ∃ j cells,
          d !! j = Some (col, cells) ∧
          count cells = max_numbers ∧
          (0 < max_numbers)%nat ∧
          (∀ c, c ∈ d → (count c.2 ≤ max_numbers)%nat) ∧
          (∀ j' c, (j' < j)%nat → d !! j' = Some c → (count c.2 < max_numbers)%nat)
    | None => max_numbers = 0%nat
    end ∧
    (weight_column = None ↔ ∀ c, c ∈ d → count c.2 = 0%nat).
Proof.
  intros Hnd.
  destruct (find_weight_loop_detected [] d None 0%nat) as (wc & mx & Hrun & Hdet).
  { done. }
  { split; [done | constructor]. }
  simpl in Hrun, Hdet. exists wc, mx. split; [exact Hrun|].
  destruct wc as [col|]; simpl in Hdet.
  - destruct Hdet as (j & cells & Hj & Hc & Hpos & Hall & Hbefore).
    split.
    + exists j, cells. split_and!; try done.
      * intros c Hc'. by eapply (proj1 (Forall_forall _ _) Hall).
      * intros j' c Hlt Hj'.
        eapply (proj1 (Forall_forall _ _) Hbefore).
        apply list_elem_of_lookup. exists j'. by apply lookup_take_Some.
    + split; [done|]. intros Hzero.
      assert ((col, cells) ∈ d) as Hin by (apply list_elem_of_lookup; eauto).
      apply Hzero in Hin. simpl in Hin. lia.
  - destruct Hdet as [-> Hall]. split; [done|]. split; [|done].
    intros _ c Hc. by eapply (proj1 (Forall_forall _ _) Hall).
Qed.

End Detection.

Lemma find_weight_column_leftmost_max_witness :
  NoDup (columns Examples.tie) ∧
  ∃ weight_column max_numbers,
    find_weight_column Examples.digits Examples.tie = Ok (weight_column, max_numbers) ∧
    match weight_column with
    | Some col =>
        ∃ j cells,
          Examples.tie !! j = Some (col, cells) ∧
          numeric_count Examples.digits cells = max_numbers ∧
          (0 < max_numbers)%nat ∧
          (∀ c, c ∈ Examples.tie → (numeric_count Examples.digits c.2 ≤ max_numbers)%nat) ∧
          (∀ j' c, (j' < j)%nat → Examples.tie !! j' = Some c →
                   (numeric_count Examples.digits c.2 < max_numbers)%nat)
    | None => max_numbers = 0%nat
    end ∧
    (weight_column = None ↔
     ∀ c, c ∈ Examples.tie → numeric_count Examples.digits c.2 = 0%nat).
Proof.
  assert (H : NoDup (columns Examples.tie))
    by (apply (bool_decide_unpack (NoDup (columns Examples.tie))); vm_compute; exact I).
  split; [exact H | exact (find_weight_column_leftmost_max Examples.digits Examples.tie H)].
Defined.

(** ** Reshaping *)

Lemma foldl_dict_set_fresh {A V} (key : A → Label) (val : A → V)
    (l : list A) (acc : list (Label * V)) :
  NoDup (key <$> l) →
  (∀ a, a ∈ l → key a ∉ acc.*1) →
  foldl (λ acc a, dict_set (key a) (val a) acc) acc l
  = acc ++ ((λ a, (key a, val a)) <$> l).
Proof.
  revert acc. induction l as [|a l IH]; intros acc Hnd Hfresh; simpl.
  - by rewrite app_nil_r.
  - rewrite fmap_cons in Hnd. apply NoDup_cons in Hnd as [Ha Hnd].
    rewrite dict_set_fresh by (apply Hfresh; left).
    rewrite IH; [by rewrite <- app_assoc | done |].
    intros b Hb. rewrite fmap_app. simpl.
    rewrite elem_of_app, list_elem_of_singleton.
    intros [Hin | Heq].
    + by apply (Hfresh b); [right|].
    + apply Ha. rewrite <- Heq. by apply list_elem_of_fmap_2.
Qed.

Lemma range_NoDup (n : Z) : NoDup (range n).
Proof.
  unfold range. apply NoDup_fmap_2; [apply _ | apply NoDup_seq].
Qed.

Lemma range_elem (n i : Z) : i ∈ range n ↔ 0 ≤ i < n.
Proof.
  unfold range. rewrite list_elem_of_fmap. split.
  - intros (k & -> & Hk). apply elem_of_seq in Hk. lia.
  - intros H. exists (Z.to_nat i). split; [lia|]. apply elem_of_seq. lia.
Qed.

Lemma range_length (n : Z) : length (range n) = Z.to_nat n.
Proof. unfold range. by rewrite length_fmap, length_seq. Qed.

Lemma range_lookup (n : Z) (k : nat) :
  (k < Z.to_nat n)%nat → range n !! k = Some (Z.of_nat k).
Proof.
  intros Hk. unfold range. rewrite list_lookup_fmap, lookup_seq_lt by done. done.
Qed.

Lemma containers_NoDup (n : Z) : NoDup ((λ i, Container_ (i + 1)) <$> range n).
Proof.
  apply NoDup_fmap_2; [|apply range_NoDup].
  intros a b H%Container_inj. lia.
Qed.

Lemma add_containers_fresh (d : DataFrame) (n : Z) :
  add_containers d n []
  = (λ i, (Container_ (i + 1), replicate (len d) (CFloat 0))) <$> range n.
Proof.
  unfold add_containers.
  rewrite (foldl_dict_set_fresh (λ i, Container_ (i + 1))
             (λ _, replicate (len d) (CFloat 0))).
  - done.
  - apply containers_NoDup.
  - intros a _. simpl. apply not_elem_of_nil.
Qed.

Lemma add_shifted_fresh (pre post : DataFrame) (s : Z) (acc : list (Label * list Cell)) :
  NoDup (columns (pre ++ post)) →
  (∀ j, (length pre ≤ j)%nat → Column_ (Z.of_nat j + s) ∉ acc.*1) →
  add_shifted (pre ++ post) s (zip (seq (length pre) (length post)) (columns post)) acc
  = Ok (acc ++ ((λ ic : nat * (Label * list Cell), (Column_ (Z.of_nat ic.1 + s), ic.2.2))
                 <$> zip (seq (length pre) (length post)) post)).
Proof.
  revert pre acc. induction post as [|[col cells] post IH]; intros pre acc Hnd Hfresh.
  - simpl. by rewrite app_nil_r.
  - simpl.
    rewrite (getitem_lookup _ (length pre) col cells); [|done|].
    2:{ by rewrite lookup_app_r, Nat.sub_diag by lia. }
    rewrite dict_set_fresh by (apply Hfresh; lia).
    specialize (IH (pre ++ [(col, cells)]) (acc ++ [(Column_ (Z.of_nat (length pre) + s), cells)])).
    rewrite <- app_assoc, length_app in IH. simpl in IH.
    rewrite Nat.add_1_r in IH. rewrite IH.
    + by rewrite <- app_assoc.
    + done.
    + intros j Hj. rewrite fmap_app. simpl.
      rewrite elem_of_app, list_elem_of_singleton.
      intros [Hin | Heq%Column_inj]; [|lia].
      by apply (Hfresh j); [lia|].
Qed.

Lemma columns_length (d : DataFrame) : length (columns d) = length d.
Proof. unfold columns. by rewrite length_fmap. Qed.

Lemma add_shifted_frame (d : DataFrame) (n s : Z) :
  NoDup (columns d) →
  add_shifted d s (enumerate (columns d)) (add_containers d n []) = Ok (shifted_frame d n s).
Proof.
  intros Hnd. unfold enumerate. rewrite columns_length.
  pose proof (add_shifted_fresh [] d s (add_containers d n [])) as H.
  simpl in H. rewrite H; [by rewrite add_containers_fresh | done |].
  intros j _. rewrite add_containers_fresh, <- list_fmap_compose.
  intros (i & Heq & _)%list_elem_of_fmap. simpl in Heq.
  by apply Column_Container in Heq.
Qed.

Lemma shifted_frame_len (d : DataFrame) (n s : Z) :
  1 ≤ n → len (shifted_frame d n s) = len d.
Proof.
  intros Hn. unfold shifted_frame, range.
  destruct (Z.to_nat n) as [|k] eqn:Hk; [lia|].
  simpl. by rewrite length_replicate.
Qed.

Lemma shifted_frame_rectangular (d : DataFrame) (n s : Z) :
  1 ≤ n →
  Forall (λ c, length c.2 = len d) d →
  Forall (λ c, length c.2 = len (shifted_frame d n s)) (shifted_frame d n s).
Proof.
  intros Hn Hrect. rewrite shifted_frame_len by done.
  unfold shifted_frame. apply Forall_app. split.
  - apply Forall_fmap, Forall_true. intros i. simpl. by rewrite length_replicate.
  - apply Forall_fmap, Forall_forall. intros [j [l cells]] Hin. simpl.
    unfold enumerate in Hin. apply elem_of_zip_r in Hin.
    by apply (proj1 (Forall_forall _ _) Hrect) in Hin.
Qed.

Lemma zip_seq_lookup {A} (l : list A) (k j : nat) :
  zip (seq k (length l)) l !! j = (λ x, ((k + j)%nat, x)) <$> l !! j.
Proof.
  revert k j. induction l as [|x l IH]; intros k j; simpl; [done|].
  destruct j as [|j]; simpl.
  - by rewrite Nat.add_0_r.
  - rewrite IH. by replace (S k + j)%nat with (k + S j)%nat by lia.
Qed.

Lemma enumerate_lookup {A} (l : list A) (j : nat) :
  enumerate l !! j = (λ x, (j, x)) <$> l !! j.
Proof. unfold enumerate. by rewrite zip_seq_lookup. Qed.

Lemma enumerate_length {A} (l : list A) : length (enumerate l) = length l.
Proof. unfold enumerate. rewrite length_zip, length_seq. lia. Qed.

Lemma shifted_frame_length (d : DataFrame) (n s : Z) :
  length (shifted_frame d n s) = (Z.to_nat n + length d)%nat.
Proof.
  unfold shifted_frame.
  by rewrite length_app, !length_fmap, range_length, enumerate_length.
Qed.

Lemma shifted_frame_container (d : DataFrame) (n s : Z) (k : nat) :
  (k < Z.to_nat n)%nat →
  shifted_frame d n s !! k
  = Some (Container_ (Z.of_nat k + 1), replicate (len d) (CFloat 0)).
Proof.
  intros Hk. unfold shifted_frame.
  rewrite lookup_app_l by (by rewrite length_fmap, range_length).
  by rewrite list_lookup_fmap, range_lookup.
Qed.

Lemma shifted_frame_original (d : DataFrame) (n s : Z) (j : nat) (c : Label) (cells : list Cell) :
  d !! j = Some (c, cells) →
  shifted_frame d n s !! (Z.to_nat n + j)%nat = Some (Column_ (Z.of_nat j + s), cells).
Proof.
  intros Hj. unfold shifted_frame.
  rewrite lookup_app_r by (rewrite length_fmap, range_length; lia).
  rewrite length_fmap, range_length.
  replace (Z.to_nat n + j - Z.to_nat n)%nat with j by lia.
  by rewrite list_lookup_fmap, enumerate_lookup, Hj.
Qed.

Lemma shifted_frame_columns (d : DataFrame) (n s : Z) :
  columns (shifted_frame d n s)
  = ((λ i, Container_ (i + 1)) <$> range n) ++
    ((λ j, Column_ (Z.of_nat j + s)) <$> seq 0 (length d)).
Proof.
  unfold columns, shifted_frame. rewrite fmap_app, <- !list_fmap_compose.
  f_equal. unfold enumerate.
  generalize 0%nat. induction d as [|x d IH]; intros k; simpl; [done|].
  by rewrite IH.
Qed.

Lemma shifted_frame_NoDup (d : DataFrame) (n s : Z) :
  NoDup (columns (shifted_frame d n s)).
Proof.
  rewrite shifted_frame_columns. apply NoDup_app. split_and!.
  - apply containers_NoDup.
  - intros l (i & -> & _)%list_elem_of_fmap (j & Heq & _)%list_elem_of_fmap.
    symmetry in Heq. by apply Column_Container in Heq.
  - apply NoDup_fmap_2; [|apply NoDup_seq].
    intros a b H%Column_inj. lia.
Qed.

Lemma take_containers (d : DataFrame) (n s : Z) :
  take (Z.to_nat n) (columns (shifted_frame d n s)) = (λ i, Container_ (i + 1)) <$> range n.
Proof.
  rewrite shifted_frame_columns.
  rewrite take_app_length'; [done|]. by rewrite length_fmap, range_length.
Qed.

Ltac py_unfold :=
  unfold mbind, Py_bind, mret, Py_ret, lift, raise, deref, alloc, copy, st; simpl.

(** The shift path in closed form. *)
Lemma shift_path (σ : State) (df : loc) (d : DataFrame) (wc : Label) (n : Z) (i : nat) :
  heap σ !! df = Some d →
  well_formed d →
  list_index (columns d) wc = Ok i →
  Z.of_nat i < n →
  shift_columns_and_create_containers df wc n σ
  = (Ok (fresh (dom (heap σ)), Column_ n, (λ i, Container_ (i + 1)) <$> range n),
     mkState (<[fresh (dom (heap σ)) := shifted_frame d n (n - Z.of_nat i)]> (heap σ))
             (shown σ)).
Proof.
  intros Hdf [Hnd Hrect] Hidx Hlt.
  unfold shift_columns_and_create_containers. py_unfold.
  rewrite Hdf. simpl. rewrite Hidx. simpl.
  rewrite decide_True by done.
  rewrite add_shifted_frame by done. simpl.
  unfold DataFrame_of_dict.
  rewrite decide_True by (apply shifted_frame_rectangular; [lia | done]).
  simpl. repeat f_equal. lia.
Qed.

(** The other path in closed form. *)
Lemma no_shift_path (σ : State) (df : loc) (d : DataFrame) (wc : Label) (n : Z) (i : nat) :
  heap σ !! df = Some d →
  list_index (columns d) wc = Ok i →
  n ≤ Z.of_nat i →
  shift_columns_and_create_containers df wc n σ
  = (Ok (fresh (dom (heap σ)), wc, take i (columns d)),
     mkState (<[fresh (dom (heap σ)) := d]> (heap σ)) (shown σ)).
Proof.
  intros Hdf Hidx Hge.
  unfold shift_columns_and_create_containers. py_unfold.
  rewrite Hdf. simpl. rewrite Hidx. simpl.
  rewrite decide_False by lia. py_unfold. by rewrite Hdf.
Qed.

Lemma fresh_loc_None (σ : State) : heap σ !! fresh (dom (heap σ)) = None.
Proof. apply not_elem_of_dom, is_fresh. Qed.

(** ** Distribution *)

Lemma float_gt_zero_not_le (f : float) :
  PrimFloat.ltb 0 f = true → PrimFloat.leb f 0 = false.
Proof.
  rewrite ltb_spec, leb_spec. unfold SFltb, SFleb.
  change (Prim2SF 0) with (S754_zero false).
  destruct (Prim2SF f) as [s|s| |s m e]; simpl; try done; by destruct s.
Qed.

Lemma gt_zero_le_zero (w : Cell) : gt_zero w = Ok true → le_zero w = Ok false.
Proof.
  destruct w as [z|f|s]; simpl; intros [= H].
  - f_equal. lia.
  - f_equal. by apply float_gt_zero_not_le.
Qed.

Lemma positive_weight_gt_zero (w : Cell) :
  positive_weight w = true ↔ isna w = false ∧ gt_zero w = Ok true.
Proof.
  unfold positive_weight. destruct (isna w); simpl.
  - split; [done | by intros [? _]].
  - destruct (gt_zero w) as [[]| |]; (split; [by intros ? | by intros [_ ?]]).
Qed.

(** [distribute_weight] on a weight that passes the loop's test. *)
Lemma distribute_weight_positive (w : Cell) (n : nat) :
  positive_weight w = true → n ≠ 0%nat →
  distribute_weight w n = Ok (replicate n (share w n)).
Proof.
  intros [Hna Hgt]%positive_weight_gt_zero Hn.
  unfold distribute_weight, share. rewrite Hna, (gt_zero_le_zero w Hgt). simpl.
  unfold truediv. destruct w as [z|f|s]; simpl in *.
  - by rewrite decide_False.
  - by rewrite decide_False.
  - discriminate.
Qed.

Lemma set_cell_columns (p : DataFrame) (i : nat) (c : Label) (v : Cell) :
  columns (set_cell p i c v) = columns p.
Proof.
  unfold columns, set_cell. rewrite <- list_fmap_compose.
  apply list_fmap_ext. intros j x _. simpl. by destruct (decide (x.1 = c)).
Qed.

Lemma set_cell_len (p : DataFrame) (i : nat) (c : Label) (v : Cell) :
  len (set_cell p i c v) = len p.
Proof.
  destruct p as [|[l cells] p]; simpl; [done|].
  destruct (decide (l = c)); simpl; [by rewrite length_insert | done].
Qed.

Lemma set_row_nil (i : nat) (v : Cell) (p : DataFrame) : set_row [] i v p = p.
Proof.
  unfold set_row. rewrite <- (list_fmap_id p) at 2.
  apply list_fmap_ext. by intros j x _.
Qed.

Lemma set_row_cons (c : Label) (cs : list Label) (i : nat) (v : Cell) (p : DataFrame) :
  set_row (c :: cs) i v p = set_row cs i v (set_cell p i c v).
Proof.
  unfold set_row, set_cell. rewrite <- list_fmap_compose.
  apply list_fmap_ext. intros j [l cells] _. simpl.
  destruct (decide (l = c)) as [->|Hne]; simpl.
  - rewrite decide_True by left.
    destruct (decide (c ∈ cs)); [|done]. by rewrite list_insert_insert_eq.
  - destruct (decide (l ∈ cs)) as [Hin|Hnin].
    + by rewrite decide_True by (by right).
    + rewrite decide_False; [done|]. rewrite not_elem_of_cons. done.
Qed.

Lemma set_row_columns (cs : list Label) (i : nat) (v : Cell) (p : DataFrame) :
  columns (set_row cs i v p) = columns p.
Proof.
  unfold columns, set_row. rewrite <- list_fmap_compose.
  apply list_fmap_ext. intros j x _. simpl. by destruct (decide (x.1 ∈ cs)).
Qed.

Lemma set_row_len (cs : list Label) (i : nat) (v : Cell) (p : DataFrame) :
  len (set_row cs i v p) = len p.
Proof.
  destruct p as [|[l cells] p]; simpl; [done|].
  destruct (decide (l ∈ cs)); simpl; [by rewrite length_insert | done].
Qed.

Lemma state_eta (σ : State) : mkState (heap σ) (shown σ) = σ.
Proof. by destruct σ. Qed.

(** The inner loop writes one row: cell [i] of every container column
    becomes the share. *)
Lemma write_row_ok (l : loc) (i n : nat) (v : Cell) (cs : list Label) :
  ∀ (k : nat) (σ : State) (p : DataFrame),
    heap σ !! l = Some p →
    (∀ c, c ∈ cs → c ∈ columns p) →
    (i < len p)%nat →
    (k + length cs ≤ n)%nat →
    write_row l i (replicate n v) (zip (seq k (length cs)) cs) σ
    = (Ok (), mkState (<[l := set_row cs i v p]> (heap σ)) (shown σ)).
Proof.
  induction cs as [|c cs IH]; intros k σ p Hl Hsub Hi Hk; simpl.
  - rewrite set_row_nil, insert_id by done. unfold mret, Py_ret. by rewrite state_eta.
  - simpl in Hk. py_unfold. unfold list_getitem.
    rewrite lookup_replicate_2 by lia. simpl.
    unfold at_set. rewrite Hl.
    rewrite decide_True by (split; [apply Hsub; left | done]).
    rewrite (IH (S k) _ (set_cell p i c v)); simpl.
    + by rewrite insert_insert_eq, set_row_cons.
    + by rewrite lookup_insert_eq.
    + intros c' Hc'. rewrite set_cell_columns. apply Hsub. by right.
    + by rewrite set_cell_len.
    + lia.
Qed.

Lemma fill_cells_length (n : nat) (ws : list Cell) :
  ∀ (k : nat) (cells : list Cell), length (fill_cells n k ws cells) = length cells.
Proof.
  induction ws as [|w ws IH]; intros k cells; simpl; [done|].
  rewrite IH. destruct (positive_weight w); [by rewrite length_insert | done].
Qed.

Lemma fill_cells_before (n : nat) (ws : list Cell) :
  ∀ (k i : nat) (cells : list Cell),
    (i < k)%nat → fill_cells n k ws cells !! i = cells !! i.
Proof.
  induction ws as [|w ws IH]; intros k i cells Hi; simpl; [done|].
  rewrite IH by lia.
  destruct (positive_weight w); [by rewrite list_lookup_insert_ne by lia | done].
Qed.

(** A row whose weight fails the loop's test keeps its cell. *)
Lemma fill_cells_skipped (n : nat) (ws : list Cell) :
  ∀ (k j : nat) (cells : list Cell) (w : Cell),
    ws !! j = Some w → positive_weight w = false →
    fill_cells n k ws cells !! (k + j)%nat = cells !! (k + j)%nat.
Proof.
  induction ws as [|w0 ws IH]; intros k j cells w Hj Hw; [done|].
  destruct j as [|j]; simpl in *.
  - injection Hj as ->. rewrite Hw. by rewrite fill_cells_before by lia.
  - replace (k + S j)%nat with (S k + j)%nat by lia.
    rewrite (IH _ _ _ w) by done.
    destruct (positive_weight w0); [by rewrite list_lookup_insert_ne by lia | done].
Qed.

(** A row whose weight passes it holds the share. *)
Lemma fill_cells_written (n : nat) (ws : list Cell) :
  ∀ (k j : nat) (cells : list Cell) (w : Cell),
    ws !! j = Some w → positive_weight w = true → (k + j < length cells)%nat →
    fill_cells n k ws cells !! (k + j)%nat = Some (share w n).
Proof.
  induction ws as [|w0 ws IH]; intros k j cells w Hj Hw Hlen; [done|].
  destruct j as [|j]; simpl in *.
  - injection Hj as ->. rewrite Hw, Nat.add_0_r in *.
    rewrite fill_cells_before by lia.
    by rewrite list_lookup_insert_eq by lia.
  - replace (k + S j)%nat with (S k + j)%nat by lia.
    apply IH; [done | done |].
    destruct (positive_weight w0); [rewrite length_insert|]; lia.
Qed.

(** Rows past the weights keep their cells. *)
Lemma fill_cells_beyond (n : nat) (ws : list Cell) :
  ∀ (k i : nat) (cells : list Cell),
    (k + length ws ≤ i)%nat → fill_cells n k ws cells !! i = cells !! i.
Proof.
  induction ws as [|w ws IH]; intros k i cells Hi; simpl in *; [done|].
  rewrite IH by lia.
  destruct (positive_weight w); [by rewrite list_lookup_insert_ne by lia | done].
Qed.

Lemma fill_frame_columns (cs : list Label) (k : nat) (ws : list Cell) (p : DataFrame) :
  columns (fill_frame cs k ws p) = columns p.
Proof.
  unfold columns, fill_frame. rewrite <- list_fmap_compose.
  apply list_fmap_ext. intros j x _. simpl. by destruct (decide (x.1 ∈ cs)).
Qed.

Lemma fill_frame_len (cs : list Label) (k : nat) (ws : list Cell) (p : DataFrame) :
  len (fill_frame cs k ws p) = len p.
Proof.
  destruct p as [|[l cells] p]; simpl; [done|].
  destruct (decide (l ∈ cs)); simpl; [by rewrite fill_cells_length | done].
Qed.

Lemma fill_frame_nil (cs : list Label) (k : nat) (p : DataFrame) :
  fill_frame cs k [] p = p.
Proof.
  unfold fill_frame. rewrite <- (list_fmap_id p) at 2.
  apply list_fmap_ext. intros j [l cells] _. simpl. by destruct (decide (l ∈ cs)).
Qed.

Lemma fill_frame_cons (cs : list Label) (k : nat) (w : Cell) (ws : list Cell) (p : DataFrame) :
  fill_frame cs k (w :: ws) p
  = fill_frame cs (S k) ws
      (if positive_weight w then set_row cs k (share w (length cs)) p else p).
Proof.
  unfold fill_frame, set_row. destruct (positive_weight w) eqn:Hw.
  - rewrite <- list_fmap_compose. apply list_fmap_ext. intros j [l cells] _. simpl.
    destruct (decide (l ∈ cs)); simpl.
    + rewrite decide_True by done. by rewrite Hw.
    + by rewrite decide_False by done.
  - apply list_fmap_ext. intros j [l cells] _. simpl.
    destruct (decide (l ∈ cs)); simpl; [by rewrite Hw | done].
Qed.

Lemma loop_test_value (w : Cell) :
  is_text w = false →
  (if negb (isna w) then gt_zero w else Ok false) = Ok (positive_weight w).
Proof.
  unfold positive_weight. destruct w as [z|f|s]; simpl; [done | | done].
  intros _. by destruct (is_nan f).
Qed.

(** The outer loop in closed form: it returns the number of rows whose
    weight passes the test and leaves the frame filled. *)
Lemma distribute_rows_ok (l : loc) (cs : list Label) (ws : list Cell) :
  ∀ (k : nat) (σ : State) (p : DataFrame) (acc : nat),
    heap σ !! l = Some p →
    (∀ c, c ∈ cs → c ∈ columns p) →
    (k + length ws ≤ len p)%nat →
    Forall (λ w, is_text w = false) ws →
    cs ≠ [] ∨ Forall (λ w, positive_weight w = false) ws →
    distribute_rows l cs (zip (seq k (length ws)) ws) acc σ
    = (Ok (acc + length (filter (λ w, positive_weight w = true) ws))%nat,
       mkState (<[l := fill_frame cs k ws p]> (heap σ)) (shown σ)).
Proof.
  induction ws as [|w ws IH]; intros k σ p acc Hl Hsub Hk Htext Hcs; simpl.
  - rewrite fill_frame_nil, insert_id, Nat.add_0_r by done.
    unfold mret, Py_ret. by rewrite state_eta.
  - simpl in Hk. apply Forall_cons in Htext as [Hw Htext].
    rewrite fill_frame_cons.
    unfold mbind at 1, Py_bind at 1, lift at 1. rewrite (loop_test_value w Hw).
    destruct (positive_weight w) eqn:Hpos.
    + assert (cs ≠ []) as Hne.
      { destruct Hcs as [?|Hall]; [done|].
        apply Forall_cons in Hall as [Hall _]. congruence. }
      assert (length cs ≠ 0%nat) as Hlen by (by destruct cs).
      unfold mbind at 1, Py_bind at 1, lift at 1.
      rewrite (distribute_weight_positive w (length cs) Hpos Hlen).
      unfold mbind at 1, Py_bind at 1.
      unfold enumerate.
      rewrite (write_row_ok l k (length cs) _ cs 0%nat σ p) by (done || lia).
      rewrite (IH (S k) _ (set_row cs k (share w (length cs)) p)); simpl.
      * rewrite insert_insert_eq, filter_cons_True by done. simpl.
        do 2 f_equal. lia.
      * by rewrite lookup_insert_eq.
      * intros c Hc. rewrite set_row_columns. by apply Hsub.
      * rewrite set_row_len. lia.
      * done.
      * by left.
    + assert (cs ≠ [] ∨ Forall (λ w, positive_weight w = false) ws) as Hcs'.
      { destruct Hcs as [?|Hall]; [by left | right].
        by apply Forall_cons in Hall as [_ ?]. }
      rewrite (IH (S k) σ p acc Hl Hsub ltac:(lia) Htext Hcs').
      by rewrite filter_cons_False by congruence.
Qed.

(** ** The whole method *)

Lemma lookup_column (d : DataFrame) (wc : Label) (i : nat) (ws : list Cell) :
  NoDup (columns d) →
  list_index (columns d) wc = Ok i → getitem d wc = Some ws → d !! i = Some (wc, ws).
Proof.
  intros Hnd [Hi _]%list_index_spec Hget.
  unfold columns in Hi. rewrite list_lookup_fmap in Hi.
  destruct (d !! i) as [[c cells]|] eqn:Hd; simpl in Hi; [|done].
  injection Hi as ->. pose proof (getitem_lookup d i wc cells Hnd Hd). congruence.
Qed.

Section Pipeline.

Variable parses_as_number : string → bool.

(** The frame, weight label and containers that reshaping yields. *)
Lemma process_dataframe_ok (σ : State) (df : loc) (d : DataFrame) (n : Z)
    (wc : Label) (count i : nat) (ws : list Cell) :
  heap σ !! df = Some d →
  well_formed d →
  find_weight_column parses_as_number d = Ok (Some wc, count) →
  list_index (columns d) wc = Ok i →
  getitem d wc = Some ws →
  Forall (λ w, is_text w = false) ws →
  0 < n ∨ (0 < i)%nat ∨ Forall (λ w, positive_weight w = false) ws →
  let new := fresh (dom (heap σ)) in
  let p := if decide (Z.of_nat i < n) then shifted_frame d n (n - Z.of_nat i) else d in
  let fw := if decide (Z.of_nat i < n) then Column_ n else wc in
  let cs := if decide (Z.of_nat i < n) then (λ i, Container_ (i + 1)) <$> range n
            else take i (columns d) in
  process_dataframe parses_as_number df n σ
  = (Ok (Some (new, fw, cs)),
     mkState (<[new := fill_frame cs 0 ws p]> (heap σ))
             (shown σ ++ [StInfoDetected wc count; StInfoContainers cs;
                          StInfoFinalWeight fw;
                          StSuccessProcessed
                            (length (filter (λ w, positive_weight w = true) ws))
                            (length cs)])).
Proof.
  intros Hl Hwf Hfind Hidx Hget Htext Hdiv new p fw cs.
  pose proof Hwf as [Hnd Hrect].
  pose proof (lookup_column d wc i ws Hnd Hidx Hget) as Hcol.
  assert (length ws = len d) as Hlen.
  { apply list_elem_of_lookup_2 in Hcol.
    by apply (proj1 (Forall_forall _ _) Hrect) in Hcol. }
  assert (shift_columns_and_create_containers df wc n
            (mkState (heap σ) (shown σ ++ [StInfoDetected wc count]))
          = (Ok (new, fw, cs),
             mkState (<[new := p]> (heap σ)) (shown σ ++ [StInfoDetected wc count])))
    as Hshift.
  { subst new p fw cs. destruct (decide (Z.of_nat i < n)).
    - by rewrite (shift_path _ df d wc n i).
    - by rewrite (no_shift_path _ df d wc n i) by (done || lia). }
  assert (getitem p fw = Some ws ∧ len p = len d ∧ (∀ c, c ∈ cs → c ∈ columns p) ∧
          (cs ≠ [] ∨ Forall (λ w, positive_weight w = false) ws)) as (Hw & Hp & Hsub & Hcs).
  { subst new p fw cs. destruct (decide (Z.of_nat i < n)) as [Hlt|Hge].
    - split_and!.
      + apply (getitem_lookup _ (Z.to_nat n + i)); [apply shifted_frame_NoDup|].
        rewrite (shifted_frame_original d n _ i wc ws Hcol). do 3 f_equal. lia.
      + apply shifted_frame_len. lia.
      + intros c Hc. rewrite shifted_frame_columns. apply elem_of_app. by left.
      + left. unfold range. destruct (Z.to_nat n) eqn:Hn; [lia | done].
    - split_and!; try done.
      + intros c Hc. by apply (subseteq_take i (columns d)).
      + assert ((0 < i)%nat ∨ Forall (λ w, positive_weight w = false) ws) as [Hi|?]
          by (destruct Hdiv as [?|[?|?]]; [left; lia | by left | by right]);
          [left | by right].
        apply list_index_lt in Hidx.
        destruct (columns d), i; simpl in *; (done || lia). }
  unfold process_dataframe.
  unfold mbind at 1, Py_bind at 1, deref at 1. rewrite Hl.
  unfold mbind at 1, Py_bind at 1, lift at 1. rewrite Hfind.
  unfold mbind at 1, Py_bind at 1, st at 1.
  unfold mbind at 1, Py_bind at 1. rewrite Hshift.
  unfold mbind at 1, Py_bind at 1, st at 1.
  unfold mbind at 1, Py_bind at 1, st at 1.
  unfold mbind at 1, Py_bind at 1, deref at 1. simpl heap. rewrite lookup_insert_eq.
  unfold mbind at 1, Py_bind at 1. rewrite Hw. unfold mret at 1, Py_ret at 1.
  unfold mbind at 1, Py_bind at 1. unfold enumerate at 1.
  rewrite (distribute_rows_ok new cs ws 0%nat _ p 0%nat); simpl.
  - unfold mbind, Py_bind, st, mret, Py_ret. simpl.
    rewrite insert_insert_eq, <- !app_assoc. done.
  - by rewrite lookup_insert_eq.
  - done.
  - lia.
  - done.
  - done.
Qed.

End Pipeline.

(** ** The loop's test in the words of the claims *)

Lemma is_nan_Prim2SF (f : float) : is_nan f = true ↔ Prim2SF f = S754_nan.
Proof.
  unfold Prim2SF. destruct (is_nan f); [done|].
  split; [done|].
  destruct (is_zero f); [done|]. destruct (is_infinity f); [done|].
  destruct (Z.frexp f) as [r e].
  destruct (shr_fexp prec emax _ _ _) as [m e'].
  by destruct (shr_m m).
Qed.

Lemma float_gt_zero_notna (f : float) : PrimFloat.ltb 0 f = true → is_nan f = false.
Proof.
  intros Hlt. destruct (is_nan f) eqn:Hnan; [|done].
  apply is_nan_Prim2SF in Hnan. rewrite ltb_spec, Hnan in Hlt. done.
Qed.

Lemma float_le_zero_not_gt (f : float) :
  PrimFloat.leb f 0 = true → PrimFloat.ltb 0 f = false.
Proof.
  rewrite ltb_spec, leb_spec. unfold SFltb, SFleb.
  change (Prim2SF 0) with (S754_zero false).
  destruct (Prim2SF f) as [s|s| |s m e]; simpl; try done; by destruct s.
Qed.

Lemma float_not_gt_le (f : float) :
  is_nan f = false → PrimFloat.ltb 0 f = false → PrimFloat.leb f 0 = true.
Proof.
  intros Hnan. assert (Prim2SF f ≠ S754_nan) as Hne.
  { intros H%is_nan_Prim2SF. congruence. }
  rewrite ltb_spec, leb_spec. unfold SFltb, SFleb.
  change (Prim2SF 0) with (S754_zero false).
  destruct (Prim2SF f) as [s|s| |s m e]; simpl; try done; by destruct s.
Qed.

(** The test passes exactly on a number greater than 0. *)
Lemma positive_weight_iff (w : Cell) :
  positive_weight w = true ↔ gt_zero w = Ok true.
Proof.
  rewrite positive_weight_gt_zero. split; [by intros [_ ?]|].
  intros H. split; [|done].
  destruct w as [z|f|s]; simpl in *; [done | | done].
  injection H as H. by apply float_gt_zero_notna.
Qed.

(** On a number or a missing value the test fails exactly when the value is
    missing or at most 0. *)
Lemma nonpositive_weight_iff (w : Cell) :
  is_text w = false →
  positive_weight w = false ↔ isna w = true ∨ le_zero w = Ok true.
Proof.
  intros Htext. unfold positive_weight.
  destruct w as [z|f|s]; simpl in *; [| |done].
  - split.
    + intros H. right. f_equal. lia.
    + intros [?|[= H]]; [done | lia].
  - destruct (is_nan f) eqn:Hnan; simpl.
    + split; [by left | done].
    + split.
      * intros H. right. f_equal. by apply float_not_gt_le.
      * intros [?|[= H]]; [done|]. by apply float_le_zero_not_gt.
Qed.

(** ** Reshaping: the claims *)

(** C1: on the columns [c1, ..., c6, weight] with one row of weight 9 (the
    cells before the weight empty) and 5 containers asked for, the weight
    column is detected at index 6, so nothing is shifted; the containers
    returned are the six columns [c1, ..., c6], not the first five, and
    each of them gets round(9/6, 2) = 1.5 in that row, where the count asked
    for gives round(9/5, 2) = 1.8 in [c1, ..., c5] and leaves [c6] alone. *)
Lemma no_shift_containers_exceed_count :
  find_weight_column Examples.digits Examples.c1_c6_weight
  = Ok (Some (LStr "weight"), 1%nat) ∧
  list_index (columns Examples.c1_c6_weight) (LStr "weight") = Ok 6%nat ∧
  (shift_columns_and_create_containers 1%positive (LStr "weight") 5
     (initial Examples.c1_c6_weight)).1
  = Ok (2%positive, LStr "weight",
        [LStr "c1"; LStr "c2"; LStr "c3"; LStr "c4"; LStr "c5"; LStr "c6"]) ∧
  [LStr "c1"; LStr "c2"; LStr "c3"; LStr "c4"; LStr "c5"; LStr "c6"]
  ≠ take 5 (columns Examples.c1_c6_weight) ∧
  (process_dataframe Examples.digits 1%positive 5
     (initial Examples.c1_c6_weight)).1
  = Ok (Some (2%positive, LStr "weight",
              [LStr "c1"; LStr "c2"; LStr "c3"; LStr "c4"; LStr "c5"; LStr "c6"])) ∧
  heap (process_dataframe Examples.digits 1%positive 5
          (initial Examples.c1_c6_weight)).2 !! 2%positive
  = Some [ (LStr "c1", [CFloat 1.5]); (LStr "c2", [CFloat 1.5]);
           (LStr "c3", [CFloat 1.5]); (LStr "c4", [CFloat 1.5]);
           (LStr "c5", [CFloat 1.5]); (LStr "c6", [CFloat 1.5]);
           (LStr "weight", [CInt 9]) ] ∧
  PyNum.round2 (PyNum.int_truediv 9 6) = 1.5%float ∧
  (PyNum.decimal2 (PyNum.int_truediv 9 5) == 18 # 10)%Q ∧
  PyNum.round2 (PyNum.int_truediv 9 5) ≠ 1.5%float.
Proof.
  split_and!; try (vm_compute; reflexivity).
  - vm_compute. discriminate.
  - intros H. apply (f_equal (PrimFloat.ltb 1.5)) in H. vm_compute in H. discriminate.
Qed.

(** The no-shift path on every table: when the weight column's index [i] is
    at least the count asked for, reshaping returns a copy of the table, the
    weight label unchanged, and as containers the first [i] columns, that is
    all the columns to the left of the weight column, whatever the count. *)
Theorem no_shift_containers_precede_weight (σ : State) (df : loc) (d : DataFrame)
    (wc : Label) (n : Z) (i : nat) :
  heap σ !! df = Some d →
  list_index (columns d) wc = Ok i →
  n ≤ Z.of_nat i →
  ∃ new_df σ',
    shift_columns_and_create_containers df wc n σ
    = (Ok (new_df, wc, take i (columns d)), σ') ∧
    heap σ' !! new_df = Some d ∧
    length (take i (columns d)) = i ∧
    ∀ c, c ∈ take i (columns d) ↔ ∃ j, (j < i)%nat ∧ columns d !! j = Some c.
Proof.
  intros Hl Hidx Hge. eexists _, _. split_and!.
  - by apply (no_shift_path σ df d wc n i).
  - simpl. by rewrite lookup_insert_eq.
  - apply list_index_lt in Hidx. rewrite length_take. lia.
  - intros c. rewrite elem_of_take.
    split; intros (j & ? & ?); by exists j.
Qed.

Lemma no_shift_containers_precede_weight_witness :
  ∃ new_df σ',
    shift_columns_and_create_containers 1%positive (LStr "weight") 5
      (initial Examples.c1_c6_weight)
    = (Ok (new_df, LStr "weight", take 6 (columns Examples.c1_c6_weight)), σ') ∧
    heap σ' !! new_df = Some Examples.c1_c6_weight ∧
    length (take 6 (columns Examples.c1_c6_weight)) = 6%nat ∧
    ∀ c, c ∈ take 6 (columns Examples.c1_c6_weight)
         ↔ ∃ j, (j < 6)%nat ∧ columns Examples.c1_c6_weight !! j = Some c.
Proof.
  apply (no_shift_containers_precede_weight (initial Examples.c1_c6_weight)
           1%positive Examples.c1_c6_weight (LStr "weight") 5 6).
  - reflexivity.
  - reflexivity.
  - lia.
Defined.

(** C2 as stated fails: on the columns [A, B, weight] with 5 containers the
    weight column is relabelled [Column_5] but stands at index 7 of the new
    table (5 containers, then the 3 original columns in their order), not
    at index 5. *)
Lemma shift_weight_position_not_count :
  list_index (columns Examples.abw) (LStr "weight") = Ok 2%nat ∧
  (shift_columns_and_create_containers 1%positive (LStr "weight") 5
     (initial Examples.abw)).1
  = Ok (2%positive, LStr "Column_5",
        [LStr "Container_1"; LStr "Container_2"; LStr "Container_3";
         LStr "Container_4"; LStr "Container_5"]) ∧
  ∃ new,
    heap (shift_columns_and_create_containers 1%positive (LStr "weight") 5
            (initial Examples.abw)).2 !! 2%positive = Some new ∧
    columns new
    = [LStr "Container_1"; LStr "Container_2"; LStr "Container_3";
       LStr "Container_4"; LStr "Container_5";
       LStr "Column_3"; LStr "Column_4"; LStr "Column_5"] ∧
    list_index (columns new) (LStr "Column_5") = Ok 7%nat ∧
    list_index (columns new) (LStr "Column_5") ≠ Ok 5%nat.
Proof.
  split_and!; try (vm_compute; reflexivity).
  eexists. split_and!; try (vm_compute; reflexivity).
  vm_compute. discriminate.
Qed.

(** C2, amended: when the weight column's index [i] is below the count [n]
    asked for, the new table has [n] more columns than the original; the
    original column at index [j] stands at index [n + j] with its cells
    unchanged, under the label [Column_(j + n - i)]; the weight column is
    returned under the label [Column_n] (its relabelled position
    [i + shift_amount]) and stands at index [n + i]. *)
Theorem shift_layout (σ : State) (df : loc) (d : DataFrame)
    (wc : Label) (n : Z) (i : nat) :
  heap σ !! df = Some d →
  well_formed d →
  list_index (columns d) wc = Ok i →
  Z.of_nat i < n →
  ∃ new_df cs new σ',
    shift_columns_and_create_containers df wc n σ = (Ok (new_df, Column_ n, cs), σ') ∧
    heap σ' !! new_df = Some new ∧
    length new = (Z.to_nat n + length d)%nat ∧
    (∀ j c cells, d !! j = Some (c, cells) →
       new !! (Z.to_nat n + j)%nat = Some (Column_ (Z.of_nat j + (n - Z.of_nat i)), cells)) ∧
    Column_ (Z.of_nat i + (n - Z.of_nat i)) = Column_ n ∧
    list_index (columns new) (Column_ n) = Ok (Z.to_nat n + i)%nat.
Proof.
  intros Hl Hwf Hidx Hlt. eexists _, _, _, _. split_and!.
  - by apply (shift_path σ df d wc n i).
  - simpl. by rewrite lookup_insert_eq.
  - apply shifted_frame_length.
  - intros j c cells Hj. by apply (shifted_frame_original d n _ j c cells).
  - f_equal. lia.
  - destruct Hwf as [Hnd _].
    apply list_index_NoDup; [apply shifted_frame_NoDup|].
    apply list_index_spec in Hidx as [Hi _].
    unfold columns in Hi |- *. rewrite list_lookup_fmap in Hi |- *.
    destruct (d !! i) as [[c cells]|] eqn:Hd; simpl in Hi; [|done].
    injection Hi as ->.
    rewrite (shifted_frame_original d n _ i wc cells Hd). simpl.
    do 2 f_equal. lia.
Qed.

Lemma shift_layout_witness :
  ∃ new_df cs new σ',
    shift_columns_and_create_containers 1%positive (LStr "weight") 5 (initial Examples.abw)
    = (Ok (new_df, Column_ 5, cs), σ') ∧
    heap σ' !! new_df = Some new ∧
    length new = (Z.to_nat 5 + length Examples.abw)%nat ∧
    (∀ j c cells, Examples.abw !! j = Some (c, cells) →
       new !! (Z.to_nat 5 + j)%nat = Some (Column_ (Z.of_nat j + (5 - Z.of_nat 2)), cells)) ∧
    Column_ (Z.of_nat 2 + (5 - Z.of_nat 2)) = Column_ 5 ∧
    list_index (columns new) (Column_ 5) = Ok (Z.to_nat 5 + 2)%nat.
Proof.
  apply (shift_layout (initial Examples.abw) 1%positive Examples.abw (LStr "weight") 5 2).
  - reflexivity.
  - apply (bool_decide_unpack (well_formed Examples.abw)). vm_compute. exact I.
  - reflexivity.
  - lia.
Defined.

(** C8: for a count of at least 1 the containers returned never include the
    weight column returned. On the shift path they are the [n] zero-filled
    columns created at the front of the new table, directly followed by the
    original columns; otherwise the table is a copy and the containers are
    columns of it that stand strictly to the left of the weight column. *)
Theorem containers_exclude_weight (σ : State) (df : loc) (d : DataFrame)
    (wc : Label) (n : Z) (i : nat) :
  heap σ !! df = Some d →
  well_formed d →
  list_index (columns d) wc = Ok i →
  1 ≤ n →
  ∃ new_df fw cs new σ',
    shift_columns_and_create_containers df wc n σ = (Ok (new_df, fw, cs), σ') ∧
    heap σ' !! new_df = Some new ∧
    (fw ∉ cs) ∧
    (Z.of_nat i < n →
       length cs = Z.to_nat n ∧
       take (Z.to_nat n) (columns new) = cs ∧
       (∀ k c, cs !! k = Some c → new !! k = Some (c, replicate (len d) (CFloat 0))) ∧
       length new = (Z.to_nat n + length d)%nat ∧
       (∀ j c cells, d !! j = Some (c, cells) →
          ∃ c', new !! (Z.to_nat n + j)%nat = Some (c', cells))) ∧
    (n ≤ Z.of_nat i →
       new = d ∧ fw = wc ∧ columns new !! i = Some wc ∧
       ∀ k c, cs !! k = Some c → (k < i)%nat ∧ columns new !! k = Some c).
Proof.
  intros Hl Hwf Hidx Hn. destruct (decide (Z.of_nat i < n)) as [Hlt|Hge].
  - eexists _, _, _, _, _. split_and!.
    + by apply (shift_path σ df d wc n i).
    + simpl. by rewrite lookup_insert_eq.
    + intros (k & Heq & _)%list_elem_of_fmap. by apply Column_Container in Heq.
    + intros _. split_and!.
      * by rewrite length_fmap, range_length.
      * apply take_containers.
      * intros k c Hk. rewrite list_lookup_fmap in Hk.
        assert (k < Z.to_nat n)%nat as Hlen.
        { destruct (range n !! k) eqn:E; [|done].
          apply lookup_lt_Some in E. by rewrite range_length in E. }
        rewrite range_lookup in Hk by done. injection Hk as <-.
        by apply shifted_frame_container.
      * apply shifted_frame_length.
      * intros j c cells Hj. eexists. by apply (shifted_frame_original d n _ j c cells).
    + lia.
  - eexists _, _, _, _, _. split_and!.
    + apply (no_shift_path σ df d wc n i); (done || lia).
    + simpl. by rewrite lookup_insert_eq.
    + by apply list_index_spec in Hidx as [_ ?].
    + lia.
    + intros _. split_and!; try done.
      * by apply list_index_spec in Hidx as [? _].
      * intros k c Hk. apply lookup_take_Some in Hk as [? ?]. done.
Qed.

Lemma containers_exclude_weight_witness :
  ∃ new_df fw cs new σ',
    shift_columns_and_create_containers 1%positive (LStr "weight") 2 (initial Examples.abw)
    = (Ok (new_df, fw, cs), σ') ∧
    heap σ' !! new_df = Some new ∧
    (fw ∉ cs) ∧
    (Z.of_nat 2 < 2 →
       length cs = Z.to_nat 2 ∧
       take (Z.to_nat 2) (columns new) = cs ∧
       (∀ k c, cs !! k = Some c →
          new !! k = Some (c, replicate (len Examples.abw) (CFloat 0))) ∧
       length new = (Z.to_nat 2 + length Examples.abw)%nat ∧
       (∀ j c cells, Examples.abw !! j = Some (c, cells) →
          ∃ c', new !! (Z.to_nat 2 + j)%nat = Some (c', cells))) ∧
    (2 ≤ Z.of_nat 2 →
       new = Examples.abw ∧ fw = LStr "weight" ∧ columns new !! 2%nat = Some (LStr "weight") ∧
       ∀ k c, cs !! k = Some c → (k < 2)%nat ∧ columns new !! k = Some c).
Proof.
  apply (containers_exclude_weight (initial Examples.abw) 1%positive Examples.abw
           (LStr "weight") 2 2).
  - reflexivity.
  - apply (bool_decide_unpack (well_formed Examples.abw)). vm_compute. exact I.
  - reflexivity.
  - lia.
Defined.

(** Whatever the outcome, reshaping changes no frame that exists. *)
Lemma shift_keeps_heap (σ : State) (df : loc) (wc : Label) (n : Z) (l : loc) (x : DataFrame) :
  heap σ !! l = Some x →
  heap (shift_columns_and_create_containers df wc n σ).2 !! l = Some x.
Proof.
  intros Hl.
  assert (fresh (dom (heap σ)) ≠ l) as Hne.
  { intros <-. by rewrite fresh_loc_None in Hl. }
  unfold shift_columns_and_create_containers. py_unfold.
  destruct (heap σ !! df) as [d|] eqn:Hd; simpl; [|done].
  destruct (list_index (columns d) wc) as [i| |]; simpl; [|done|done].
  destruct (decide (Z.of_nat i < n)).
  - destruct (add_shifted _ _ _ _); simpl; [|done|done].
    destruct (DataFrame_of_dict _); simpl; [|done|done].
    by rewrite lookup_insert_ne.
  - py_unfold. rewrite Hd. simpl. by rewrite lookup_insert_ne.
Qed.

(** C9: reshaping never changes its input table. Whatever it returns, every
    frame that existed before, the input among them, is as it was; a table
    it returns is a new object; on the no-shift path that object is a copy
    equal to the input and the weight label is the one passed in; on the
    shift path it returns as well, with a table built anew. *)
Theorem reshape_leaves_input (σ : State) (df : loc) (d : DataFrame)
    (wc : Label) (n : Z) (i : nat) :
  heap σ !! df = Some d →
  well_formed d →
  list_index (columns d) wc = Ok i →
  ∃ new_df fw cs new σ',
    shift_columns_and_create_containers df wc n σ = (Ok (new_df, fw, cs), σ') ∧
    heap σ' !! df = Some d ∧
    (∀ l x, heap σ !! l = Some x → heap σ' !! l = Some x) ∧
    heap σ !! new_df = None ∧
    new_df ≠ df ∧
    heap σ' !! new_df = Some new ∧
    shown σ' = shown σ ∧
    (n ≤ Z.of_nat i → new = d ∧ fw = wc) ∧
    (Z.of_nat i < n → new = shifted_frame d n (n - Z.of_nat i)).
Proof.
  intros Hl Hwf Hidx.
  assert (∃ new_df fw cs new,
            shift_columns_and_create_containers df wc n σ
            = (Ok (new_df, fw, cs), mkState (<[new_df := new]> (heap σ)) (shown σ)) ∧
            new_df = fresh (dom (heap σ)) ∧
            (n ≤ Z.of_nat i → new = d ∧ fw = wc) ∧
            (Z.of_nat i < n → new = shifted_frame d n (n - Z.of_nat i)))
    as (new_df & fw & cs & new & Hrun & -> & Hcopy & Hbuilt).
  { destruct (decide (Z.of_nat i < n)).
    - eexists _, _, _, _. split; [by apply (shift_path σ df d wc n i)|].
      split_and!; [done | lia | done].
    - eexists _, _, _, _. split; [apply (no_shift_path σ df d wc n i); (done || lia)|].
      split_and!; [done | done | lia]. }
  pose proof (shift_keeps_heap σ df wc n) as Hkeep. rewrite Hrun in Hkeep. simpl in Hkeep.
  eexists _, _, _, _, _. split; [exact Hrun|]. simpl. split_and!.
  - by apply Hkeep.
  - exact Hkeep.
  - apply fresh_loc_None.
  - intros Heq. rewrite <- Heq, fresh_loc_None in Hl. done.
  - by rewrite lookup_insert_eq.
  - done.
  - done.
  - done.
Qed.

Lemma reshape_leaves_input_witness :
  ∃ new_df fw cs new σ',
    shift_columns_and_create_containers 1%positive (LStr "weight") 2 (initial Examples.abw)
    = (Ok (new_df, fw, cs), σ') ∧
    heap σ' !! 1%positive = Some Examples.abw ∧
    (∀ l x, heap (initial Examples.abw) !! l = Some x → heap σ' !! l = Some x) ∧
    heap (initial Examples.abw) !! new_df = None ∧
    new_df ≠ 1%positive ∧
    heap σ' !! new_df = Some new ∧
    shown σ' = shown (initial Examples.abw) ∧
    (2 ≤ Z.of_nat 2 → new = Examples.abw ∧ fw = LStr "weight") ∧
    (Z.of_nat 2 < 2 → new = shifted_frame Examples.abw 2 (2 - Z.of_nat 2)).
Proof.
  apply (reshape_leaves_input (initial Examples.abw) 1%positive Examples.abw
           (LStr "weight") 2 2).
  - reflexivity.
  - apply (bool_decide_unpack (well_formed Examples.abw)). vm_compute. exact I.
  - reflexivity.
Defined.

(** C6 as stated fails: with 0 containers asked for nothing is raised; the
    table [A, B, weight] is copied, the columns [A] and [B] become the
    containers and the row of weight 10 is written into them. *)
Lemma zero_count_proceeds :
  (process_dataframe Examples.digits 1%positive 0 (initial Examples.abw)).1
  = Ok (Some (2%positive, LStr "weight", [LStr "A"; LStr "B"])) ∧
  heap (process_dataframe Examples.digits 1%positive 0 (initial Examples.abw)).2 !! 2%positive
  = Some [ (LStr "A", [CFloat 5; CStr "p"]);
           (LStr "B", [CFloat 5; CStr "q"]);
           (LStr "weight", [CInt 10; CInt 0]) ] ∧
  shown (process_dataframe Examples.digits 1%positive 0 (initial Examples.abw)).2
  = [ StInfoDetected (LStr "weight") 2;
      StInfoContainers [LStr "A"; LStr "B"];
      StInfoFinalWeight (LStr "weight");
      StSuccessProcessed 1 2 ].
Proof. split_and!; vm_compute; reflexivity. Qed.

(** ** The whole method: the claims *)

Lemma getitem_fmap (f : Label * list Cell → Label * list Cell) (p : DataFrame) (c : Label) :
  (∀ x, (f x).1 = x.1) →
  getitem (f <$> p) c = (λ cells, (f (c, cells)).2) <$> getitem p c.
Proof.
  intros Hf. induction p as [|[l cells] p IH]; simpl; [done|].
  pose proof (Hf (l, cells)) as Hl. destruct (f (l, cells)) as [l' cells'] eqn:E.
  simpl in Hl. subst l'.
  destruct (decide (l = c)) as [->|]; simpl; [by rewrite E | done].
Qed.

Lemma getitem_fill_frame (cs : list Label) (k : nat) (ws : list Cell) (p : DataFrame) (c : Label) :
  getitem (fill_frame cs k ws p) c
  = (λ cells, if decide (c ∈ cs) then fill_cells (length cs) k ws cells else cells)
      <$> getitem p c.
Proof.
  unfold fill_frame. rewrite getitem_fmap.
  - destruct (getitem p c); simpl; [|done]. by destruct (decide (c ∈ cs)).
  - intros x. by destruct (decide (x.1 ∈ cs)).
Qed.

Lemma getitem_container (d : DataFrame) (n s : Z) (c : Label) :
  c ∈ (λ i, Container_ (i + 1)) <$> range n →
  getitem (shifted_frame d n s) c = Some (replicate (len d) (CFloat 0)).
Proof.
  intros (k & -> & Hk)%list_elem_of_fmap. apply range_elem in Hk.
  apply (getitem_lookup _ (Z.to_nat k)); [apply shifted_frame_NoDup|].
  rewrite shifted_frame_container by lia. do 3 f_equal. lia.
Qed.

Section Claims.

Variable parses_as_number : string → bool.

Lemma find_weight_loop_none (d : DataFrame) (cols : list Label) :
  (∀ c, c ∈ d → numeric_count parses_as_number c.2 = 0%nat) →
  (∀ c, c ∈ cols → c ∈ columns d) →
  find_weight_loop parses_as_number d cols None 0%nat = Ok (None, 0%nat).
Proof.
  intros Hzero. induction cols as [|col cols IH]; intros Hsub; simpl; [done|].
  destruct (getitem_is_Some d col) as [cells Hcells]; [apply Hsub; left|].
  rewrite Hcells. apply getitem_elem, Hzero in Hcells. simpl in Hcells.
  rewrite Hcells, decide_False by lia.
  apply IH. intros c Hc. apply Hsub. by right.
Qed.

(** C7: on a table in which no column holds a numeric cell
    [process_dataframe] shows the error and returns [None]: no table is
    created, none is changed and nothing else is shown. *)
Theorem no_weight_column_found (σ : State) (df : loc) (d : DataFrame) (n : Z) :
  heap σ !! df = Some d →
  (∀ c, c ∈ d → numeric_count parses_as_number c.2 = 0%nat) →
  process_dataframe parses_as_number df n σ
  = (Ok None, mkState (heap σ) (shown σ ++ [StErrorNoNumericColumn])).
Proof.
  intros Hl Hzero. unfold process_dataframe. py_unfold. rewrite Hl. simpl.
  unfold find_weight_column. by rewrite find_weight_loop_none.
Qed.

End Claims.

Lemma no_weight_column_found_witness :
  process_dataframe Examples.digits 1%positive 5 (initial Examples.texts)
  = (Ok None,
     mkState (heap (initial Examples.texts))
             (shown (initial Examples.texts) ++ [StErrorNoNumericColumn])).
Proof.
  apply (no_weight_column_found Examples.digits (initial Examples.texts) 1%positive
           Examples.texts 5).
  - reflexivity.
  - intros c Hc. unfold Examples.texts in Hc.
    repeat (apply elem_of_cons in Hc as [->|Hc]; [reflexivity|]).
    by apply elem_of_nil in Hc.
Defined.

Lemma count_positive (ws : list Cell) :
  length (filter (λ w, positive_weight w = true) ws)
  = length (filter (λ w, gt_zero w = Ok true) ws).
Proof. f_equal. apply list_filter_iff. intros w. apply positive_weight_iff. Qed.

(** C4 as stated fails on the no-shift path: with 2 containers asked for on
    the table [A, B, weight], the row of weight 0 keeps the texts ["p"] and
    ["q"] in the container columns [A] and [B]; they are not set to zero. *)
Lemma skipped_row_not_zeroed :
  (process_dataframe Examples.digits 1%positive 2 (initial Examples.abw)).1
  = Ok (Some (2%positive, LStr "weight", [LStr "A"; LStr "B"])) ∧
  getitem Examples.abw (LStr "weight") = Some [CInt 10; CInt 0] ∧
  le_zero (CInt 0) = Ok true ∧
  ∃ p',
    heap (process_dataframe Examples.digits 1%positive 2 (initial Examples.abw)).2 !! 2%positive
    = Some p' ∧
    getitem p' (LStr "A") = Some [CFloat 5; CStr "p"] ∧
    getitem p' (LStr "B") = Some [CFloat 5; CStr "q"].
Proof.
  split_and!; try (vm_compute; reflexivity).
  eexists. split_and!; vm_compute; reflexivity.
Qed.

Section Skipped.

Variable parses_as_number : string → bool.

(** C4, amended: when the weight column holds numbers and missing values
    only, a row whose weight is missing or at most 0 is skipped: in every
    container column its cell keeps the value it had after reshaping, which
    is 0.0 on the shift path and the cell of the input table otherwise; and
    the number of processed rows that is reported is the number of rows whose
    weight is a number greater than 0. *)
Theorem skipped_rows_keep_cells (σ : State) (df : loc) (d : DataFrame) (n : Z)
    (wc : Label) (count i : nat) (ws : list Cell) :
  heap σ !! df = Some d →
  well_formed d →
  find_weight_column parses_as_number d = Ok (Some wc, count) →
  list_index (columns d) wc = Ok i →
  getitem d wc = Some ws →
  Forall (λ w, is_text w = false) ws →
  1 ≤ n →
  ∃ new_df fw cs p' σ',
    process_dataframe parses_as_number df n σ = (Ok (Some (new_df, fw, cs)), σ') ∧
    heap σ' !! new_df = Some p' ∧
    last (shown σ')
    = Some (StSuccessProcessed (length (filter (λ w, gt_zero w = Ok true) ws)) (length cs)) ∧
    ∀ r w c cells',
      ws !! r = Some w →
      isna w = true ∨ le_zero w = Ok true →
      c ∈ cs →
      getitem p' c = Some cells' →
      (Z.of_nat i < n → cells' !! r = Some (CFloat 0)) ∧
      (n ≤ Z.of_nat i → ∃ cells, getitem d c = Some cells ∧ cells' !! r = cells !! r).
Proof.
  intros Hl Hwf Hfind Hidx Hget Htext Hn.
  assert (0 < n) as Hpos by lia.
  pose proof (process_dataframe_ok parses_as_number σ df d n wc count i ws
                Hl Hwf Hfind Hidx Hget Htext (or_introl Hpos)) as Hrun.
  cbv zeta in Hrun.
  destruct Hwf as [Hnd Hrect].
  pose proof (lookup_column d wc i ws Hnd Hidx Hget) as Hcol.
  assert (length ws = len d) as Hlen.
  { apply list_elem_of_lookup_2 in Hcol.
    by apply (proj1 (Forall_forall _ _) Hrect) in Hcol. }
  assert (∀ r w, ws !! r = Some w → isna w = true ∨ le_zero w = Ok true →
            positive_weight w = false) as Hskipped.
  { intros r w Hr Hskip. apply nonpositive_weight_iff; [|done].
    by apply (proj1 (Forall_lookup _ _) Htext r w). }
  destruct (decide (Z.of_nat i < n)) as [Hlt|Hge].
  - eexists _, _, _, _, _. split; [exact Hrun|]. simpl. split_and!.
    + by rewrite lookup_insert_eq.
    + rewrite count_positive.
      by rewrite (last_app_cons _ _ (StInfoDetected wc count)).
    + intros r w c cells' Hr Hskip Hc Hcells'.
      split; [intros _ | lia].
      rewrite getitem_fill_frame, getitem_container in Hcells' by done.
      simpl in Hcells'. rewrite decide_True in Hcells' by done.
      injection Hcells' as <-.
      rewrite (fill_cells_skipped _ ws 0 r _ w Hr (Hskipped r w Hr Hskip)), Nat.add_0_l.
      apply lookup_replicate_2. apply lookup_lt_Some in Hr. lia.
  - eexists _, _, _, _, _. split; [exact Hrun|]. simpl. split_and!.
    + by rewrite lookup_insert_eq.
    + rewrite count_positive.
      by rewrite (last_app_cons _ _ (StInfoDetected wc count)).
    + intros r w c cells' Hr Hskip Hc Hcells'.
      split; [lia | intros _].
      rewrite getitem_fill_frame in Hcells'.
      destruct (getitem d c) as [cells|]; simpl in Hcells'; [|done].
      rewrite decide_True in Hcells' by done. injection Hcells' as <-.
      exists cells. split; [done|].
      by rewrite (fill_cells_skipped _ ws 0 r _ w Hr (Hskipped r w Hr Hskip)).
Qed.

(** C6, amended: the method has no check of the count. With a count below 1
    reshaping raises nothing and takes the no-shift path, so the columns to
    the left of the weight column are the containers; when there is one at
    least and the weight column holds no text, [process_dataframe] runs to
    its end and reports the processed rows over these containers. *)
Theorem count_below_one_proceeds (σ : State) (df : loc) (d : DataFrame) (n : Z)
    (wc : Label) (count i : nat) (ws : list Cell) :
  heap σ !! df = Some d →
  well_formed d →
  find_weight_column parses_as_number d = Ok (Some wc, count) →
  list_index (columns d) wc = Ok i →
  getitem d wc = Some ws →
  Forall (λ w, is_text w = false) ws →
  n < 1 →
  (0 < i)%nat →
  ∃ new_df σ',
    shift_columns_and_create_containers df wc n σ
    = (Ok (new_df, wc, take i (columns d)),
       mkState (<[new_df := d]> (heap σ)) (shown σ)) ∧
    process_dataframe parses_as_number df n σ
    = (Ok (Some (new_df, wc, take i (columns d))), σ') ∧
    length (take i (columns d)) = i ∧
    last (shown σ')
    = Some (StSuccessProcessed (length (filter (λ w, gt_zero w = Ok true) ws)) i).
Proof.
  intros Hl Hwf Hfind Hidx Hget Htext Hn Hi.
  pose proof (process_dataframe_ok parses_as_number σ df d n wc count i ws
                Hl Hwf Hfind Hidx Hget Htext (or_intror (or_introl Hi))) as Hrun.
  cbv zeta in Hrun. rewrite !decide_False in Hrun by lia.
  assert (length (take i (columns d)) = i) as Hlen.
  { apply list_index_lt in Hidx. rewrite length_take. lia. }
  eexists _, _. split_and!.
  - apply (no_shift_path σ df d wc n i); (done || lia).
  - exact Hrun.
  - done.
  - simpl. rewrite count_positive, Hlen.
    by rewrite (last_app_cons _ _ (StInfoDetected wc count)).
Qed.

(** X8: the method leaves the weights as they were: the weight column of
    the table it returns holds the cells of the detected column, and the
    input table is unchanged. *)
Lemma processed_weight_column (σ : State) (df : loc) (d : DataFrame) (n : Z)
    (wc : Label) (count i : nat) (ws : list Cell) :
  heap σ !! df = Some d →
  well_formed d →
  find_weight_column parses_as_number d = Ok (Some wc, count) →
  list_index (columns d) wc = Ok i →
  getitem d wc = Some ws →
  Forall (λ w, is_text w = false) ws →
  1 ≤ n →
  ∃ new_df fw cs p' σ',
    process_dataframe parses_as_number df n σ = (Ok (Some (new_df, fw, cs)), σ') ∧
    heap σ' !! new_df = Some p' ∧
    getitem p' fw = Some ws ∧
    heap σ' !! df = Some d.
Proof.
  intros Hl Hwf Hfind Hidx Hget Htext Hn.
  assert (0 < n) as Hpos by lia.
  pose proof (process_dataframe_ok parses_as_number σ df d n wc count i ws
                Hl Hwf Hfind Hidx Hget Htext (or_introl Hpos)) as Hrun.
  cbv zeta in Hrun.
  destruct Hwf as [Hnd Hrect].
  pose proof (lookup_column d wc i ws Hnd Hidx Hget) as Hcol.
  assert (fresh (dom (heap σ)) ≠ df) as Hne.
  { intros Heq. rewrite <- Heq, fresh_loc_None in Hl. done. }
  destruct (decide (Z.of_nat i < n)) as [Hlt|Hge].
  - eexists _, _, _, _, _. split; [exact Hrun|]. simpl. split_and!.
    + by rewrite lookup_insert_eq.
    + rewrite getitem_fill_frame.
      rewrite (getitem_lookup _ (Z.to_nat n + i) (Column_ n) ws).
      * simpl. rewrite decide_False; [done|].
        intros (k & Heq & _)%list_elem_of_fmap. by apply Column_Container in Heq.
      * apply shifted_frame_NoDup.
      * rewrite (shifted_frame_original d n _ i wc ws Hcol). do 3 f_equal. lia.
    + by rewrite lookup_insert_ne.
  - eexists _, _, _, _, _. split; [exact Hrun|]. simpl. split_and!.
    + by rewrite lookup_insert_eq.
    + rewrite getitem_fill_frame, Hget. simpl.
      rewrite decide_False; [done|]. by apply list_index_spec in Hidx as [_ ?].
    + by rewrite lookup_insert_ne.
Qed.

End Skipped.

Lemma skipped_rows_keep_cells_witness :
  ∃ new_df fw cs p' σ',
    process_dataframe Examples.digits 1%positive 5 (initial Examples.abw)
    = (Ok (Some (new_df, fw, cs)), σ') ∧
    heap σ' !! new_df = Some p' ∧
    last (shown σ')
    = Some (StSuccessProcessed
              (length (filter (λ w, gt_zero w = Ok true) [CInt 10; CInt 0])) (length cs)) ∧
    ∀ r w c cells',
      [CInt 10; CInt 0] !! r = Some w →
      isna w = true ∨ le_zero w = Ok true →
      c ∈ cs →
      getitem p' c = Some cells' →
      (Z.of_nat 2 < 5 → cells' !! r = Some (CFloat 0)) ∧
      (5 ≤ Z.of_nat 2 →
       ∃ cells, getitem Examples.abw c = Some cells ∧ cells' !! r = cells !! r).
Proof.
  apply (skipped_rows_keep_cells Examples.digits (initial Examples.abw) 1%positive
           Examples.abw 5 (LStr "weight") 2 2 [CInt 10; CInt 0]).
  - reflexivity.
  - apply (bool_decide_unpack (well_formed Examples.abw)). vm_compute. exact I.
  - reflexivity.
  - reflexivity.
  - reflexivity.
  - repeat constructor.
  - lia.
Defined.

Lemma count_below_one_proceeds_witness :
  ∃ new_df σ',
    shift_columns_and_create_containers 1%positive (LStr "weight") 0 (initial Examples.abw)
    = (Ok (new_df, LStr "weight", take 2 (columns Examples.abw)),
       mkState (<[new_df := Examples.abw]> (heap (initial Examples.abw)))
               (shown (initial Examples.abw))) ∧
    process_dataframe Examples.digits 1%positive 0 (initial Examples.abw)
    = (Ok (Some (new_df, LStr "weight", take 2 (columns Examples.abw))), σ') ∧
    length (take 2 (columns Examples.abw)) = 2%nat ∧
    last (shown σ')
    = Some (StSuccessProcessed
              (length (filter (λ w, gt_zero w = Ok true) [CInt 10; CInt 0])) 2).
Proof.
  apply (count_below_one_proceeds Examples.digits (initial Examples.abw) 1%positive
           Examples.abw 0 (LStr "weight") 2 2 [CInt 10; CInt 0]).
  - reflexivity.
  - apply (bool_decide_unpack (well_formed Examples.abw)). vm_compute. exact I.
  - reflexivity.
  - reflexivity.
  - reflexivity.
  - repeat constructor.
  - lia.
  - lia.
Defined.

(** ** Distribution: the claims *)

(** C10: the loop of [process_dataframe] changes the processed table only:
    the labels and their order, the number of rows and the length of every
    column are as before; a column that is no container keeps all its cells
    (the weight column among them, see C8); in a container column every row
    whose weight is not a number greater than 0 keeps its cell. *)
Theorem distribution_frame (σ : State) (l : loc) (p : DataFrame)
    (cs : list Label) (ws : list Cell) :
  heap σ !! l = Some p →
  (∀ c, c ∈ cs → c ∈ columns p) →
  (length ws ≤ len p)%nat →
  Forall (λ w, is_text w = false) ws →
  cs ≠ [] →
  ∃ processed_rows p',
    distribute_rows l cs (enumerate ws) 0%nat σ
    = (Ok processed_rows, mkState (<[l := p']> (heap σ)) (shown σ)) ∧
    columns p' = columns p ∧
    len p' = len p ∧
    ∀ j c cells,
      p !! j = Some (c, cells) →
      ∃ cells',
        p' !! j = Some (c, cells') ∧
        length cells' = length cells ∧
        (c ∉ cs → cells' = cells) ∧
        ∀ r, (∀ w, ws !! r = Some w → gt_zero w ≠ Ok true) → cells' !! r = cells !! r.
Proof.
  intros Hl Hsub Hlen Htext Hcs.
  eexists _, (fill_frame cs 0 ws p). split_and!.
  - unfold enumerate.
    apply (distribute_rows_ok l cs ws 0%nat σ p 0%nat); try done. by left.
  - apply fill_frame_columns.
  - apply fill_frame_len.
  - intros j c cells Hj. unfold fill_frame. rewrite list_lookup_fmap, Hj. simpl.
    destruct (decide (c ∈ cs)) as [Hin|Hnin].
    + eexists. split_and!; [done | apply fill_cells_length | done |].
      intros r Hr. destruct (ws !! r) as [w|] eqn:Hw.
      * apply (fill_cells_skipped _ ws 0 r cells w Hw).
        destruct (positive_weight w) eqn:Hpos; [|done].
        apply positive_weight_iff in Hpos. by destruct (Hr w).
      * apply fill_cells_beyond. apply lookup_ge_None in Hw. lia.
    + by eexists.
Qed.

Lemma distribution_frame_witness :
  ∃ processed_rows p',
    distribute_rows 1%positive [LStr "A"; LStr "B"] (enumerate [CInt 10; CInt 0]) 0%nat
      (initial Examples.abw)
    = (Ok processed_rows,
       mkState (<[1%positive := p']> (heap (initial Examples.abw)))
               (shown (initial Examples.abw))) ∧
    columns p' = columns Examples.abw ∧
    len p' = len Examples.abw ∧
    ∀ j c cells,
      Examples.abw !! j = Some (c, cells) →
      ∃ cells',
        p' !! j = Some (c, cells') ∧
        length cells' = length cells ∧
        (c ∉ [LStr "A"; LStr "B"] → cells' = cells) ∧
        ∀ r, (∀ w, [CInt 10; CInt 0] !! r = Some w → gt_zero w ≠ Ok true) →
             cells' !! r = cells !! r.
Proof.
  apply (distribution_frame (initial Examples.abw) 1%positive Examples.abw
           [LStr "A"; LStr "B"] [CInt 10; CInt 0]).
  - reflexivity.
  - intros c Hc. apply (bool_decide_unpack (c ∈ columns Examples.abw)).
    repeat (apply elem_of_cons in Hc as [->|Hc]; [vm_compute; exact I|]).
    by apply elem_of_nil in Hc.
  - simpl. lia.
  - repeat constructor.
  - discriminate.
Defined.

(** ** Shares *)

Lemma div_half_even_close (a b : Z) :
  0 < b → 2 * Z.abs (PyNum.div_half_even a b * b - a) ≤ b.
Proof.
  intros Hb. unfold PyNum.div_half_even.
  assert (b ≠ 0) as Hb0 by lia.
  pose proof (Z.div_mod a b Hb0) as Hdiv.
  pose proof (Z.mod_pos_bound a b Hb) as Hmod.
  assert (a / b * b - a = - (a mod b)) as Hdown by lia.
  assert ((a / b + 1) * b - a = b - a mod b) as Hup by lia.
  destruct (2 * (a mod b) ?= b) eqn:Hc.
  - apply Z.compare_eq in Hc.
    destruct (Z.even (a / b)); [rewrite Hdown | rewrite Hup]; lia.
  - rewrite Z.compare_lt_iff in Hc. rewrite Hdown. lia.
  - rewrite Z.compare_gt_iff in Hc. rewrite Hup. lia.
Qed.

Lemma hundredths_close (m : positive) (e : Z) :
  (Qabs (Qmake (PyNum.hundredths m e) 100
         - (if 0 <=? e then inject_Z (Zpos m * 2 ^ e)
            else Qmake (Zpos m) (Z.to_pos (2 ^ (- e))))) <= 5 # 1000)%Q.
Proof.
  unfold PyNum.hundredths. destruct (0 <=? e) eqn:He.
  - apply Qabs_Qle_condition. unfold Qle, Qminus, Qplus, Qopp, inject_Z. simpl.
    split; lia.
  - apply Z.leb_gt in He.
    assert (0 < 2 ^ (- e)) as Hpow by (apply Z.pow_pos_nonneg; lia).
    pose proof (div_half_even_close (100 * Zpos m) (2 ^ (- e)) Hpow) as Hclose.
    apply Qabs_Qle_condition. unfold Qle, Qminus, Qplus, Qopp. simpl.
    rewrite !Z2Pos.id by done.
    split; lia.
Qed.

(** Rounding to two decimals moves a float by at most 0.005. *)
Lemma decimal2_close (x : float) :
  (Qabs (PyNum.decimal2 x - PyNum.Q_of_float x) <= 5 # 1000)%Q.
Proof.
  unfold PyNum.decimal2, PyNum.Q_of_float.
  destruct (Prim2SF x) as [s|s| |s m e]; try done.
  pose proof (hundredths_close m e) as H. cbv zeta.
  destruct s; [|exact H].
  rewrite <- Qabs_opp. eapply Qle_trans; [|exact H].
  apply Qle_lteq. right. apply Qabs_wd. ring.
Qed.

(** [round2 x] is the float nearest to [decimal2 x], unless that is 0. *)
Lemma round2_nearest_decimal2 (x : float) (s : bool) (m h : positive) (e : Z) :
  Prim2SF x = S754_finite s m e →
  PyNum.hundredths m e = Zpos h →
  PyNum.round2 x = PyNum.nearest_float (PyNum.decimal2 x).
Proof.
  intros Hx Hh. unfold PyNum.round2, PyNum.decimal2, PyNum.nearest_float.
  rewrite Hx, Hh. by destruct s.
Qed.

Lemma exact_sum_replicate (n : nat) (f : float) :
  (exact_sum (replicate n (CFloat f)) == inject_Z (Z.of_nat n) * PyNum.Q_of_float f)%Q.
Proof.
  induction n as [|n IH].
  - simpl. ring.
  - rewrite Nat2Z.inj_succ. unfold Z.succ. rewrite inject_Z_plus.
    simpl. rewrite IH. ring.
Qed.

(** ** Binary64: division and rounding are correctly rounded *)

(** *** Powers of two *)

Lemma bpow_pos (e : Z) : (0 < bpow e)%Q.
Proof. by apply Qpower_0_lt. Qed.

Lemma bpow_add (a b : Z) : (bpow (a + b) == bpow a * bpow b)%Q.
Proof. by apply Qpower_plus. Qed.

Lemma bpow_le (a b : Z) : a ≤ b → (bpow a <= bpow b)%Q.
Proof. intros H. by apply Qpower_le_compat_l. Qed.

Lemma bpow_lt (a b : Z) : a < b → (bpow a < bpow b)%Q.
Proof. intros H. by apply Qpower_lt_compat_l. Qed.

Lemma bpow_Z (e : Z) : 0 ≤ e → (bpow e == inject_Z (2 ^ e))%Q.
Proof. intros H. unfold bpow. by rewrite Zpower_Qpower. Qed.

Lemma bpow_succ (e : Z) : (bpow (e + 1) == 2 * bpow e)%Q.
Proof. rewrite bpow_add. unfold bpow at 2. simpl. ring. Qed.

Lemma bpow_pred (e : Z) : (bpow (e - 1) == (1 # 2) * bpow e)%Q.
Proof.
  replace e with ((e - 1) + 1) at 2 by lia. rewrite bpow_succ. field.
Qed.

Lemma bpow_lt_inv (a b : Z) : (bpow a < bpow b)%Q → a < b.
Proof.
  intros H. destruct (Z.lt_ge_cases a b) as [|Hge]; [done|].
  apply bpow_le in Hge. lra.
Qed.

(** *** The number of binary digits *)

Lemma digits2_pos_bounds (p : positive) :
  2 ^ (Zpos (digits2_pos p) - 1) ≤ Zpos p < 2 ^ Zpos (digits2_pos p).
Proof.
  induction p as [p IH|p IH|]; simpl digits2_pos.
  - rewrite Pos2Z.inj_succ. replace (Z.succ (Zpos (digits2_pos p)) - 1)
      with (Z.succ (Zpos (digits2_pos p) - 1)) by lia.
    rewrite !Z.pow_succ_r by lia. lia.
  - rewrite Pos2Z.inj_succ. replace (Z.succ (Zpos (digits2_pos p)) - 1)
      with (Z.succ (Zpos (digits2_pos p) - 1)) by lia.
    rewrite !Z.pow_succ_r by lia. lia.
  - simpl. lia.
Qed.

Lemma Zdigits2_bounds (m : Z) :
  0 < m → 0 < Zdigits2 m ∧ 2 ^ (Zdigits2 m - 1) ≤ m < 2 ^ Zdigits2 m.
Proof.
  destruct m as [|p|p]; [lia | | lia]. intros _.
  split; [done|]. apply digits2_pos_bounds.
Qed.

Lemma Zdigits2_bpow (m : Z) :
  0 < m → (bpow (Zdigits2 m - 1) <= inject_Z m ∧ inject_Z m < bpow (Zdigits2 m))%Q.
Proof.
  intros Hm. destruct (Zdigits2_bounds m Hm) as (Hd & Hlo & Hhi).
  rewrite !bpow_Z by lia. by rewrite <- Zle_Qle, <- Zlt_Qlt.
Qed.

(** *** Shifting a mantissa right *)

Lemma iter_pos_nat {A} (f : A → A) (p : positive) (x : A) :
  SpecFloat.iter_pos f p x = Nat.iter (Pos.to_nat p) f x.
Proof.
  revert x. induction p as [p IH|p IH|]; intros x; cbn [SpecFloat.iter_pos].
  - rewrite !IH, Pos2Nat.inj_xI.
    replace (S (2 * Pos.to_nat p)) with (Pos.to_nat p + (Pos.to_nat p + 1))%nat by lia.
    by rewrite !Nat.iter_add.
  - rewrite !IH, Pos2Nat.inj_xO.
    replace (2 * Pos.to_nat p)%nat with (Pos.to_nat p + Pos.to_nat p)%nat by lia.
    by rewrite Nat.iter_add.
  - done.
Qed.

Lemma inject_Z_xI (p : positive) :
  (inject_Z (Zpos p~1) == 2 * inject_Z (Zpos p) + 1)%Q.
Proof. unfold Qeq. simpl. lia. Qed.

Lemma inject_Z_xO (p : positive) :
  (inject_Z (Zpos p~0) == 2 * inject_Z (Zpos p))%Q.
Proof. unfold Qeq. simpl. lia. Qed.

Lemma shr_1_located (X : Q) (mrs : shr_record) :
  0 ≤ shr_m mrs → located X mrs →
  0 ≤ shr_m (shr_1 mrs) ∧ located (X * (1 # 2)) (shr_1 mrs).
Proof.
  destruct mrs as [m r s]. simpl. intros Hm.
  destruct m as [|p|p]; [| |lia].
  - unfold located. destruct r, s; simpl; intros H; (split; [lia|]);
      change (inject_Z 0) with 0%Q in *; lra.
  - unfold located.
    destruct p as [p|p|]; destruct r, s; simpl; intros H; (split; [lia|]);
      try rewrite inject_Z_xI in H; try rewrite inject_Z_xO in H;
      change (inject_Z 0) with 0%Q in *; change (inject_Z 1) with 1%Q in *; lra.
Qed.

Lemma shr_iter_located (k : nat) (X : Q) (mrs : shr_record) :
  0 ≤ shr_m mrs → located X mrs →
  0 ≤ shr_m (Nat.iter k shr_1 mrs) ∧
  located (X * bpow (- Z.of_nat k)) (Nat.iter k shr_1 mrs).
Proof.
  intros Hm HX. induction k as [|k [IHm IH]].
  - simpl. split; [done|]. unfold located in *.
    destruct (shr_r mrs), (shr_s mrs); unfold bpow; simpl; lra.
  - simpl Nat.iter.
    destruct (shr_1_located _ _ IHm IH) as [Hm' H']. split; [done|].
    assert (bpow (- Z.of_nat (S k)) == bpow (- Z.of_nat k) * (1 # 2))%Q as Hpow.
    { replace (- Z.of_nat (S k)) with (- Z.of_nat k - 1) by lia.
      rewrite bpow_pred. ring. }
    unfold located in *.
    destruct (shr_r (shr_1 _)), (shr_s (shr_1 _)); rewrite Hpow; lra.
Qed.

Lemma located_ext (X Y : Q) (mrs : shr_record) :
  (X == Y)%Q → located X mrs → located Y mrs.
Proof.
  intros HXY. unfold located.
  destruct (shr_r mrs), (shr_s mrs); rewrite HXY; done.
Qed.

Lemma located_bounds (X : Q) (mrs : shr_record) :
  located X mrs → (inject_Z (shr_m mrs) <= X ∧ X < inject_Z (shr_m mrs) + 1)%Q.
Proof. unfold located. destruct (shr_r mrs), (shr_s mrs); lra. Qed.

Lemma shr_m_of_loc (m : Z) (l : location) : shr_m (shr_record_of_loc m l) = m.
Proof. by destruct l as [|[]]. Qed.

Lemma shr_located (X : Q) (mrs : shr_record) (e n : Z) :
  0 ≤ shr_m mrs → located X mrs → 0 ≤ n →
  (shr mrs e n).2 = e + n ∧ 0 ≤ shr_m (shr mrs e n).1 ∧
  located (X * bpow (- n)) (shr mrs e n).1.
Proof.
  intros Hm HX Hn. destruct n as [|p|p]; [| |lia]; simpl.
  - split_and!; [lia | done |].
    apply (located_ext X); [|done]. unfold bpow. simpl. ring.
  - rewrite iter_pos_nat.
    destruct (shr_iter_located (Pos.to_nat p) X mrs Hm HX) as [? H].
    split_and!; [done | done |].
    by rewrite positive_nat_Z in H.
Qed.

Lemma shr_fexp_located (X : Q) (m e : Z) (l : location) :
  0 ≤ m → located X (shr_record_of_loc m l) →
  e ≤ fexp prec emax (Zdigits2 m + e) →
  (shr_fexp prec emax m e l).2 = fexp prec emax (Zdigits2 m + e) ∧
  0 ≤ shr_m (shr_fexp prec emax m e l).1 ∧
  located (X * bpow (e - fexp prec emax (Zdigits2 m + e))) (shr_fexp prec emax m e l).1.
Proof.
  intros Hm HX He. unfold shr_fexp.
  destruct (shr_located X (shr_record_of_loc m l) e
              (fexp prec emax (Zdigits2 m + e) - e)) as (H1 & H2 & H3);
    [by rewrite shr_m_of_loc | done | lia |].
  split_and!; [lia | done |].
  by replace (e - fexp prec emax (Zdigits2 m + e))
    with (- (fexp prec emax (Zdigits2 m + e) - e)) by lia.
Qed.

Lemma fexp_eq (e : Z) : fexp prec emax e = Z.max (e - 53) (-1074).
Proof. reflexivity. Qed.

Lemma Zdigits2_le (m k : Z) : 0 < m → m < 2 ^ k → 0 ≤ k → Zdigits2 m ≤ k.
Proof.
  intros Hm Hk Hk0. destruct (Zdigits2_bounds m Hm) as (Hd & Hlo & _).
  assert (2 ^ (Zdigits2 m - 1) < 2 ^ k) as H by lia.
  apply Z.pow_lt_mono_r_iff in H; lia.
Qed.

Lemma Zdigits2_ge (m k : Z) : 2 ^ k ≤ m → 0 ≤ k → k + 1 ≤ Zdigits2 m.
Proof.
  intros Hk Hk0.
  assert (0 < m) as Hm by (pose proof (Z.pow_pos_nonneg 2 k); lia).
  destruct (Zdigits2_bounds m Hm) as (Hd & _ & Hhi).
  assert (2 ^ k < 2 ^ Zdigits2 m) as H by lia.
  apply Z.pow_lt_mono_r_iff in H; lia.
Qed.

(** *** Rounding to nearest, ties to even *)

Lemma round_nearest_even_located (X : Q) (mrs : shr_record) :
  located X mrs →
  let m' := round_nearest_even (shr_m mrs) (loc_of_shr_record mrs) in
  (Qabs (inject_Z m' - X) <= 1 # 2)%Q ∧
  (m' = shr_m mrs ∨
   m' = shr_m mrs + 1 ∧ (inject_Z (shr_m mrs) + (1 # 2) <= X)%Q).
Proof.
  destruct mrs as [m r s]. unfold located.
  cbn [shr_m shr_r shr_s loc_of_shr_record].
  destruct r, s; cbn [round_nearest_even]; intros H.
  - split; [|right; split; [done|lra]].
    rewrite inject_Z_plus. change (inject_Z 1) with 1%Q.
    apply Qabs_Qle_condition. lra.
  - destruct (Z.even m).
    + split; [|by left]. apply Qabs_Qle_condition. lra.
    + split; [|right; split; [done|lra]].
      rewrite inject_Z_plus. change (inject_Z 1) with 1%Q.
      apply Qabs_Qle_condition. lra.
  - split; [|by left]. apply Qabs_Qle_condition. lra.
  - split; [|by left]. apply Qabs_Qle_condition. lra.
Qed.

Lemma shr_nonpos (mrs : shr_record) (e n : Z) : n ≤ 0 → shr mrs e n = (mrs, e).
Proof. intros Hn. destruct n; (done || lia). Qed.

Lemma inject_Z_lt_bpow (m k : Z) : 0 ≤ k → (inject_Z m < bpow k)%Q → m < 2 ^ k.
Proof. intros Hk H. rewrite bpow_Z in H by done. by rewrite Zlt_Qlt. Qed.

Lemma bpow_le_inject_Z (m k : Z) : 0 ≤ k → 2 ^ k ≤ m → (bpow k <= inject_Z m)%Q.
Proof. intros Hk H. rewrite bpow_Z by done. by rewrite <- Zle_Qle. Qed.

Lemma bpow_mul_cancel (X : Q) (a b : Z) : (X * bpow (a - b) * bpow b == X * bpow a)%Q.
Proof.
  rewrite <- Qmult_assoc, <- bpow_add. by replace (a - b + b) with a by lia.
Qed.

Lemma max_float_lt : (max_float < bpow 1024)%Q.
Proof.
  unfold max_float. replace 1024 with (53 + 971) by lia. rewrite bpow_add.
  apply Qmult_lt_compat_r; [apply bpow_pos|].
  rewrite bpow_Z by lia. by rewrite <- Zlt_Qlt.
Qed.

(** The mantissa left by the first shift of [binary_round_aux] has at most
    53 digits, and exactly 53 above the smallest exponent. *)
Lemma shr_fexp_mantissa (X : Q) (mx ex m1 : Z) :
  0 ≤ mx →
  (inject_Z mx <= X ∧ X < inject_Z mx + 1)%Q →
  ex ≤ fexp prec emax (Zdigits2 mx + ex) →
  let e1 := fexp prec emax (Zdigits2 mx + ex) in
  (inject_Z m1 <= X * bpow (ex - e1) ∧ X * bpow (ex - e1) < inject_Z m1 + 1)%Q →
  m1 < 2 ^ 53 ∧ (e1 = -1074 ∨ 2 ^ 52 ≤ m1).
Proof.
  intros Hmx [HXlo HXhi] Hex e1 [Hlo Hhi].
  pose proof (bpow_pos (ex - e1)) as Hpos.
  destruct (decide (mx = 0)) as [->|Hne].
  - change (inject_Z 0) with 0%Q in *. simpl Zdigits2 in *.
    assert (e1 = -1074) as He1 by (subst e1; rewrite fexp_eq in *; lia).
    split; [|by left].
    assert (bpow (ex - e1) <= bpow 0)%Q as Hle by (apply bpow_le; lia).
    change (bpow 0) with 1%Q in Hle.
    assert (X * bpow (ex - e1) <= X * 1)%Q as Hmul.
    { rewrite !(Qmult_comm X). apply Qmult_le_compat_r; [done | lra]. }
    assert (inject_Z m1 < inject_Z 1)%Q as H1 by (change (inject_Z 1) with 1%Q; lra).
    rewrite <- Zlt_Qlt in H1. lia.
  - assert (0 < mx) as Hmx' by lia.
    destruct (Zdigits2_bounds mx Hmx') as (Hd & Hdlo & Hdhi).
    set (d := Zdigits2 mx) in *.
    assert (e1 = Z.max (d + ex - 53) (-1074)) as He1 by (subst e1; by rewrite fexp_eq).
    split.
    + apply inject_Z_lt_bpow; [lia|].
      assert (inject_Z mx + 1 <= bpow d)%Q as Hup.
      { rewrite bpow_Z by lia. change 1%Q with (inject_Z 1).
        rewrite <- inject_Z_plus. rewrite <- Zle_Qle. lia. }
      assert (X * bpow (ex - e1) < bpow d * bpow (ex - e1))%Q as Hmul
        by (apply Qmult_lt_compat_r; [done | lra]).
      rewrite <- bpow_add in Hmul.
      assert (bpow (d + (ex - e1)) <= bpow 53)%Q as Hle by (apply bpow_le; lia).
      lra.
    + destruct (decide (e1 = -1074)) as [|Hnorm]; [by left | right].
      assert (e1 = d + ex - 53) as He1' by lia.
      assert (bpow (d - 1) <= inject_Z mx)%Q as Hdown
        by (apply bpow_le_inject_Z; lia).
      assert (bpow (d - 1) * bpow (ex - e1) <= X * bpow (ex - e1))%Q as Hmul
        by (apply Qmult_le_compat_r; lra).
      rewrite <- bpow_add in Hmul.
      replace (d - 1 + (ex - e1)) with 52 in Hmul by lia.
      rewrite bpow_Z in Hmul by lia.
      assert (inject_Z (2 ^ 52) < inject_Z (m1 + 1))%Q as Hlt.
      { rewrite inject_Z_plus. change (inject_Z 1) with 1%Q. lra. }
      rewrite <- Zlt_Qlt in Hlt. lia.
Qed.

(** [binary_round_aux] gives the binary64 number nearest to the exact value
    [X·2^ex] that the mantissa [mx] and the location [lx] stand for. *)
Lemma binary_round_aux_correct (sx : bool) (mx ex : Z) (lx : location) (X : Q) :
  0 ≤ mx → located X (shr_record_of_loc mx lx) →
  ex ≤ fexp prec emax (Zdigits2 mx + ex) →
  (X * bpow ex <= max_float)%Q →
  ∃ m e m2,
    binary_round_aux prec emax sx mx ex lx = SF_of sx m e ∧
    0 ≤ m ∧ valid_binary (SF_of sx m e) = true ∧
    (inject_Z m * bpow e == inject_Z m2 * bpow (fexp prec emax (Zdigits2 mx + ex)))%Q ∧
    (Qabs (inject_Z m2 - X * bpow (ex - fexp prec emax (Zdigits2 mx + ex))) <= 1 # 2)%Q ∧
    (fexp prec emax (Zdigits2 mx + ex) = -1074 ∨ 2 ^ 52 ≤ m2).
Proof.
  intros Hmx HX Hex Hov.
  destruct (shr_fexp_located X mx ex lx Hmx HX Hex) as (He & Hm1 & HX1).
  set (e1 := fexp prec emax (Zdigits2 mx + ex)) in *.
  assert (-1074 ≤ e1) as Hemin by (subst e1; rewrite fexp_eq; lia).
  unfold binary_round_aux.
  destruct (shr_fexp prec emax mx ex lx) as [mrs1 e1'] eqn:Hs1.
  simpl in He, Hm1, HX1. subst e1'.
  set (X1 := (X * bpow (ex - e1))%Q) in *.
  set (m1 := shr_m mrs1) in *.
  apply located_bounds in HX as HXb. rewrite shr_m_of_loc in HXb.
  apply located_bounds in HX1 as HX1b. fold m1 in HX1b.
  destruct (shr_fexp_mantissa X mx ex m1 Hmx HXb Hex HX1b) as [Hm1hi Hm1lo].
  fold e1 in Hm1lo.
  destruct (round_nearest_even_located X1 mrs1 HX1) as [Hclose Hm2].
  fold m1 in Hclose, Hm2.
  set (m2 := round_nearest_even m1 (loc_of_shr_record mrs1)) in *.
  assert (X1 * bpow e1 == X * bpow ex)%Q as Hval by apply bpow_mul_cancel.
  assert (0 ≤ m2 ∧ m1 ≤ m2) as [Hm2pos Hm12] by lia.
  destruct (decide (m2 = 2 ^ 53)) as [Hcarry|Hnocarry].
  - (* the mantissa was rounded up to 2^53 *)
    destruct Hm2 as [?|[Hm2 Hhalf]]; [lia|].
    assert (e1 ≤ 970) as He1.
    { destruct (Z.le_gt_cases e1 970) as [|Hbig]; [done | exfalso].
      assert (inject_Z m1 == inject_Z (2 ^ 53) - 1)%Q as Hm1eq.
      { replace m1 with (2 ^ 53 - 1) by lia.
        unfold Qeq. simpl. lia. }
      assert ((inject_Z (2 ^ 53) - (1 # 2)) * bpow 971 <= X1 * bpow e1)%Q as Hbig'.
      { apply Qmult_le_compat_nonneg.
        - split; [|lra]. unfold Qle. simpl. lia.
        - split; [apply Qlt_le_weak, bpow_pos | apply bpow_le; lia]. }
      rewrite Hval in Hbig'. unfold max_float in Hov.
      assert (inject_Z (2 ^ 53 - 1) == inject_Z (2 ^ 53) - 1)%Q as Hc
        by (unfold Qeq; simpl; lia).
      rewrite Hc in Hov. pose proof (bpow_pos 971). lra. }
    exists (2 ^ 52), (e1 + 1), (2 ^ 53).
    unfold shr_fexp. rewrite Hcarry.
    change (Zdigits2 (2 ^ 53)) with 54. rewrite fexp_eq.
    replace (Z.max (54 + e1 - 53) (-1074) - e1) with 1 by lia.
    simpl shr. change (2 ^ 52) with 4503599627370496.
    cbn [shr_m SF_of].
    rewrite (proj2 (Z.leb_le _ _)) by (unfold emax, prec; lia).
    split_and!.
    + done.
    + done.
    + cbn [valid_binary]. unfold bounded, canonical_mantissa.
      change (Z.pos (digits2_pos 4503599627370496)) with 53.
      rewrite fexp_eq. apply andb_true_intro. split.
      * apply Z.eqb_eq. lia.
      * apply Z.leb_le. unfold emax, prec. lia.
    + rewrite bpow_succ.
      change (inject_Z 4503599627370496) with (inject_Z (2 ^ 52)).
      assert (inject_Z (2 ^ 53) == 2 * inject_Z (2 ^ 52))%Q as H2
        by (unfold Qeq; simpl; lia).
      rewrite H2. ring.
    + by rewrite <- Hcarry.
    + right. lia.
  - (* the mantissa has at most 53 digits *)
    assert (m2 < 2 ^ 53) as Hm2hi by lia.
    assert (fexp prec emax (Zdigits2 m2 + e1) - e1 ≤ 0) as Hshift.
    { rewrite fexp_eq. destruct (decide (m2 = 0)) as [->|]; [simpl; lia|].
      pose proof (Zdigits2_le m2 53). lia. }
    exists m2, e1, m2.
    unfold shr_fexp at 1. rewrite shr_nonpos by done.
    cbn [shr_record_of_loc shr_m].
    destruct m2 as [|p|p] eqn:Hm2eq; [| |lia].
    + cbn [SF_of]. split_and!; try done.
      destruct Hm1lo as [?|?]; [by left | lia].
    + assert (e1 ≤ 971) as He1.
      { destruct (Z.le_gt_cases e1 971) as [|Hbig]; [done | exfalso].
        destruct Hm1lo as [?|Hm1lo]; [lia|].
        assert (bpow 52 * bpow 972 <= X1 * bpow e1)%Q as Hbig'.
        { apply Qmult_le_compat_nonneg.
          - split; [apply Qlt_le_weak, bpow_pos|].
            apply (Qle_trans _ (inject_Z m1)); [|lra].
            apply bpow_le_inject_Z; lia.
          - split; [apply Qlt_le_weak, bpow_pos | apply bpow_le; lia]. }
        rewrite <- bpow_add, Hval in Hbig'. change (52 + 972) with 1024 in Hbig'.
        pose proof max_float_lt. lra. }
      cbn [SF_of].
      rewrite (proj2 (Z.leb_le _ _)) by (unfold emax, prec; lia).
      split_and!; try done.
      * cbn [valid_binary]. unfold bounded, canonical_mantissa.
        change (Z.pos (digits2_pos p)) with (Zdigits2 (Zpos p)).
        apply andb_true_intro. split; [|apply Z.leb_le; unfold emax, prec; lia].
        apply Z.eqb_eq. rewrite fexp_eq.
        pose proof (Zdigits2_le (Zpos p) 53).
        destruct Hm1lo as [?|?]; [lia|].
        pose proof (Zdigits2_ge (Zpos p) 52). lia.
      * destruct Hm1lo as [?|?]; [by left | right; lia].
Qed.

(** *** Division *)

Lemma new_location_located (d r q : Z) :
  0 < d → 0 ≤ r < d →
  located (Qmake (q * d + r) (Z.to_pos d)) (shr_record_of_loc q (new_location d r)).
Proof.
  intros Hd Hr.
  assert (Z.even d = false → 2 * r ≠ d) as Hodd.
  { intros Heven Heq. rewrite <- Heq, Z.even_mul in Heven. done. }
  unfold new_location, new_location_even, new_location_odd.
  destruct (Z.even d); (destruct (r =? 0) eqn:Hr0;
    [apply Z.eqb_eq in Hr0 | apply Z.eqb_neq in Hr0]).
  - unfold located, Qeq, Qminus, Qplus, Qopp, inject_Z. simpl.
    rewrite Z2Pos.id by done. lia.
  - destruct (2 * r ?= d) eqn:Hc;
      [apply Z.compare_eq in Hc | rewrite Z.compare_lt_iff in Hc
       | rewrite Z.compare_gt_iff in Hc];
      unfold located, Qeq, Qlt, Qminus, Qplus, Qopp, inject_Z; simpl;
      rewrite ?Z2Pos.id by done; lia.
  - unfold located, Qeq, Qminus, Qplus, Qopp, inject_Z. simpl.
    rewrite Z2Pos.id by done. lia.
  - specialize (Hodd eq_refl).
    destruct (2 * r + 1 ?= d) eqn:Hc;
      [apply Z.compare_eq in Hc | rewrite Z.compare_lt_iff in Hc
       | rewrite Z.compare_gt_iff in Hc];
      unfold located, Qeq, Qlt, Qminus, Qplus, Qopp, inject_Z; simpl;
      rewrite ?Z2Pos.id by done; lia.
Qed.

Lemma SFdiv_core_binary_correct (mx my : positive) (ex ey : Z) :
  ∃ q e' l X,
    SFdiv_core_binary prec emax (Zpos mx) ex (Zpos my) ey = (q, e', l) ∧
    0 ≤ q ∧
    located X (shr_record_of_loc q l) ∧
    e' ≤ fexp prec emax (Zdigits2 q + e') ∧
    (X * bpow e' == inject_Z (Zpos mx) * bpow ex / (inject_Z (Zpos my) * bpow ey))%Q.
Proof.
  unfold SFdiv_core_binary.
  destruct (Zdigits2_bounds (Zpos mx) eq_refl) as (Hd1 & Hlo1 & Hhi1).
  destruct (Zdigits2_bounds (Zpos my) eq_refl) as (Hd2 & Hlo2 & Hhi2).
  set (d1 := Zdigits2 (Zpos mx)) in *. set (d2 := Zdigits2 (Zpos my)) in *.
  set (e' := Z.min (fexp prec emax (d1 + ex - (d2 + ey))) (ex - ey)).
  set (s := ex - ey - e').
  assert (0 ≤ s) as Hs by lia.
  set (m' := match s with
             | 0 => Zpos mx
             | Zpos _ => Z.shiftl (Zpos mx) s
             | Zneg _ => 0
             end).
  assert (m' = Zpos mx * 2 ^ s) as Hm'.
  { subst m'. destruct s as [|p|p] eqn:Hseq; [simpl; lia | | lia].
    by rewrite Z.shiftl_mul_pow2. }
  pose proof (Z_div_mod m' (Zpos my) eq_refl) as Hdiv.
  destruct (Z.div_eucl m' (Zpos my)) as [q r]. destruct Hdiv as [Hq Hr].
  assert (0 < 2 ^ s) as Hpow by (by apply Z.pow_pos_nonneg).
  assert (0 ≤ q) as Hq0 by nia.
  exists q, e', (new_location (Zpos my) r), (Qmake m' my).
  split_and!.
  - done.
  - done.
  - replace m' with (q * Zpos my + r) by lia.
    apply (new_location_located (Zpos my) r q); [done | lia].
  - assert (e' ≤ fexp prec emax (d1 + ex - (d2 + ey))) as He' by lia.
    rewrite fexp_eq in *.
    assert (2 ^ (d1 - 1) * 2 ^ s ≤ m') as Hm'lo by nia.
    rewrite <- Z.pow_add_r in Hm'lo by lia.
    destruct (decide (q = 0)) as [->|Hq1].
    + simpl Zdigits2.
      assert (2 ^ (d1 - 1 + s) < 2 ^ d2) as Hlt by lia.
      apply Z.pow_lt_mono_r_iff in Hlt; lia.
    + destruct (Z.le_gt_cases 0 (d1 - d2 + s - 1)) as [Ht|Ht].
      * assert (2 ^ (d1 - d2 + s - 1) ≤ q) as Hqlo.
        { assert (2 ^ (d1 - d2 + s - 1) * 2 ^ d2 ≤ m') as H.
          { rewrite <- Z.pow_add_r by lia.
            by replace (d1 - d2 + s - 1 + d2) with (d1 - 1 + s) by lia. }
          assert (0 < 2 ^ (d1 - d2 + s - 1)) by (by apply Z.pow_pos_nonneg).
          nia. }
        pose proof (Zdigits2_ge q (d1 - d2 + s - 1) Hqlo Ht). lia.
      * pose proof (Zdigits2_bounds q). lia.
  - rewrite (Qmake_Qdiv m' my), Hm', inject_Z_mult, <- bpow_Z by done.
    assert (bpow ex == bpow s * bpow e' * bpow ey)%Q as Hex.
    { rewrite <- !bpow_add. by replace (s + e' + ey) with ex by lia. }
    rewrite Hex. field.
    pose proof (bpow_pos ey). split; [lra|]. unfold Qeq. simpl. lia.
Qed.

Lemma Qabs_scale (a b h c : Q) :
  (0 < c)%Q → (Qabs (a - b) <= h)%Q → (Qabs (a * c - b * c) <= h * c)%Q.
Proof.
  intros Hc [Hlo Hhi]%Qabs_Qle_condition. apply Qabs_Qle_condition.
  assert ((a - b) * c <= h * c)%Q by (apply Qmult_le_compat_r; lra).
  assert (- h * c <= (a - b) * c)%Q by (apply Qmult_le_compat_r; lra).
  lra.
Qed.

(** The quotient of two positive binary numbers is correctly rounded:
    [SFdiv] gives a binary64 number within half a unit in the last place
    of the exact quotient, as long as that is within the range. *)
Lemma SFdiv_correct (sx sy : bool) (mx my : positive) (ex ey : Z) :
  (inject_Z (Zpos mx) * bpow ex / (inject_Z (Zpos my) * bpow ey) <= max_float)%Q →
  ∃ m e,
    SFdiv prec emax (S754_finite sx mx ex) (S754_finite sy my ey)
    = SF_of (xorb sx sy) m e ∧
    0 ≤ m ∧ valid_binary (SF_of (xorb sx sy) m e) = true ∧
    (Qabs (inject_Z m * bpow e
           - inject_Z (Zpos mx) * bpow ex / (inject_Z (Zpos my) * bpow ey))
     <= inject_Z m * bpow e * bpow (-53) + bpow (-1075))%Q.
Proof.
  intros Hov.
  destruct (SFdiv_core_binary_correct mx my ex ey)
    as (q & e' & l & X & Hcore & Hq & HX & He' & HXval).
  rewrite <- HXval in Hov.
  destruct (binary_round_aux_correct (xorb sx sy) q e' l X Hq HX He' Hov)
    as (m & e & m2 & Hround & Hm & Hvalid & Hval & Hclose & Hnorm).
  exists m, e. unfold SFdiv. rewrite Hcore. split_and!; [done | done | done |].
  rewrite <- HXval.
  set (e1 := fexp prec emax (Zdigits2 q + e')) in *.
  apply (Qabs_scale _ _ _ (bpow e1) (bpow_pos e1)) in Hclose.
  rewrite bpow_mul_cancel in Hclose. rewrite Hval.
  eapply Qle_trans; [exact Hclose|].
  assert (0 ≤ m2) as Hm2.
  { assert (0 <= inject_Z m2 * bpow e1)%Q as H.
    { rewrite <- Hval. apply Qmult_le_0_compat; [|apply Qlt_le_weak, bpow_pos].
      change 0%Q with (inject_Z 0). by rewrite <- Zle_Qle. }
    destruct (Z.le_gt_cases 0 m2) as [|Hneg]; [done | exfalso].
    assert (inject_Z m2 <= inject_Z (-1))%Q as H1 by (rewrite <- Zle_Qle; lia).
    change (inject_Z (-1)) with (-1)%Q in H1.
    assert (inject_Z m2 * bpow e1 <= (-1) * bpow e1)%Q
      by (apply Qmult_le_compat_r; [done | apply Qlt_le_weak, bpow_pos]).
    pose proof (bpow_pos e1). lra. }
  assert (0 <= inject_Z m2 * bpow e1 * bpow (-53))%Q as Hrel.
  { repeat apply Qmult_le_0_compat; try apply Qlt_le_weak, bpow_pos.
    change 0%Q with (inject_Z 0). by rewrite <- Zle_Qle. }
  destruct Hnorm as [He1|Hnorm].
  - rewrite He1 in *.
    assert ((1 # 2) * bpow (-1074) == bpow (-1075))%Q as H
      by (by rewrite <- bpow_pred).
    pose proof (bpow_pos (-1075)). lra.
  - assert ((1 # 2) * bpow e1 == bpow 52 * bpow e1 * bpow (-53))%Q as H.
    { assert (bpow 52 * bpow (-53) == 1 # 2)%Q as H0 by (by rewrite <- bpow_add).
      rewrite <- H0. ring. }
    assert (bpow 52 * bpow e1 * bpow (-53) <= inject_Z m2 * bpow e1 * bpow (-53))%Q.
    { repeat apply Qmult_le_compat_r; try apply Qlt_le_weak, bpow_pos.
      apply bpow_le_inject_Z; [lia | done]. }
    pose proof (bpow_pos (-1075)). lra.
Qed.

(** *** Binary64 numbers as primitive floats *)

Lemma Q_of_float_SF2Q (x : float) : (PyNum.Q_of_float x == SF2Q (Prim2SF x))%Q.
Proof.
  unfold PyNum.Q_of_float, SF2Q. destruct (Prim2SF x) as [s|s| |s m e]; try done.
  assert ((if 0 <=? e then inject_Z (Zpos m * 2 ^ e)
           else Qmake (Zpos m) (Z.to_pos (2 ^ (- e))))
          == inject_Z (Zpos m) * bpow e)%Q as H.
  { destruct (0 <=? e) eqn:He.
    - apply Z.leb_le in He. by rewrite inject_Z_mult, bpow_Z.
    - apply Z.leb_gt in He.
      assert (0 < 2 ^ (- e)) as Hpow by (apply Z.pow_pos_nonneg; lia).
      rewrite Qmake_Qdiv, Z2Pos.id by done.
      replace e with (- (- e)) at 2 by lia.
      unfold bpow. rewrite Qpower_opp. fold (bpow (- e)).
      rewrite bpow_Z by lia. done. }
  cbv zeta. destruct s; by rewrite H.
Qed.

Lemma SF2Q_SF_of (s : bool) (m e : Z) :
  0 ≤ m →
  (SF2Q (SF_of s m e) == if s then - (inject_Z m * bpow e) else inject_Z m * bpow e)%Q.
Proof.
  intros Hm. destruct m as [|p|p]; [| done | lia].
  simpl. change (inject_Z 0) with 0%Q. destruct s; ring.
Qed.

(** A valid binary64 number is at most [max_float]. *)
Lemma valid_le_max_float (s : bool) (m : positive) (e : Z) :
  valid_binary (S754_finite s m e) = true →
  Zpos m < 2 ^ 53 ∧ e ≤ 971 ∧ (inject_Z (Zpos m) * bpow e <= max_float)%Q.
Proof.
  simpl. unfold bounded, canonical_mantissa.
  intros [Hcan He%Z.leb_le]%andb_prop. apply Z.eqb_eq in Hcan.
  rewrite fexp_eq in Hcan. unfold emax, prec in He.
  destruct (Zdigits2_bounds (Zpos m) eq_refl) as (_ & _ & Hhi).
  change (Zdigits2 (Zpos m)) with (Zpos (digits2_pos m)) in Hhi.
  assert (Zpos m < 2 ^ 53) as Hm.
  { eapply Z.lt_le_trans; [exact Hhi|]. apply Z.pow_le_mono_r; lia. }
  split_and!; [done | lia |].
  unfold max_float. apply Qmult_le_compat_nonneg.
  - split; [done|]. rewrite <- Zle_Qle. lia.
  - split; [apply Qlt_le_weak, bpow_pos | apply bpow_le; lia].
Qed.

Lemma iter_xO (p d : positive) : Zpos (Pos.iter xO p d) = Zpos p * 2 ^ Zpos d.
Proof.
  induction d as [|d IH] using Pos.peano_ind.
  - simpl. lia.
  - rewrite Pos.iter_succ, Pos2Z.inj_xO, IH, Pos2Z.inj_succ, Z.pow_succ_r by lia. lia.
Qed.

(** [float(n)] is exact for a positive int below 2^53. *)
Lemma float_of_Z_exact (n : Z) :
  0 < n < 2 ^ 53 →
  ∃ m e,
    Prim2SF (PyNum.float_of_Z n) = S754_finite false m e ∧
    (inject_Z (Zpos m) * bpow e == inject_Z n)%Q.
Proof.
  intros [Hn Hhi]. destruct n as [|p|p]; [lia | | lia].
  unfold PyNum.float_of_Z. cbn [binary_normalize]. unfold binary_round.
  destruct (Zdigits2_bounds (Zpos p) eq_refl) as (Hd & Hdlo & Hdhi).
  pose proof (Zdigits2_le (Zpos p) 53 eq_refl Hhi) as Hd53.
  change (Zdigits2 (Zpos p)) with (Zpos (digits2_pos p)) in *.
  set (d := Zpos (digits2_pos p)) in *.
  assert (fexp prec emax (d + 0) = d - 53) as Hfexp by (rewrite fexp_eq; lia).
  rewrite Hfexp.
  assert (∃ mz, shl_align p 0 (d - 53) = (mz, d - 53) ∧
                Zpos mz = Zpos p * 2 ^ (53 - d)) as (mz & Hshl & Hmz).
  { unfold shl_align. destruct (d - 53 - 0) as [|k|k] eqn:Hk; [| lia |].
    - exists p. replace (d - 53) with 0 by lia. split; [done|].
      replace (53 - d) with 0 by lia. lia.
    - exists (Pos.iter xO p k). split; [done|].
      rewrite iter_xO. do 2 f_equal. lia. }
  rewrite Hshl.
  assert (2 ^ 52 ≤ Zpos mz < 2 ^ 53) as [Hmzlo Hmzhi].
  { assert (2 ^ 52 = 2 ^ (d - 1) * 2 ^ (53 - d)) as ->
      by (rewrite <- Z.pow_add_r by lia; f_equal; lia).
    assert (2 ^ 53 = 2 ^ d * 2 ^ (53 - d)) as ->
      by (rewrite <- Z.pow_add_r by lia; f_equal; lia).
    assert (0 < 2 ^ (53 - d)) by (apply Z.pow_pos_nonneg; lia).
    rewrite Hmz. split.
    - apply Z.mul_le_mono_nonneg_r; lia.
    - apply Z.mul_lt_mono_pos_r; lia. }
  assert (Zdigits2 (Zpos mz) = 53) as Hdz.
  { pose proof (Zdigits2_le (Zpos mz) 53 eq_refl Hmzhi).
    pose proof (Zdigits2_ge (Zpos mz) 52 Hmzlo). lia. }
  assert (inject_Z (Zpos mz) * bpow (d - 53) == inject_Z (Zpos p))%Q as Hvalue.
  { rewrite Hmz, inject_Z_mult, <- bpow_Z, <- Qmult_assoc, <- bpow_add by lia.
    replace (53 - d + (d - 53)) with 0 by lia. change (bpow 0) with 1%Q. ring. }
  destruct (binary_round_aux_correct false (Zpos mz) (d - 53) loc_Exact
              (inject_Z (Zpos mz)))
    as (m & e & m2 & Hround & Hm & Hvalid & Hval & Hclose & _).
  - done.
  - unfold located. simpl. ring.
  - rewrite Hdz, fexp_eq. lia.
  - rewrite Hvalue. unfold max_float.
    apply (Qle_trans _ (inject_Z (2 ^ 53 - 1) * bpow 0)).
    + change (bpow 0) with 1%Q. rewrite Qmult_1_r, <- Zle_Qle. lia.
    + apply Qmult_le_compat_nonneg.
      * split; [done | apply Qle_refl].
      * split; [done | by apply bpow_le].
  - rewrite Hdz in Hval, Hclose.
    assert (fexp prec emax (53 + (d - 53)) = d - 53) as He1 by (rewrite fexp_eq; lia).
    rewrite He1 in Hval, Hclose.
    replace (d - 53 - (d - 53)) with 0 in Hclose by lia.
    change (bpow 0) with 1%Q in Hclose. rewrite Qmult_1_r in Hclose.
    assert (m2 = Zpos mz) as ->.
    { apply Qabs_Qle_condition in Hclose as [Hlo Hup].
      assert (inject_Z (m2 - Zpos mz) < inject_Z 1)%Q as H1.
      { unfold Zminus. rewrite inject_Z_plus, inject_Z_opp.
        change (inject_Z 1) with 1%Q. lra. }
      assert (inject_Z (-1) < inject_Z (m2 - Zpos mz))%Q as H2.
      { unfold Zminus. rewrite inject_Z_plus, inject_Z_opp.
        change (inject_Z (-1)) with (-1)%Q. lra. }
      rewrite <- Zlt_Qlt in H1, H2. lia. }
    rewrite Hround, Prim2SF_SF2Prim by done.
    destruct m as [|pm|pm]; [| | lia].
    + exfalso. change (inject_Z 0) with 0%Q in Hval.
      rewrite Hvalue in Hval.
      assert (0 < inject_Z (Zpos p))%Q by (change 0%Q with (inject_Z 0); by rewrite <- Zlt_Qlt).
      lra.
    + exists pm, e. split; [done|]. by rewrite Hval.
Qed.

Lemma max_float_Z : (max_float == inject_Z ((2 ^ 53 - 1) * 2 ^ 971))%Q.
Proof. unfold max_float. by rewrite inject_Z_mult, bpow_Z. Qed.

Lemma finite_Prim2SF (f : float) :
  is_finite f = true →
  match Prim2SF f with
  | S754_infinity _ | S754_nan => False
  | _ => True
  end.
Proof.
  unfold is_finite. intros H%negb_true_iff%orb_false_elim. destruct H as [Hnan Hinf].
  unfold Prim2SF. rewrite Hnan, Hinf.
  destruct (is_zero f); [done|].
  destruct (Z.frexp f) as [r exp].
  destruct (shr_fexp _ _ _ _ _) as [mrs e'].
  by destruct (shr_m mrs).
Qed.

Lemma positive_finite_Prim2SF (f : float) :
  PrimFloat.ltb 0 f = true → is_finite f = true →
  ∃ m e, Prim2SF f = S754_finite false m e.
Proof.
  intros Hlt Hfin. apply finite_Prim2SF in Hfin.
  rewrite ltb_spec in Hlt. change (Prim2SF 0) with (S754_zero false) in Hlt.
  destruct (Prim2SF f) as [s|s| |s m e]; try done.
  destruct s; [done|]. by eexists _, _.
Qed.

Lemma Qdiv_le_self (a b : Q) : (0 <= a)%Q → (1 <= b)%Q → (a / b <= a)%Q.
Proof.
  intros Ha Hb. apply Qle_shift_div_r; [lra|].
  assert (a * 1 <= a * b)%Q; [|lra].
  rewrite !(Qmult_comm a). apply Qmult_le_compat_r; lra.
Qed.

(** [w / n] is the binary64 number nearest to the exact quotient. *)
Lemma truediv_close (w : Cell) (n : nat) :
  gt_zero w = Ok true → in_float_range w →
  (1 ≤ n)%nat → Z.of_nat n < 2 ^ 53 →
  ∃ q m e,
    truediv w n = Ok q ∧ Prim2SF q = SF_of false m e ∧ 0 ≤ m ∧
    (0 < exact_value w)%Q ∧
    (Qabs (inject_Z m * bpow e - exact_value w / inject_Z (Z.of_nat n))
     <= inject_Z m * bpow e * bpow (-53) + bpow (-1075))%Q.
Proof.
  intros Hgt Hrange Hn Hn53.
  assert (1 <= inject_Z (Z.of_nat n))%Q as HnQ.
  { change 1%Q with (inject_Z 1). rewrite <- Zle_Qle. lia. }
  unfold truediv. destruct w as [z|f|s]; [| |done]; rewrite decide_False by lia.
  - injection Hgt as Hgt. apply Z.ltb_lt in Hgt. simpl in Hrange.
    destruct z as [|pz|pz]; [lia | | lia].
    destruct (Z.of_nat n) as [|pn|pn] eqn:Hpn; [lia | | lia].
    assert (0 < inject_Z (Zpos pz))%Q as Hpos
      by (change 0%Q with (inject_Z 0); by rewrite <- Zlt_Qlt).
    destruct (SFdiv_correct false false pz pn 0 0) as (m & e & Hdiv & Hm & Hvalid & Hclose).
    { change (bpow 0) with 1%Q. rewrite !Qmult_1_r.
      eapply Qle_trans; [apply Qdiv_le_self; [lra | done]|].
      rewrite max_float_Z, <- Zle_Qle. lia. }
    exists (PyNum.int_truediv (Zpos pz) (Zpos pn)), m, e.
    unfold PyNum.int_truediv. cbn [PyNum.SF_of_Z].
    rewrite Hdiv, Prim2SF_SF2Prim by done.
    split_and!; [done | done | done | done |].
    change (bpow 0) with 1%Q in Hclose. rewrite !Qmult_1_r in Hclose. done.
  - injection Hgt as Hgt. simpl in Hrange.
    destruct (positive_finite_Prim2SF f Hgt Hrange) as (mx & ex & Hf).
    destruct (float_of_Z_exact (Z.of_nat n)) as (my & ey & Hg & Hgval); [lia|].
    pose proof (Prim2SF_valid f) as Hvalidf. rewrite Hf in Hvalidf.
    destruct (valid_le_max_float false mx ex Hvalidf) as (_ & _ & Hmax).
    assert (exact_value (CFloat f) == inject_Z (Zpos mx) * bpow ex)%Q as Hw.
    { simpl. by rewrite Q_of_float_SF2Q, Hf. }
    assert (0 < inject_Z (Zpos mx) * bpow ex)%Q as Hpos.
    { apply Qmult_lt_0_compat; [|apply bpow_pos].
      change 0%Q with (inject_Z 0). by rewrite <- Zlt_Qlt. }
    destruct (SFdiv_correct false false mx my ex ey) as (m & e & Hdiv & Hm & Hvalid & Hclose).
    { rewrite Hgval. eapply Qle_trans; [apply Qdiv_le_self; [lra | done]|]. done. }
    exists (f / PyNum.float_of_Z (Z.of_nat n))%float, m, e.
    rewrite div_spec, Hf, Hg. unfold SF64div. rewrite Hdiv.
    split_and!; [done | done | done | by rewrite Hw |].
    rewrite Hw. by rewrite Hgval in Hclose.
Qed.

Lemma div_half_even_nonneg (a b : Z) : 0 ≤ a → 0 < b → 0 ≤ PyNum.div_half_even a b.
Proof.
  intros Ha Hb. unfold PyNum.div_half_even.
  assert (0 ≤ a / b) by (apply Z.div_pos; lia).
  destruct (2 * (a mod b) ?= b); [destruct (Z.even (a / b)) | |]; lia.
Qed.

Lemma hundredths_nonneg (m : positive) (e : Z) : 0 ≤ PyNum.hundredths m e.
Proof.
  unfold PyNum.hundredths. destruct (0 <=? e) eqn:He.
  - apply Z.leb_le in He. assert (0 < 2 ^ e) by (by apply Z.pow_pos_nonneg). lia.
  - apply Z.leb_gt in He. apply div_half_even_nonneg; [lia|].
    apply Z.pow_pos_nonneg; lia.
Qed.

(** [round(q, 2)] is the binary64 number nearest to the two-decimal
    number [decimal2 q]. *)
Lemma round2_close (q : float) (m e : Z) :
  Prim2SF q = SF_of false m e → 0 ≤ m →
  ∃ m' e',
    Prim2SF (PyNum.round2 q) = SF_of false m' e' ∧ 0 ≤ m' ∧
    (Qabs (inject_Z m' * bpow e' - PyNum.decimal2 q)
     <= inject_Z m' * bpow e' * bpow (-53) + bpow (-1075))%Q.
Proof.
  intros Hq Hm. pose proof (bpow_pos (-1075)) as Hdelta.
  destruct m as [|p|p]; [| | lia]; cbn [SF_of] in Hq.
  - exists 0, 0. unfold PyNum.round2, PyNum.decimal2. rewrite Hq.
    split_and!; [done | done |].
    change (inject_Z 0) with 0%Q. apply Qabs_Qle_condition. lra.
  - pose proof (Prim2SF_valid q) as Hvalid. rewrite Hq in Hvalid.
    destruct (valid_le_max_float false p e Hvalid) as (Hp & He & Hmax).
    pose proof (hundredths_nonneg p e) as Hh.
    pose proof (hundredths_close p e) as Hclose.
    unfold PyNum.round2, PyNum.decimal2. rewrite Hq.
    destruct (PyNum.hundredths p e) as [|h|h] eqn:Hhund; [| | lia].
    + exists 0, 0. rewrite Prim2SF_SF2Prim by done.
      split_and!; [done | done |].
      change (inject_Z 0) with 0%Q. apply Qabs_Qle_condition.
      assert (0 # 100 == 0)%Q by done. lra.
    + assert (Zpos h # 100 == inject_Z (Zpos h) * bpow 0 / (inject_Z 100 * bpow 0))%Q
        as Hdec.
      { change (bpow 0) with 1%Q. rewrite !Qmult_1_r. by rewrite Qmake_Qdiv. }
      destruct (SFdiv_correct false false h 100 0 0) as (m' & e' & Hdiv & Hm' & Hv & Hc).
      { rewrite <- Hdec. destruct (0 <=? e) eqn:Hsign.
        - apply Z.leb_le in Hsign.
          assert (Zpos h # 100 == inject_Z (Zpos p) * bpow e)%Q as ->; [|done].
          unfold PyNum.hundredths in Hhund.
          rewrite (proj2 (Z.leb_le _ _)) in Hhund by done.
          rewrite <- Hhund, Qmake_Qdiv, bpow_Z, <- inject_Z_mult by done.
          replace (100 * Zpos p * 2 ^ e) with (Zpos p * 2 ^ e * 100) by lia.
          rewrite (inject_Z_mult _ 100). field.
        - apply Z.leb_gt in Hsign.
          apply Qabs_Qle_condition in Hclose as [_ Hup].
          assert (Zpos p # Z.to_pos (2 ^ (- e)) <= inject_Z (2 ^ 53))%Q as Hsmall.
          { unfold Qle, inject_Z. simpl.
            assert (0 < 2 ^ (- e)) by (apply Z.pow_pos_nonneg; lia).
            rewrite Z2Pos.id by done. nia. }
          assert (inject_Z (2 ^ 53) + 1 <= max_float)%Q as Hroom.
          { rewrite max_float_Z. change 1%Q with (inject_Z 1).
            rewrite <- inject_Z_plus, <- Zle_Qle.
            assert (2 ^ 53 + 1 ≤ (2 ^ 53 - 1) * 2 ^ 1) by done.
            assert (2 ^ 1 ≤ 2 ^ 971) by (apply Z.pow_le_mono_r; lia).
            nia. }
          lra. }
      exists m', e'. simpl xorb in Hdiv, Hv. rewrite Hdiv, Prim2SF_SF2Prim by done.
      split_and!; [done | done |]. by rewrite Hdec.
Qed.

(** The share written for a weight above 0, against the exact quotient:
    the rounding to two decimals moves it by at most 0.005, the two
    roundings to binary64 by a relative 2^-53 each. *)
Lemma share_close (w : Cell) (n : nat) :
  gt_zero w = Ok true → in_float_range w →
  (1 ≤ n)%nat → Z.of_nat n < 2 ^ 53 →
  ∃ q,
    truediv w n = Ok q ∧
    (Qabs (PyNum.Q_of_float (PyNum.round2 q) - exact_value w / inject_Z (Z.of_nat n))
     <= (5 # 1000) + (exact_value w / inject_Z (Z.of_nat n) + 1) * bpow (-51))%Q.
Proof.
  intros Hgt Hrange Hn Hn53.
  destruct (truediv_close w n Hgt Hrange Hn Hn53)
    as (q & m & e & Hq & Hqsf & Hm & Hwpos & Hdiv).
  destruct (round2_close q m e Hqsf Hm) as (m' & e' & Hssf & Hm' & Hround).
  pose proof (decimal2_close q) as Hdec.
  exists q. split; [done|].
  assert (PyNum.Q_of_float q == inject_Z m * bpow e)%Q as HQq.
  { by rewrite Q_of_float_SF2Q, Hqsf, SF2Q_SF_of. }
  assert (PyNum.Q_of_float (PyNum.round2 q) == inject_Z m' * bpow e')%Q as HQs.
  { by rewrite Q_of_float_SF2Q, Hssf, SF2Q_SF_of. }
  rewrite HQq in Hdec. rewrite HQs.
  assert (0 <= inject_Z m * bpow e)%Q as Hqpos.
  { apply Qmult_le_0_compat; [|apply Qlt_le_weak, bpow_pos].
    change 0%Q with (inject_Z 0). by rewrite <- Zle_Qle. }
  assert (0 <= inject_Z m' * bpow e')%Q as Hspos.
  { apply Qmult_le_0_compat; [|apply Qlt_le_weak, bpow_pos].
    change 0%Q with (inject_Z 0). by rewrite <- Zle_Qle. }
  assert (0 <= exact_value w / inject_Z (Z.of_nat n))%Q as HXpos.
  { apply Qle_shift_div_l.
    - change 0%Q with (inject_Z 0). rewrite <- Zlt_Qlt. lia.
    - lra. }
  set (Qq := (inject_Z m * bpow e)%Q) in *.
  set (S := (inject_Z m' * bpow e')%Q) in *.
  set (X := (exact_value w / inject_Z (Z.of_nat n))%Q) in *.
  set (D := PyNum.decimal2 q) in *.
  assert (bpow (-53) == 1 # 9007199254740992)%Q as Hu by reflexivity.
  assert (bpow (-51) == 1 # 2251799813685248)%Q as Hu4 by reflexivity.
  assert (bpow (-1075) <= 1 # 1152921504606846976)%Q as Hd.
  { assert (bpow (-60) == 1 # 1152921504606846976)%Q as <- by reflexivity.
    by apply bpow_le. }
  rewrite Hu in Hdiv, Hround. rewrite Hu4.
  apply Qabs_Qle_condition in Hdiv as [Hdiv1 Hdiv2].
  apply Qabs_Qle_condition in Hround as [Hround1 Hround2].
  apply Qabs_Qle_condition in Hdec as [Hdec1 Hdec2].
  apply Qabs_Qle_condition. split; lra.
Qed.

(** The sum of the [n] equal shares against the weight. *)
Lemma shares_sum_close (w : Cell) (n : nat) :
  gt_zero w = Ok true → in_float_range w →
  (1 ≤ n)%nat → Z.of_nat n < 2 ^ 53 →
  ∃ q,
    truediv w n = Ok q ∧
    (Qabs (inject_Z (Z.of_nat n) * PyNum.Q_of_float (PyNum.round2 q) - exact_value w)
     <= inject_Z (Z.of_nat n) * (5 # 1000)
        + (exact_value w + inject_Z (Z.of_nat n)) * bpow (-51))%Q.
Proof.
  intros Hgt Hrange Hn Hn53.
  destruct (share_close w n Hgt Hrange Hn Hn53) as (q & Hq & Hclose).
  exists q. split; [done|].
  assert (0 < inject_Z (Z.of_nat n))%Q as HnQ.
  { change 0%Q with (inject_Z 0). rewrite <- Zlt_Qlt. lia. }
  apply (Qabs_scale _ _ _ _ HnQ) in Hclose.
  eapply Qle_trans; [|eapply Qle_trans; [exact Hclose|]].
  - apply Qle_lteq. right. apply Qabs_wd. field. lra.
  - apply Qle_lteq. right. field. lra.
Qed.

(** C5 as stated fails in binary64: for the weight 110000000000000 and 3
    containers every share is round(w/3, 2) = 36666666666666.65625 (the
    float nearest to 36666666666666.66), so the three shares sum to
    w - 1/32, which is further from w than 3 × 0.005. *)
Lemma share_sum_off_weight :
  gt_zero (CInt 110000000000000) = Ok true ∧
  distribute_weight (CInt 110000000000000) 3
  = Ok (replicate 3 (CFloat 36666666666666.65625)) ∧
  (exact_sum (replicate 3 (CFloat 36666666666666.65625))
   == 110000000000000 - (1 # 32))%Q ∧
  ¬ (Qabs (exact_sum (replicate 3 (CFloat 36666666666666.65625))
           - exact_value (CInt 110000000000000)) <= 3 * (5 # 1000))%Q.
Proof.
  split_and!.
  - reflexivity.
  - vm_compute. reflexivity.
  - vm_compute. reflexivity.
  - intros H. apply Qle_bool_iff in H. vm_compute in H. discriminate.
Qed.

Lemma bpow_51 : (bpow (-51) == / inject_Z (2 ^ 51))%Q.
Proof. reflexivity. Qed.

Lemma row_values_replicate (p : DataFrame) (cs : list Label) (r : nat) (v : Cell) :
  (∀ c, c ∈ cs → ∃ cells, getitem p c = Some cells ∧ cells !! r = Some v) →
  row_values p cs r = replicate (length cs) v.
Proof.
  unfold row_values. induction cs as [|c cs IH]; intros H; [done|].
  destruct (H c) as (cells & Hc & Hr); [by left|].
  cbn [omap list_omap]. rewrite Hc. simpl. rewrite Hr.
  rewrite IH; [done|]. intros c' Hc'. apply H. by right.
Qed.

(** C5, amended: when the weight column holds numbers and missing values
    only, a row whose weight [w] is a number greater than 0 within the float
    range gets, in every one of the [n] container columns ([1 <= n < 2^53]),
    the same share round(w/n, 2), where w/n is the binary64 quotient [q]
    and the share is the binary64 nearest to [q] rounded to two decimals;
    nothing corrects the remainder, so the row's container values sum to
    [n] times the share, and that sum differs from [w] by at most
    [n × 0.005 + (w + n) / 2^51]: the rounding to two decimals and the
    two roundings to binary64. *)
Theorem equal_shares (σ : State) (l : loc) (p : DataFrame) (cs : list Label)
    (ws : list Cell) (r : nat) (w : Cell) :
  heap σ !! l = Some p →
  well_formed p →
  (∀ c, c ∈ cs → c ∈ columns p) →
  (length ws ≤ len p)%nat →
  Forall (λ w, is_text w = false) ws →
  (1 ≤ length cs)%nat →
  Z.of_nat (length cs) < 2 ^ 53 →
  ws !! r = Some w →
  gt_zero w = Ok true →
  in_float_range w →
  ∃ q processed_rows p',
    truediv w (length cs) = Ok q ∧
    distribute_weight w (length cs)
    = Ok (replicate (length cs) (CFloat (PyNum.round2 q))) ∧
    distribute_rows l cs (enumerate ws) 0%nat σ
    = (Ok processed_rows, mkState (<[l := p']> (heap σ)) (shown σ)) ∧
    (∀ c, c ∈ cs →
       ∃ cells', getitem p' c = Some cells' ∧ cells' !! r = Some (CFloat (PyNum.round2 q))) ∧
    row_values p' cs r = replicate (length cs) (CFloat (PyNum.round2 q)) ∧
    (exact_sum (row_values p' cs r)
     == inject_Z (Z.of_nat (length cs)) * PyNum.Q_of_float (PyNum.round2 q))%Q ∧
    (Qabs (exact_sum (row_values p' cs r) - exact_value w)
     <= inject_Z (Z.of_nat (length cs)) * (5 # 1000)
        + (exact_value w + inject_Z (Z.of_nat (length cs))) / inject_Z (2 ^ 51))%Q.
Proof.
  intros Hl [_ Hrect] Hsub Hlen Htext Hn Hn53 Hr Hgt Hrange.
  assert (cs ≠ []) as Hcs by (intros ->; simpl in Hn; lia).
  assert (positive_weight w = true) as Hpos by (by apply positive_weight_iff).
  assert (is_text w = false) as Hw by (by apply (proj1 (Forall_lookup _ _) Htext r w)).
  destruct (shares_sum_close w (length cs) Hgt Hrange Hn Hn53) as (q & Hq & Hsum).
  assert (share w (length cs) = CFloat (PyNum.round2 q)) as Hshare
    by (unfold share; by rewrite Hq).
  assert (∀ c, c ∈ cs →
            ∃ cells', getitem (fill_frame cs 0 ws p) c = Some cells' ∧
                      cells' !! r = Some (CFloat (PyNum.round2 q))) as Hcells.
  { intros c Hc. rewrite getitem_fill_frame.
    destruct (getitem_is_Some p c (Hsub c Hc)) as [cells Hcells].
    rewrite Hcells. simpl. rewrite decide_True by done.
    eexists. split; [done|].
    rewrite <- Hshare.
    apply (fill_cells_written _ ws 0 r cells w Hr Hpos).
    apply getitem_elem in Hcells.
    apply (proj1 (Forall_forall _ _) Hrect) in Hcells. simpl in Hcells.
    apply lookup_lt_Some in Hr. lia. }
  pose proof (row_values_replicate _ cs r _ Hcells) as Hrow.
  exists q. eexists _, (fill_frame cs 0 ws p). split_and!.
  - done.
  - rewrite distribute_weight_positive by (done || lia). by rewrite Hshare.
  - unfold enumerate.
    apply (distribute_rows_ok l cs ws 0%nat σ p 0%nat); try done. by left.
  - done.
  - done.
  - rewrite Hrow. apply exact_sum_replicate.
  - rewrite Hrow, exact_sum_replicate. unfold Qdiv. by rewrite <- bpow_51.
Qed.

Lemma equal_shares_witness :
  ∃ q processed_rows p',
    truediv (CInt 9) (length (take 6 (columns Examples.c1_c6_weight))) = Ok q ∧
    distribute_weight (CInt 9) (length (take 6 (columns Examples.c1_c6_weight)))
    = Ok (replicate (length (take 6 (columns Examples.c1_c6_weight)))
            (CFloat (PyNum.round2 q))) ∧
    distribute_rows 1%positive (take 6 (columns Examples.c1_c6_weight))
      (enumerate [CInt 9]) 0%nat (initial Examples.c1_c6_weight)
    = (Ok processed_rows,
       mkState (<[1%positive := p']> (heap (initial Examples.c1_c6_weight)))
               (shown (initial Examples.c1_c6_weight))) ∧
    (∀ c, c ∈ take 6 (columns Examples.c1_c6_weight) →
       ∃ cells', getitem p' c = Some cells' ∧
                 cells' !! 0%nat = Some (CFloat (PyNum.round2 q))) ∧
    row_values p' (take 6 (columns Examples.c1_c6_weight)) 0
    = replicate (length (take 6 (columns Examples.c1_c6_weight)))
        (CFloat (PyNum.round2 q)) ∧
    (exact_sum (row_values p' (take 6 (columns Examples.c1_c6_weight)) 0)
     == inject_Z (Z.of_nat (length (take 6 (columns Examples.c1_c6_weight))))
        * PyNum.Q_of_float (PyNum.round2 q))%Q ∧
    (Qabs (exact_sum (row_values p' (take 6 (columns Examples.c1_c6_weight)) 0)
           - exact_value (CInt 9))
     <= inject_Z (Z.of_nat (length (take 6 (columns Examples.c1_c6_weight)))) * (5 # 1000)
        + (exact_value (CInt 9)
           + inject_Z (Z.of_nat (length (take 6 (columns Examples.c1_c6_weight)))))
          / inject_Z (2 ^ 51))%Q.
Proof.
  apply (equal_shares (initial Examples.c1_c6_weight) 1%positive Examples.c1_c6_weight
           (take 6 (columns Examples.c1_c6_weight)) [CInt 9] 0 (CInt 9)).
  - reflexivity.
  - apply (bool_decide_unpack (well_formed Examples.c1_c6_weight)). vm_compute. exact I.
  - intros c Hc. apply (bool_decide_unpack (c ∈ columns Examples.c1_c6_weight)).
    simpl in Hc.
    repeat (apply elem_of_cons in Hc as [->|Hc]; [vm_compute; exact I|]).
    by apply elem_of_nil in Hc.
  - simpl. lia.
  - repeat constructor.
  - simpl. lia.
  - simpl. lia.
  - reflexivity.
  - reflexivity.
  - simpl. lia.
Defined.

(** ** More on reshaping *)

Lemma list_index_missing (l : list Label) (x : Label) :
  x ∉ l → list_index l x = Raise ValueError.
Proof.
  induction l as [|y l IH]; simpl; [done|].
  intros [Hne Hnin]%not_elem_of_cons.
  rewrite decide_False by congruence. by rewrite IH.
Qed.

(** X1: reshaping a table by a label that is no column of it raises
    [ValueError] (from [list.index]) and creates nothing. *)
Theorem reshape_unknown_weight_column (σ : State) (df : loc) (d : DataFrame)
    (wc : Label) (n : Z) :
  heap σ !! df = Some d →
  wc ∉ columns d →
  shift_columns_and_create_containers df wc n σ = (Raise ValueError, σ).
Proof.
  intros Hl Hnin. unfold shift_columns_and_create_containers. py_unfold.
  rewrite Hl. simpl. by rewrite list_index_missing.
Qed.

Lemma reshape_unknown_weight_column_witness :
  shift_columns_and_create_containers 1%positive (LStr "price") 5 (initial Examples.abw)
  = (Raise ValueError, initial Examples.abw).
Proof.
  apply (reshape_unknown_weight_column (initial Examples.abw) 1%positive Examples.abw
           (LStr "price") 5).
  - reflexivity.
  - apply (bool_decide_unpack (LStr "price" ∉ columns Examples.abw)). vm_compute. exact I.
Defined.

Lemma shifted_frame_well_formed (d : DataFrame) (n s : Z) :
  1 ≤ n → well_formed d → well_formed (shifted_frame d n s).
Proof.
  intros Hn [_ Hrect]. split.
  - apply shifted_frame_NoDup.
  - by apply shifted_frame_rectangular.
Qed.

Lemma getitem_columns (d : DataFrame) (c : Label) (cells : list Cell) :
  getitem d c = Some cells → c ∈ columns d.
Proof.
  intros H%getitem_elem. unfold columns.
  apply list_elem_of_fmap. by exists (c, cells).
Qed.

Lemma getitem_shifted_weight (d : DataFrame) (n : Z) (i : nat) (wc : Label) (ws : list Cell) :
  d !! i = Some (wc, ws) →
  getitem (shifted_frame d n (n - Z.of_nat i)) (Column_ n) = Some ws.
Proof.
  intros Hcol.
  apply (getitem_lookup _ (Z.to_nat n + i)); [apply shifted_frame_NoDup|].
  rewrite (shifted_frame_original d n _ i wc ws Hcol). do 3 f_equal. lia.
Qed.

Lemma lookup_weight_column (d : DataFrame) (wc : Label) (i : nat) :
  NoDup (columns d) →
  list_index (columns d) wc = Ok i →
  ∃ ws, d !! i = Some (wc, ws) ∧ getitem d wc = Some ws.
Proof.
  intros Hnd Hidx. pose proof Hidx as [Hi _]%list_index_spec.
  unfold columns in Hi. rewrite list_lookup_fmap in Hi.
  destruct (d !! i) as [[c ws]|] eqn:Hd; simpl in Hi; [|done].
  injection Hi as ->. exists ws. split; [done|]. by apply (getitem_lookup d i).
Qed.

(** X2: what reshaping returns fits together. The table returned is
    well-formed and has as many rows as the input; the weight label and
    every container label returned name columns of it; and under the weight
    label returned stand the cells of the weight column of the input. *)
Theorem reshape_result_consistent (σ : State) (df : loc) (d : DataFrame)
    (wc : Label) (n : Z) (i : nat) :
  heap σ !! df = Some d →
  well_formed d →
  list_index (columns d) wc = Ok i →
  ∃ new_df fw cs new σ',
    shift_columns_and_create_containers df wc n σ = (Ok (new_df, fw, cs), σ') ∧
    heap σ' !! new_df = Some new ∧
    well_formed new ∧
    len new = len d ∧
    (∀ c, c ∈ cs → c ∈ columns new) ∧
    NoDup cs ∧
    is_Some (getitem new fw) ∧
    getitem new fw = getitem d wc.
Proof.
  intros Hl Hwf Hidx. pose proof Hwf as [Hnd Hrect].
  destruct (lookup_weight_column d wc i Hnd Hidx) as (ws & Hcol & Hget).
  destruct (decide (Z.of_nat i < n)) as [Hlt|Hge].
  - eexists _, _, _, _, _. split_and!.
    + by apply (shift_path σ df d wc n i).
    + simpl. by rewrite lookup_insert_eq.
    + apply shifted_frame_well_formed; [lia | done].
    + apply shifted_frame_len. lia.
    + intros c Hc. rewrite shifted_frame_columns. apply elem_of_app. by left.
    + apply containers_NoDup.
    + rewrite (getitem_shifted_weight d n i wc ws Hcol). by eexists.
    + by rewrite (getitem_shifted_weight d n i wc ws Hcol).
  - eexists _, _, _, _, _. split_and!.
    + apply (no_shift_path σ df d wc n i); (done || lia).
    + simpl. by rewrite lookup_insert_eq.
    + done.
    + done.
    + intros c Hc. by apply (subseteq_take i (columns d)).
    + apply (sublist_NoDup _ (columns d)); [done | apply sublist_take].
    + rewrite Hget. by eexists.
    + done.
Qed.

Lemma reshape_result_consistent_witness :
  ∃ new_df fw cs new σ',
    shift_columns_and_create_containers 1%positive (LStr "weight") 5 (initial Examples.abw)
    = (Ok (new_df, fw, cs), σ') ∧
    heap σ' !! new_df = Some new ∧
    well_formed new ∧
    len new = len Examples.abw ∧
    (∀ c, c ∈ cs → c ∈ columns new) ∧
    NoDup cs ∧
    is_Some (getitem new fw) ∧
    getitem new fw = getitem Examples.abw (LStr "weight").
Proof.
  apply (reshape_result_consistent (initial Examples.abw) 1%positive Examples.abw
           (LStr "weight") 5 2).
  - reflexivity.
  - apply (bool_decide_unpack (well_formed Examples.abw)). vm_compute. exact I.
  - reflexivity.
Defined.

(** ** More on distribution *)

Lemma distribute_weight_no_container (w : Cell) :
  positive_weight w = true → distribute_weight w 0 = Raise ZeroDivisionError.
Proof.
  intros [Hna Hgt]%positive_weight_gt_zero.
  unfold distribute_weight. rewrite Hna, (gt_zero_le_zero w Hgt). simpl.
  by destruct w.
Qed.

(** X3: [distribute_weight] decided by the guard of the loop that calls it,
    for a weight that, when above 0, is within the float range and is
    divided by less than 2^53. A text raises [TypeError]. A weight that
    fails the guard (missing or not above 0) gives [n] zeros without any
    division, also for [n = 0]. A weight that passes it gives [n] times the
    same share, or [ZeroDivisionError] when [n = 0]; the share is a float
    within [0.005 + (w/n + 1) / 2^51] of the exact quotient [w/n]. *)
Theorem distribute_weight_outcome (w : Cell) (n : nat) :
  (positive_weight w = true → in_float_range w ∧ Z.of_nat n < 2 ^ 53) →
  distribute_weight w n
  = (if is_text w then Raise TypeError
     else if positive_weight w then
       if decide (n = 0%nat) then Raise ZeroDivisionError
       else Ok (replicate n (share w n))
     else Ok (replicate n (CInt 0))) ∧
  (positive_weight w = true → n ≠ 0%nat →
   ∃ f, share w n = CFloat f ∧
        (Qabs (PyNum.Q_of_float f - exact_value w / inject_Z (Z.of_nat n))
         <= (5 # 1000)
            + (exact_value w / inject_Z (Z.of_nat n) + 1) / inject_Z (2 ^ 51))%Q).
Proof.
  intros Hrange. split.
  - destruct (is_text w) eqn:Htext.
    + by destruct w.
    + destruct (positive_weight w) eqn:Hpos.
      * destruct (decide (n = 0%nat)) as [->|Hn].
        -- by apply distribute_weight_no_container.
        -- by apply distribute_weight_positive.
      * apply (nonpositive_weight_iff w Htext) in Hpos.
        unfold distribute_weight.
        destruct (isna w) eqn:Hna; [done|].
        destruct Hpos as [?|Hle]; [done|]. by rewrite Hle.
  - intros Hpos Hn. destruct (Hrange Hpos) as [Hw Hn53].
    apply positive_weight_iff in Hpos.
    destruct (share_close w n Hpos Hw) as (q & Hq & Hclose); [lia | done |].
    exists (PyNum.round2 q). split; [unfold share; by rewrite Hq|].
    unfold Qdiv at 2. by rewrite <- bpow_51.
Qed.

Lemma distribute_weight_outcome_witness :
  distribute_weight (CInt 10) 4
  = (if is_text (CInt 10) then Raise TypeError
     else if positive_weight (CInt 10) then
       if decide (4%nat = 0%nat) then Raise ZeroDivisionError
       else Ok (replicate 4 (share (CInt 10) 4))
     else Ok (replicate 4 (CInt 0))) ∧
  (positive_weight (CInt 10) = true → 4%nat ≠ 0%nat →
   ∃ f, share (CInt 10) 4 = CFloat f ∧
        (Qabs (PyNum.Q_of_float f - exact_value (CInt 10) / inject_Z (Z.of_nat 4))
         <= (5 # 1000)
            + (exact_value (CInt 10) / inject_Z (Z.of_nat 4) + 1) / inject_Z (2 ^ 51))%Q).
Proof.
  apply (distribute_weight_outcome (CInt 10) 4).
  intros _. split; [simpl; lia | simpl; lia].
Defined.

Lemma at_set_other (l : loc) (i : nat) (c : Label) (v : Cell) (σ : State) (l' : loc) :
  l' ≠ l → heap (at_set l i c v σ).2 !! l' = heap σ !! l'.
Proof.
  intros Hne. unfold at_set.
  destruct (heap σ !! l); [|done].
  destruct (decide _); [|done]. simpl. by rewrite lookup_insert_ne.
Qed.

Lemma write_row_other (l : loc) (i : nat) (dist : list Cell) (cols : list (nat * Label))
    (l' : loc) :
  l' ≠ l → ∀ σ, heap (write_row l i dist cols σ).2 !! l' = heap σ !! l'.
Proof.
  intros Hne. induction cols as [|[j c] cols IH]; intros σ; simpl; [done|].
  unfold mbind, Py_bind, lift.
  destruct (list_getitem dist j); [|done|done].
  pose proof (at_set_other l i c a σ l' Hne) as Hat.
  destruct (at_set l i c a σ) as [[[]| |] σ1]; simpl in *; [|done|done].
  by rewrite IH.
Qed.

Lemma distribute_rows_other (l : loc) (cs : list Label) (ws : list (nat * Cell)) (l' : loc) :
  l' ≠ l → ∀ acc σ, heap (distribute_rows l cs ws acc σ).2 !! l' = heap σ !! l'.
Proof.
  intros Hne. induction ws as [|[i w] ws IH]; intros acc σ; simpl; [done|].
  unfold mbind at 1, Py_bind at 1, lift at 1.
  destruct (if negb (isna w) then gt_zero w else Ok false) as [[]| |]; [| |done|done].
  - unfold mbind at 1, Py_bind at 1, lift at 1.
    destruct (distribute_weight w (length cs)) as [dist| |]; [|done|done].
    unfold mbind at 1, Py_bind at 1.
    pose proof (write_row_other l i dist (enumerate cs) l' Hne σ) as Hw.
    destruct (write_row l i dist (enumerate cs) σ) as [[[]| |] σ1]; simpl in *; [|done|done].
    by rewrite IH.
  - apply IH.
Qed.

(** A table that reshaping returns is a new object. *)
Lemma shift_result_fresh (σ σ' : State) (df : loc) (wc : Label) (n : Z)
    (new_df : loc) (fw : Label) (cs : list Label) :
  shift_columns_and_create_containers df wc n σ = (Ok (new_df, fw, cs), σ') →
  heap σ !! new_df = None.
Proof.
  unfold shift_columns_and_create_containers. py_unfold.
  destruct (heap σ !! df) as [d|] eqn:Hd; simpl; [|done].
  destruct (list_index (columns d) wc) as [i| |]; simpl; [|done|done].
  destruct (decide (Z.of_nat i < n)).
  - destruct (add_shifted _ _ _ _); simpl; [|done|done].
    destruct (DataFrame_of_dict _); simpl; [|done|done].
    intros [= <- _ _ _]. apply fresh_loc_None.
  - py_unfold. rewrite Hd. simpl. intros [= <- _ _ _]. apply fresh_loc_None.
Qed.

Section Untouched.

Variable parses_as_number : string → bool.

(** X4: [process_dataframe] changes no table that exists when it is called,
    the one it is given included, whether it returns or raises; all its
    writes go to the table it creates. *)
Theorem process_dataframe_keeps_tables (σ : State) (df : loc) (n : Z)
    (l : loc) (x : DataFrame) :
  heap σ !! l = Some x →
  heap (process_dataframe parses_as_number df n σ).2 !! l = Some x.
Proof.
  intros Hl. unfold process_dataframe.
  unfold mbind at 1, Py_bind at 1, deref at 1.
  destruct (heap σ !! df) as [d|] eqn:Hd; [|done].
  unfold mbind at 1, Py_bind at 1, lift at 1.
  destruct (find_weight_column parses_as_number d) as [[[wc|] k]| |]; [| |done|done].
  2:{ done. }
  unfold mbind at 1, Py_bind at 1, st at 1.
  unfold mbind at 1, Py_bind at 1.
  set (σ0 := mkState (heap σ) (shown σ ++ [StInfoDetected wc k])).
  pose proof (shift_keeps_heap σ0 df wc n l x Hl) as Hkeep.
  destruct (shift_columns_and_create_containers df wc n σ0)
    as [[[[new fw] cs]| |] σ1] eqn:Hrun; simpl in Hkeep; [|done|done].
  pose proof (shift_result_fresh σ0 σ1 df wc n new fw cs Hrun) as Hfresh.
  simpl in Hfresh.
  assert (l ≠ new) as Hne by (intros ->; congruence).
  unfold mbind at 1, Py_bind at 1, st at 1.
  unfold mbind at 1, Py_bind at 1, st at 1.
  unfold mbind at 1, Py_bind at 1, deref at 1. simpl heap.
  destruct (heap σ1 !! new) as [p|]; [|done].
  unfold mbind at 1, Py_bind at 1.
  destruct (getitem p fw) as [ws|]; [|done].
  unfold mret at 1, Py_ret at 1. unfold mbind at 1, Py_bind at 1.
  match goal with |- context [distribute_rows new cs ?e ?a ?s] =>
    pose proof (distribute_rows_other new cs e l Hne a s) as Hd';
    destruct (distribute_rows new cs e a s) as [[k'| |] σ2]
  end; simpl in *; by rewrite Hd'.
Qed.

End Untouched.

Lemma process_dataframe_keeps_tables_witness :
  heap (process_dataframe Examples.digits 1%positive 2
          (initial MoreExamples.with_text)).2 !! 1%positive
  = Some MoreExamples.with_text.
Proof.
  apply (process_dataframe_keeps_tables Examples.digits (initial MoreExamples.with_text)
           1%positive 2 1%positive MoreExamples.with_text).
  reflexivity.
Defined.

(** The outer loop over rows that all go well, followed by more rows. *)
Lemma distribute_rows_prefix (l : loc) (cs : list Label) (pre rest : list Cell) :
  ∀ (k : nat) (σ : State) (p : DataFrame) (acc : nat),
    heap σ !! l = Some p →
    (∀ c, c ∈ cs → c ∈ columns p) →
    (k + length pre ≤ len p)%nat →
    Forall (λ w, is_text w = false) pre →
    cs ≠ [] ∨ Forall (λ w, positive_weight w = false) pre →
    distribute_rows l cs (zip (seq k (length (pre ++ rest))) (pre ++ rest)) acc σ
    = distribute_rows l cs (zip (seq (k + length pre) (length rest)) rest)
        (acc + length (filter (λ w, positive_weight w = true) pre))%nat
        (mkState (<[l := fill_frame cs k pre p]> (heap σ)) (shown σ)).
Proof.
  induction pre as [|w pre IH]; intros k σ p acc Hl Hsub Hk Htext Hcs.
  - simpl. by rewrite fill_frame_nil, insert_id, !Nat.add_0_r, state_eta.
  - simpl in Hk. apply Forall_cons in Htext as [Hw Htext].
    rewrite fill_frame_cons. simpl.
    unfold mbind at 1, Py_bind at 1, lift at 1. rewrite (loop_test_value w Hw).
    destruct (positive_weight w) eqn:Hpos.
    + assert (cs ≠ []) as Hne.
      { destruct Hcs as [?|Hall]; [done|].
        apply Forall_cons in Hall as [Hall _]. congruence. }
      assert (length cs ≠ 0%nat) as Hlen by (by destruct cs).
      unfold mbind at 1, Py_bind at 1, lift at 1.
      rewrite (distribute_weight_positive w (length cs) Hpos Hlen).
      unfold mbind at 1, Py_bind at 1.
      unfold enumerate.
      rewrite (write_row_ok l k (length cs) _ cs 0%nat σ p) by (done || lia).
      rewrite (IH (S k) _ (set_row cs k (share w (length cs)) p)); simpl.
      * rewrite insert_insert_eq, filter_cons_True by done. simpl.
        replace (k + S (length pre))%nat with (S (k + length pre)) by lia.
        by replace (acc + S (length (filter (λ w, positive_weight w = true) pre)))%nat
          with (acc + 1 + length (filter (λ w, positive_weight w = true) pre))%nat by lia.
      * by rewrite lookup_insert_eq.
      * intros c Hc. rewrite set_row_columns. by apply Hsub.
      * rewrite set_row_len. lia.
      * done.
      * by left.
    + assert (cs ≠ [] ∨ Forall (λ w, positive_weight w = false) pre) as Hcs'.
      { destruct Hcs as [?|Hall]; [by left | right].
        by apply Forall_cons in Hall as [_ ?]. }
      assert (S k + length pre ≤ len p)%nat as Hk' by lia.
      rewrite (IH (S k) σ p acc Hl Hsub Hk' Htext Hcs').
      rewrite filter_cons_False by congruence.
      by replace (k + S (length pre))%nat with (S k + length pre)%nat by lia.
Qed.

Lemma first_text (ws : list Cell) :
  ¬ Forall (λ w, is_text w = false) ws →
  ∃ pre w post,
    ws = pre ++ w :: post ∧ Forall (λ w, is_text w = false) pre ∧ is_text w = true.
Proof.
  induction ws as [|w ws IH]; intros Hnot.
  - destruct Hnot. constructor.
  - destruct (is_text w) eqn:Hw.
    + exists [], w, ws. by repeat split.
    + destruct IH as (pre & w' & post & -> & Hpre & Hw').
      { intros Hall. apply Hnot. by constructor. }
      exists (w :: pre), w', post. repeat split; [|done]. by constructor.
Qed.

Section Failures.

Variable parses_as_number : string → bool.

(** The method up to its loop. *)
Lemma process_dataframe_loop (σ : State) (df : loc) (d : DataFrame) (n : Z)
    (wc : Label) (count i : nat) (ws : list Cell) :
  heap σ !! df = Some d →
  well_formed d →
  find_weight_column parses_as_number d = Ok (Some wc, count) →
  list_index (columns d) wc = Ok i →
  getitem d wc = Some ws →
  let new := fresh (dom (heap σ)) in
  let p := if decide (Z.of_nat i < n) then shifted_frame d n (n - Z.of_nat i) else d in
  let fw := if decide (Z.of_nat i < n) then Column_ n else wc in
  let cs := if decide (Z.of_nat i < n) then (λ i, Container_ (i + 1)) <$> range n
            else take i (columns d) in
  process_dataframe parses_as_number df n σ
  = match distribute_rows new cs (enumerate ws) 0%nat
            (mkState (<[new := p]> (heap σ))
               (shown σ ++ [StInfoDetected wc count; StInfoContainers cs;
                            StInfoFinalWeight fw])) with
    | (Ok processed_rows, σ') =>
        (Ok (Some (new, fw, cs)),
         mkState (heap σ') (shown σ' ++ [StSuccessProcessed processed_rows (length cs)]))
    | (Raise e, σ') => (Raise e, σ')
    | (Unmodelled, σ') => (Unmodelled, σ')
    end.
Proof.
  intros Hl Hwf Hfind Hidx Hget new p fw cs.
  pose proof Hwf as [Hnd Hrect].
  pose proof (lookup_column d wc i ws Hnd Hidx Hget) as Hcol.
  assert (shift_columns_and_create_containers df wc n
            (mkState (heap σ) (shown σ ++ [StInfoDetected wc count]))
          = (Ok (new, fw, cs),
             mkState (<[new := p]> (heap σ)) (shown σ ++ [StInfoDetected wc count])))
    as Hshift.
  { subst new p fw cs. destruct (decide (Z.of_nat i < n)).
    - by rewrite (shift_path _ df d wc n i).
    - by rewrite (no_shift_path _ df d wc n i) by (done || lia). }
  assert (getitem p fw = Some ws) as Hw.
  { subst p fw. destruct (decide (Z.of_nat i < n)); [|done].
    by apply (getitem_shifted_weight d n i wc ws). }
  unfold process_dataframe.
  unfold mbind at 1, Py_bind at 1, deref at 1. rewrite Hl.
  unfold mbind at 1, Py_bind at 1, lift at 1. rewrite Hfind.
  unfold mbind at 1, Py_bind at 1, st at 1.
  unfold mbind at 1, Py_bind at 1. rewrite Hshift.
  unfold mbind at 1, Py_bind at 1, st at 1.
  unfold mbind at 1, Py_bind at 1, st at 1.
  unfold mbind at 1, Py_bind at 1, deref at 1. simpl heap. rewrite lookup_insert_eq.
  unfold mbind at 1, Py_bind at 1. rewrite Hw. unfold mret at 1, Py_ret at 1.
  unfold mbind at 1, Py_bind at 1. simpl shown. rewrite <- !app_assoc. simpl.
  destruct (distribute_rows _ _ _ _ _) as [[k| |] σ']; done.
Qed.

End Failures.

Lemma reshaped_facts (d : DataFrame) (n : Z) (i : nat) (wc : Label) (ws : list Cell) :
  well_formed d →
  d !! i = Some (wc, ws) →
  let p := if decide (Z.of_nat i < n) then shifted_frame d n (n - Z.of_nat i) else d in
  let cs := if decide (Z.of_nat i < n) then (λ i, Container_ (i + 1)) <$> range n
            else take i (columns d) in
  well_formed p ∧ len p = len d ∧ length ws = len d ∧
  (∀ c, c ∈ cs → c ∈ columns p) ∧
  (0 < n ∨ (0 < i)%nat → cs ≠ []) ∧
  length p = (if decide (Z.of_nat i < n) then (Z.to_nat n + length d)%nat else length d).
Proof.
  intros Hwf Hcol p cs. pose proof Hwf as [Hnd Hrect].
  assert (length ws = len d) as Hlen.
  { apply list_elem_of_lookup_2 in Hcol.
    by apply (proj1 (Forall_forall _ _) Hrect) in Hcol. }
  subst p cs. destruct (decide (Z.of_nat i < n)) as [Hlt|Hge].
  - split_and!; try done.
    + apply shifted_frame_well_formed; [lia | done].
    + apply shifted_frame_len. lia.
    + intros c Hc. rewrite shifted_frame_columns. apply elem_of_app. by left.
    + intros _. unfold range. destruct (Z.to_nat n) eqn:Hn; [lia | done].
    + apply shifted_frame_length.
  - split_and!; try done.
    + intros c Hc. by apply (subseteq_take i (columns d)).
    + intros Hpos. assert (0 < i)%nat as Hi by lia.
      apply lookup_lt_Some in Hcol. rewrite <- columns_length in Hcol.
      destruct (columns d), i; simpl in *; (done || lia).
Qed.

Lemma fill_frame_well_formed (cs : list Label) (k : nat) (ws : list Cell) (p : DataFrame) :
  well_formed p → well_formed (fill_frame cs k ws p).
Proof.
  intros [Hnd Hrect]. split.
  - by rewrite fill_frame_columns.
  - rewrite fill_frame_len. unfold fill_frame.
    apply Forall_fmap. eapply Forall_impl; [exact Hrect|].
    intros [l cells] Hlen. simpl in *.
    destruct (decide (l ∈ cs)); simpl; [by rewrite fill_cells_length | done].
Qed.

Lemma fill_frame_length (cs : list Label) (k : nat) (ws : list Cell) (p : DataFrame) :
  length (fill_frame cs k ws p) = length p.
Proof. unfold fill_frame. by rewrite length_fmap. Qed.

Lemma none_processed (ws : list Cell) :
  Forall (λ w, positive_weight w = false) ws →
  length (filter (λ w, positive_weight w = true) ws) = 0%nat.
Proof.
  induction 1 as [|w ws Hw Hall IH]; [done|].
  by rewrite filter_cons_False by congruence.
Qed.

Section Outcomes.

Variable parses_as_number : string → bool.

Lemma detected_index (d : DataFrame) (wc : Label) (ws : list Cell) :
  NoDup (columns d) →
  getitem d wc = Some ws →
  ∃ i, list_index (columns d) wc = Ok i ∧ d !! i = Some (wc, ws).
Proof.
  intros Hnd Hget.
  destruct (list_index_elem (columns d) wc (getitem_columns d wc ws Hget)) as [i Hi].
  exists i. split; [done|]. by apply lookup_column.
Qed.

(** X5: for a count of at least 1, [process_dataframe] on a table with a
    detected weight column returns the triple exactly when that column holds
    no text. With a text in it the comparison [weight > 0] raises
    [TypeError]: by then the new table exists and the three messages before
    the loop are out, but no success is reported. *)
Theorem process_dataframe_text_raises (σ : State) (df : loc) (d : DataFrame) (n : Z)
    (wc : Label) (count : nat) (ws : list Cell) :
  heap σ !! df = Some d →
  well_formed d →
  find_weight_column parses_as_number d = Ok (Some wc, count) →
  getitem d wc = Some ws →
  1 ≤ n →
  if decide (Forall (λ w, is_text w = false) ws)
  then ∃ r σ', process_dataframe parses_as_number df n σ = (Ok (Some r), σ')
  else ∃ fw cs σ',
    process_dataframe parses_as_number df n σ = (Raise TypeError, σ') ∧
    shown σ' = shown σ ++ [StInfoDetected wc count; StInfoContainers cs;
                           StInfoFinalWeight fw] ∧
    heap σ !! fresh (dom (heap σ)) = None ∧
    is_Some (heap σ' !! fresh (dom (heap σ))).
Proof.
  intros Hl Hwf Hfind Hget Hn. pose proof Hwf as [Hnd _].
  destruct (detected_index d wc ws Hnd Hget) as (i & Hidx & Hcol).
  assert (0 < n) as Hpos by lia.
  destruct (decide (Forall (λ w, is_text w = false) ws)) as [Htext|Htext].
  - eexists _, _.
    exact (process_dataframe_ok parses_as_number σ df d n wc count i ws
             Hl Hwf Hfind Hidx Hget Htext (or_introl Hpos)).
  - destruct (first_text ws Htext) as (pre & w & post & -> & Hpre & Hw).
    pose proof (process_dataframe_loop parses_as_number σ df d n wc count i _
                  Hl Hwf Hfind Hidx Hget) as Hrun.
    pose proof (reshaped_facts d n i wc _ Hwf Hcol) as (_ & Hlen & Hws & Hsub & Hcs & _).
    cbv zeta in Hrun, Hlen, Hsub, Hcs.
    unfold enumerate in Hrun.
    rewrite length_app in Hws.
    rewrite (distribute_rows_prefix _ _ pre (w :: post) 0%nat _
               (if decide (Z.of_nat i < n) then shifted_frame d n (n - Z.of_nat i) else d))
      in Hrun.
    + destruct w as [z|f|s]; [done|done|]. simpl in Hrun.
      eexists _, _, _. split; [exact Hrun|]. simpl.
      split_and!; [done | apply fresh_loc_None |].
      rewrite lookup_insert_eq. by eexists.
    + simpl. by rewrite lookup_insert_eq.
    + done.
    + lia.
    + done.
    + left. apply Hcs. by left.
Qed.

(** X6: with a count below 1 and the weight column first there is no
    container. [process_dataframe] then returns, with an empty container
    list, exactly when no weight is above 0 (the weight column holding no
    text); otherwise the division by [len(container_columns)] raises
    [ZeroDivisionError]. *)
Theorem process_dataframe_no_container (σ : State) (df : loc) (d : DataFrame) (n : Z)
    (wc : Label) (count : nat) (ws : list Cell) :
  heap σ !! df = Some d →
  well_formed d →
  find_weight_column parses_as_number d = Ok (Some wc, count) →
  list_index (columns d) wc = Ok 0%nat →
  getitem d wc = Some ws →
  Forall (λ w, is_text w = false) ws →
  n < 1 →
  if decide (Forall (λ w, positive_weight w = false) ws)
  then ∃ new_df σ',
    process_dataframe parses_as_number df n σ = (Ok (Some (new_df, wc, [])), σ') ∧
    heap σ' !! new_df = Some d ∧
    last (shown σ') = Some (StSuccessProcessed 0 0)
  else ∃ σ', process_dataframe parses_as_number df n σ = (Raise ZeroDivisionError, σ').
Proof.
  intros Hl Hwf Hfind Hidx Hget Htext Hn. pose proof Hwf as [Hnd _].
  pose proof (lookup_column d wc 0 ws Hnd Hidx Hget) as Hcol.
  destruct (decide (Forall (λ w, positive_weight w = false) ws)) as [Hall|Hsome].
  - pose proof (process_dataframe_ok parses_as_number σ df d n wc count 0 ws
                  Hl Hwf Hfind Hidx Hget Htext (or_intror (or_intror Hall))) as Hrun.
    cbv zeta in Hrun. rewrite !decide_False in Hrun by lia.
    rewrite take_0 in Hrun.
    eexists _, _. split; [exact Hrun|]. simpl. split_and!.
    + rewrite lookup_insert_eq. f_equal. unfold fill_frame.
      rewrite <- (list_fmap_id d) at 2. apply list_fmap_ext. by intros j [l cells] _.
    + rewrite (last_app_cons _ _ (StInfoDetected wc count)). simpl.
      by rewrite (none_processed ws Hall).
  - assert (∃ pre w post, ws = pre ++ w :: post ∧
              Forall (λ w, positive_weight w = false) pre ∧ positive_weight w = true)
      as (pre & w & post & -> & Hpre & Hw).
    { clear -Hsome. induction ws as [|w ws IH]; [destruct Hsome; constructor|].
      destruct (positive_weight w) eqn:Hw.
      - exists [], w, ws. by repeat split.
      - destruct IH as (pre & w' & post & -> & Hpre & Hw').
        { intros Hall. apply Hsome. by constructor. }
        exists (w :: pre), w', post. repeat split; [|done]. by constructor. }
    pose proof (process_dataframe_loop parses_as_number σ df d n wc count 0 _
                  Hl Hwf Hfind Hidx Hget) as Hrun.
    pose proof (reshaped_facts d n 0 wc _ Hwf Hcol) as (_ & Hlen & Hws & Hsub & _).
    cbv zeta in Hrun, Hlen, Hsub.
    destruct (decide (Z.of_nat 0 < n)) as [?|_]; [lia|].
    rewrite take_0 in Hrun, Hsub.
    unfold enumerate in Hrun. rewrite length_app in Hws.
    apply Forall_app in Htext as [Htpre Htpost].
    apply Forall_cons in Htpost as [Htw _].
    rewrite (distribute_rows_prefix _ [] pre (w :: post) 0%nat _ d) in Hrun.
    + simpl in Hrun.
      unfold mbind at 1, Py_bind at 1, lift at 1 in Hrun.
      rewrite (loop_test_value w Htw), Hw in Hrun.
      unfold mbind at 1, Py_bind at 1, lift at 1 in Hrun.
      rewrite (distribute_weight_no_container w Hw) in Hrun.
      by eexists.
    + simpl. by rewrite lookup_insert_eq.
    + done.
    + lia.
    + done.
    + by right.
Qed.

(** X7: the table [process_dataframe] returns is well-formed, has as many
    rows as the input and, on the shift path, [n] more columns than it, the
    same number otherwise; the weight label and the container labels it
    returns name columns of that table. *)
Theorem process_dataframe_result_shape (σ : State) (df : loc) (d : DataFrame) (n : Z)
    (wc : Label) (count i : nat) (ws : list Cell) :
  heap σ !! df = Some d →
  well_formed d →
  find_weight_column parses_as_number d = Ok (Some wc, count) →
  list_index (columns d) wc = Ok i →
  getitem d wc = Some ws →
  Forall (λ w, is_text w = false) ws →
  1 ≤ n →
  ∃ new_df fw cs p' σ',
    process_dataframe parses_as_number df n σ = (Ok (Some (new_df, fw, cs)), σ') ∧
    heap σ' !! new_df = Some p' ∧
    well_formed p' ∧
    len p' = len d ∧
    length p' = (if decide (Z.of_nat i < n) then (Z.to_nat n + length d)%nat else length d) ∧
    fw ∈ columns p' ∧
    (∀ c, c ∈ cs → c ∈ columns p') ∧
    length cs = (if decide (Z.of_nat i < n) then Z.to_nat n else i).
Proof.
  intros Hl Hwf Hfind Hidx Hget Htext Hn.
  assert (0 < n) as Hpos by lia.
  pose proof (process_dataframe_ok parses_as_number σ df d n wc count i ws
                Hl Hwf Hfind Hidx Hget Htext (or_introl Hpos)) as Hrun.
  pose proof Hwf as [Hnd _].
  pose proof (lookup_column d wc i ws Hnd Hidx Hget) as Hcol.
  pose proof (reshaped_facts d n i wc ws Hwf Hcol) as (Hwfp & Hlen & _ & Hsub & _ & Hcols).
  cbv zeta in Hrun, Hwfp, Hlen, Hsub, Hcols.
  eexists _, _, _, _, _. split; [exact Hrun|]. simpl. split_and!.
  - by rewrite lookup_insert_eq.
  - by apply fill_frame_well_formed.
  - by rewrite fill_frame_len.
  - by rewrite fill_frame_length.
  - rewrite fill_frame_columns.
    destruct (decide (Z.of_nat i < n)).
    + apply (getitem_columns _ _ ws). by apply (getitem_shifted_weight d n i wc ws).
    + by apply (getitem_columns _ _ ws).
  - intros c Hc. rewrite fill_frame_columns. by apply Hsub.
  - destruct (decide (Z.of_nat i < n)).
    + by rewrite length_fmap, range_length.
    + apply list_index_lt in Hidx. rewrite length_take. lia.
Qed.

End Outcomes.

Lemma process_dataframe_text_raises_witness :
  if decide (Forall (λ w, is_text w = false) [CInt 5; CStr "x"; CInt 3])
  then ∃ r σ',
    process_dataframe Examples.digits 1%positive 2 (initial MoreExamples.with_text)
    = (Ok (Some r), σ')
  else ∃ fw cs σ',
    process_dataframe Examples.digits 1%positive 2 (initial MoreExamples.with_text)
    = (Raise TypeError, σ') ∧
    shown σ' = shown (initial MoreExamples.with_text)
               ++ [StInfoDetected (LInt 0) 2; StInfoContainers cs; StInfoFinalWeight fw] ∧
    heap (initial MoreExamples.with_text)
      !! fresh (dom (heap (initial MoreExamples.with_text))) = None ∧
    is_Some (heap σ' !! fresh (dom (heap (initial MoreExamples.with_text)))).
Proof.
  apply (process_dataframe_text_raises Examples.digits (initial MoreExamples.with_text)
           1%positive MoreExamples.with_text 2 (LInt 0) 2 [CInt 5; CStr "x"; CInt 3]).
  - reflexivity.
  - apply (bool_decide_unpack (well_formed MoreExamples.with_text)). vm_compute. exact I.
  - reflexivity.
  - reflexivity.
  - lia.
Defined.

Lemma process_dataframe_no_container_witness :
  if decide (Forall (λ w, positive_weight w = false) [CInt 0; CInt 3])
  then ∃ new_df σ',
    process_dataframe Examples.digits 1%positive 0 (initial MoreExamples.only_weights)
    = (Ok (Some (new_df, LInt 0, [])), σ') ∧
    heap σ' !! new_df = Some MoreExamples.only_weights ∧
    last (shown σ') = Some (StSuccessProcessed 0 0)
  else ∃ σ',
    process_dataframe Examples.digits 1%positive 0 (initial MoreExamples.only_weights)
    = (Raise ZeroDivisionError, σ').
Proof.
  apply (process_dataframe_no_container Examples.digits (initial MoreExamples.only_weights)
           1%positive MoreExamples.only_weights 0 (LInt 0) 2 [CInt 0; CInt 3]).
  - reflexivity.
  - apply (bool_decide_unpack (well_formed MoreExamples.only_weights)). vm_compute. exact I.
  - reflexivity.
  - reflexivity.
  - reflexivity.
  - repeat constructor.
  - lia.
Defined.

Lemma process_dataframe_result_shape_witness :
  ∃ new_df fw cs p' σ',
    process_dataframe Examples.digits 1%positive 5 (initial Examples.abw)
    = (Ok (Some (new_df, fw, cs)), σ') ∧
    heap σ' !! new_df = Some p' ∧
    well_formed p' ∧
    len p' = len Examples.abw ∧
    length p' = (if decide (Z.of_nat 2 < 5) then (Z.to_nat 5 + length Examples.abw)%nat
                 else length Examples.abw) ∧
    fw ∈ columns p' ∧
    (∀ c, c ∈ cs → c ∈ columns p') ∧
    length cs = (if decide (Z.of_nat 2 < 5) then Z.to_nat 5 else 2%nat).
Proof.
  apply (process_dataframe_result_shape Examples.digits (initial Examples.abw) 1%positive
           Examples.abw 5 (LStr "weight") 2 2 [CInt 10; CInt 0]).
  - reflexivity.
  - apply (bool_decide_unpack (well_formed Examples.abw)). vm_compute. exact I.
  - reflexivity.
  - reflexivity.
  - reflexivity.
  - repeat constructor.
  - lia.
Defined.

Lemma processed_weight_column_witness :
  ∃ new_df fw cs p' σ',
    process_dataframe Examples.digits 1%positive 5 (initial Examples.abw)
    = (Ok (Some (new_df, fw, cs)), σ') ∧
    heap σ' !! new_df = Some p' ∧
    getitem p' fw = Some [CInt 10; CInt 0] ∧
    heap σ' !! 1%positive = Some Examples.abw.
Proof.
  apply (processed_weight_column Examples.digits (initial Examples.abw) 1%positive
           Examples.abw 5 (LStr "weight") 2 2 [CInt 10; CInt 0]).
  - reflexivity.
  - apply (bool_decide_unpack (well_formed Examples.abw)). vm_compute. exact I.
  - reflexivity.
  - reflexivity.
  - reflexivity.
  - repeat constructor.
  - lia.
Defined.

(** ** The script *)

Lemma copy_ok (σ : State) (df : loc) (d : DataFrame) :
  heap σ !! df = Some d →
  copy df σ = (Ok (fresh (dom (heap σ))),
               mkState (<[fresh (dom (heap σ)) := d]> (heap σ)) (shown σ)).
Proof. intros Hl. unfold copy. py_unfold. by rewrite Hl. Qed.

Lemma sample_elem (ws : list Cell) (w : Cell) : w ∈ sample ws → w ∈ ws ∧ isna w = false.
Proof.
  unfold sample. intros Hin%(subseteq_take 3). by apply list_elem_of_filter in Hin as [? ?].
Qed.

(** The example lines: one for every sampled weight above 0, with the share
    of that weight. *)
Lemma example_lines_ok (sw : list Cell) (cs : list Label) :
  Forall (λ w, is_text w = false) sw →
  cs ≠ [] →
  ∃ lines,
    example_lines sw cs = Ok lines ∧
    (∀ x, x ∈ lines →
       ∃ w v, x = WriteExample w v ∧ w ∈ sw ∧ gt_zero w = Ok true ∧
              share w (length cs) = CFloat v) ∧
    (∀ w, w ∈ sw → gt_zero w = Ok true → ∃ v, WriteExample w v ∈ lines) ∧
    (length lines ≤ length sw)%nat.
Proof.
  intros Htext Hcs. assert (length cs ≠ 0%nat) as Hlen by (by destruct cs).
  induction Htext as [|w sw Hw Htext IH].
  - exists []. split_and!; [done | | | done].
    + by intros x ?%elem_of_nil.
    + by intros w ?%elem_of_nil.
  - destruct IH as (lines & Hrun & Hsound & Hcomplete & Hshort). simpl.
    assert (∃ b, gt_zero w = Ok b) as [b Hb]
      by (destruct w as [z|f|s]; [by eexists | by eexists | done]).
    rewrite Hb. simpl. destruct b.
    + assert (∃ q, truediv w (length cs) = Ok q) as [q Hq].
      { unfold truediv. destruct w; [| |done]; rewrite decide_False by done; by eexists. }
      rewrite Hq, Hrun. simpl.
      exists (WriteExample w (PyNum.round2 q) :: lines). split_and!.
      * done.
      * intros x [->|Hx]%elem_of_cons.
        -- exists w, (PyNum.round2 q). split_and!; [done | left | done |].
           unfold share. by rewrite Hq.
        -- destruct (Hsound x Hx) as (w' & v & -> & Hin & Hgt & Hshare).
           exists w', v. split_and!; [done | by right | done | done].
      * intros w' [->|Hin]%elem_of_cons Hgt.
        -- exists (PyNum.round2 q). left.
        -- destruct (Hcomplete w' Hin Hgt) as [v Hv]. exists v. by right.
      * simpl. lia.
    + exists lines. split_and!.
      * done.
      * intros x Hx. destruct (Hsound x Hx) as (w' & v & -> & Hin & Hgt & Hshare).
        exists w', v. split_and!; [done | by right | done | done].
      * intros w' [->|Hin]%elem_of_cons Hgt; [congruence|]. by apply Hcomplete.
      * simpl. lia.
Qed.

Section ScriptFacts.

Variable parses_as_number : string → bool.

(** The click in closed form: a copy, [process_dataframe] on the copy, then
    the summary, which changes nothing. *)
Lemma process_file_ok (σ : State) (df : loc) (d : DataFrame) (n : Z)
    (wc : Label) (count i : nat) (ws : list Cell) :
  heap σ !! df = Some d →
  well_formed d →
  find_weight_column parses_as_number d = Ok (Some wc, count) →
  list_index (columns d) wc = Ok i →
  getitem d wc = Some ws →
  Forall (λ w, is_text w = false) ws →
  1 ≤ n →
  ∃ df_copy σc new_df fw cs σp p' lines,
    copy df σ = (Ok df_copy, σc) ∧
    heap σc !! df_copy = Some d ∧
    process_dataframe parses_as_number df_copy n σc = (Ok (Some (new_df, fw, cs)), σp) ∧
    heap σp !! new_df = Some p' ∧
    p' = fill_frame cs 0 ws
           (if decide (Z.of_nat i < n) then shifted_frame d n (n - Z.of_nat i) else d) ∧
    cs ≠ [] ∧
    cs = (if decide (Z.of_nat i < n) then (λ i, Container_ (i + 1)) <$> range n
          else take i (columns d)) ∧
    heap σ !! new_df = None ∧
    last (shown σp)
    = Some (StSuccessProcessed (length (filter (λ w, positive_weight w = true) ws))
              (length cs)) ∧
    example_lines (sample ws) cs = Ok lines ∧
    process_file parses_as_number df n σ
    = (Ok ([SuccessFileProcessed; WriteSummaryTitle; WriteWeightColumn fw;
            WriteContainerColumns cs; WriteTotalRows (len d)]
           ++ match sample ws with [] => [] | _ => WriteExamplesTitle :: lines end),
       σp).
Proof.
  intros Hl Hwf Hfind Hidx Hget Htext Hn.
  assert (0 < n) as Hpos by lia.
  pose proof (copy_ok σ df d Hl) as Hcopy.
  set (c := fresh (dom (heap σ))) in *.
  set (σc := mkState (<[c := d]> (heap σ)) (shown σ)) in *.
  assert (heap σc !! c = Some d) as Hc by (simpl; by rewrite lookup_insert_eq).
  pose proof (process_dataframe_ok parses_as_number σc c d n wc count i ws
                Hc Hwf Hfind Hidx Hget Htext (or_introl Hpos)) as Hrun.
  cbv zeta in Hrun.
  pose proof Hwf as [Hnd _].
  pose proof (lookup_column d wc i ws Hnd Hidx Hget) as Hcol.
  pose proof (reshaped_facts d n i wc ws Hwf Hcol) as (_ & Hlen & _ & _ & Hcs & _).
  cbv zeta in Hlen, Hcs.
  specialize (Hcs (or_introl Hpos)).
  assert (Forall (λ w, is_text w = false) (sample ws)) as Hsample.
  { apply Forall_forall. intros w [Hin _]%sample_elem.
    by apply (proj1 (Forall_forall _ _) Htext). }
  destruct (example_lines_ok (sample ws) _ Hsample Hcs) as (lines & Hlines & _).
  assert (getitem (fill_frame
            (if decide (Z.of_nat i < n) then (λ i, Container_ (i + 1)) <$> range n
             else take i (columns d)) 0 ws
            (if decide (Z.of_nat i < n) then shifted_frame d n (n - Z.of_nat i) else d))
            (if decide (Z.of_nat i < n) then Column_ n else wc) = Some ws) as Hw.
  { rewrite getitem_fill_frame. destruct (decide (Z.of_nat i < n)).
    - rewrite (getitem_shifted_weight d n i wc ws Hcol). simpl.
      rewrite decide_False; [done|].
      intros (k & Heq & _)%list_elem_of_fmap. by apply Column_Container in Heq.
    - rewrite Hget. simpl.
      rewrite decide_False; [done|]. by apply list_index_spec in Hidx as [_ ?]. }
  eexists c, σc, _, _, _, _, _, lines. split_and!.
  - exact Hcopy.
  - exact Hc.
  - exact Hrun.
  - simpl. by rewrite lookup_insert_eq.
  - done.
  - exact Hcs.
  - done.
  - pose proof (fresh_loc_None σc) as Hn'. subst σc. simpl in Hn'.
    by apply lookup_insert_None in Hn' as [? _].
  - simpl. by rewrite (last_app_cons _ _ (StInfoDetected wc count)).
  - exact Hlines.
  - unfold process_file.
    unfold mbind at 1, Py_bind at 1. rewrite Hcopy.
    unfold mbind at 1, Py_bind at 1. rewrite Hrun.
    unfold mbind at 1, Py_bind at 1, deref at 1. simpl heap. rewrite lookup_insert_eq.
    unfold mbind at 1, Py_bind at 1. rewrite Hw. unfold mret at 1, Py_ret at 1.
    rewrite fill_frame_len, Hlen.
    destruct (sample ws) as [|w0 sw] eqn:Hs.
    + by py_unfold.
    + unfold mbind at 1, Py_bind at 1.
      unfold mbind at 1, Py_bind at 1, lift at 1. rewrite Hlines.
      by py_unfold.
Qed.

End ScriptFacts.

Lemma filter_length_all {A} (P : A → Prop) `{∀ x, Decision (P x)} (l : list A) :
  length (filter P l) = length l ↔ Forall P l.
Proof.
  induction l as [|x l IH]; [by split|].
  destruct (decide (P x)) as [Hx|Hx].
  - rewrite filter_cons_True by done. simpl. rewrite Forall_cons. split.
    + intros [= Hlen]. split; [done | by apply IH].
    + intros [_ Hall]. f_equal. by apply IH.
  - rewrite filter_cons_False by done. simpl. rewrite Forall_cons. split.
    + intros Hlen. pose proof (length_filter P l). lia.
    + by intros [? _].
Qed.

Section ScriptClaims.

Variable parses_as_number : string → bool.

(** X9: what the preview announces is what reshaping does, and the preview
    changes nothing. When it announces a shift, the position it gives for
    the weight column, counted from 1, is the position of the returned
    weight label in the reshaped table; otherwise the number of columns it
    calls available is the number of containers returned and the weight
    column keeps its position. *)
Theorem preview_announces_reshape (σ : State) (df : loc) (d : DataFrame) (n : Z)
    (wc : Label) (count i : nat) :
  heap σ !! df = Some d →
  well_formed d →
  find_weight_column parses_as_number d = Ok (Some wc, count) →
  list_index (columns d) wc = Ok i →
  ∃ plan new_df fw cs new σ',
    preview_and_process parses_as_number df n false σ
    = (Ok ([MetricWeightColumn wc; MetricNumericValues count;
            MetricColumnPosition (Z.of_nat i + 1)] ++ plan), σ) ∧
    shift_columns_and_create_containers df wc n σ = (Ok (new_df, fw, cs), σ') ∧
    heap σ' !! new_df = Some new ∧
    (Z.of_nat i < n →
       plan = [WarningShift (Z.of_nat i + 1) n;
               InfoMove (Z.of_nat i + 1) (n + (Z.of_nat i + 1))] ∧
       ∃ j, list_index (columns new) fw = Ok j ∧ Z.of_nat j + 1 = n + (Z.of_nat i + 1)) ∧
    (n ≤ Z.of_nat i →
       plan = [SuccessPerfect (Z.of_nat i + 1) i] ∧
       length cs = i ∧
       list_index (columns new) fw = Ok i).
Proof.
  intros Hl Hwf Hfind Hidx. pose proof Hwf as [Hnd _].
  destruct (lookup_weight_column d wc i Hnd Hidx) as (ws & Hcol & Hget).
  assert (preview_and_process parses_as_number df n false σ
          = (Ok ([MetricWeightColumn wc; MetricNumericValues count;
                  MetricColumnPosition (Z.of_nat i + 1)] ++
                 (if decide (Z.of_nat i < n) then
                    [WarningShift (Z.of_nat i + 1) n;
                     InfoMove (Z.of_nat i + 1) (n + (Z.of_nat i + 1))]
                  else [SuccessPerfect (Z.of_nat i + 1) i])), σ)) as Hprev.
  { unfold preview_and_process. py_unfold. rewrite Hl. simpl. rewrite Hfind. simpl.
    by rewrite Hidx. }
  destruct (decide (Z.of_nat i < n)) as [Hlt|Hge].
  - eexists _, _, _, _, _, _. split_and!.
    + exact Hprev.
    + by apply (shift_path σ df d wc n i).
    + simpl. by rewrite lookup_insert_eq.
    + intros _. split; [done|]. exists (Z.to_nat n + i)%nat. split; [|lia].
      apply list_index_NoDup; [apply shifted_frame_NoDup|].
      unfold columns. rewrite list_lookup_fmap.
      rewrite (shifted_frame_original d n _ i wc ws Hcol). simpl. do 2 f_equal. lia.
    + lia.
  - eexists _, _, _, _, _, _. split_and!.
    + exact Hprev.
    + apply (no_shift_path σ df d wc n i); (done || lia).
    + simpl. by rewrite lookup_insert_eq.
    + lia.
    + intros _. split_and!; [done | | done].
      apply list_index_lt in Hidx. rewrite length_take. lia.
Qed.

(** X10: the figure the summary writes as "Total rows processed" is the
    number of rows of the table; the number of rows [process_dataframe]
    reports as processed is the number of weights above 0, which is at most
    that figure and equals it only when every weight is above 0. *)
Theorem total_rows_not_processed_rows (σ : State) (df : loc) (d : DataFrame) (n : Z)
    (wc : Label) (count i : nat) (ws : list Cell) :
  heap σ !! df = Some d →
  well_formed d →
  find_weight_column parses_as_number d = Ok (Some wc, count) →
  list_index (columns d) wc = Ok i →
  getitem d wc = Some ws →
  Forall (λ w, is_text w = false) ws →
  1 ≤ n →
  ∃ notices σ' processed_rows containers,
    process_file parses_as_number df n σ = (Ok notices, σ') ∧
    WriteTotalRows (len d) ∈ notices ∧
    (∀ rows, WriteTotalRows rows ∈ notices → rows = len d) ∧
    last (shown σ') = Some (StSuccessProcessed processed_rows containers) ∧
    processed_rows = length (filter (λ w, gt_zero w = Ok true) ws) ∧
    (processed_rows ≤ len d)%nat ∧
    (processed_rows = len d ↔ Forall (λ w, gt_zero w = Ok true) ws).
Proof.
  intros Hl Hwf Hfind Hidx Hget Htext Hn.
  destruct (process_file_ok parses_as_number σ df d n wc count i ws
              Hl Hwf Hfind Hidx Hget Htext Hn)
    as (c & σc & new & fw & cs & σp & p' & lines & _ & _ & _ & _ & _ & Hcs & _ & _ &
        Hlast & Hlines & Hrun).
  pose proof Hwf as [Hnd Hrect].
  pose proof (lookup_column d wc i ws Hnd Hidx Hget) as Hcol.
  assert (length ws = len d) as Hlen.
  { apply list_elem_of_lookup_2 in Hcol.
    by apply (proj1 (Forall_forall _ _) Hrect) in Hcol. }
  assert (Forall (λ w, is_text w = false) (sample ws)) as Hsample.
  { apply Forall_forall. intros w [Hin _]%sample_elem.
    by apply (proj1 (Forall_forall _ _) Htext). }
  destruct (example_lines_ok (sample ws) cs Hsample Hcs) as (lines' & Hlines' & Hsound & _).
  assert (lines' = lines) as -> by congruence.
  eexists _, _, _, _. split; [exact Hrun|]. split_and!.
  - do 4 right. left.
  - intros rows Hin.
    repeat (apply elem_of_cons in Hin as [Heq|Hin]; [congruence|]).
    destruct (sample ws); [by apply elem_of_nil in Hin|].
    apply elem_of_cons in Hin as [Heq|Hin]; [done|].
    by destruct (Hsound _ Hin) as (w' & v & Heq & _).
  - exact Hlast.
  - apply count_positive.
  - rewrite <- Hlen. apply length_filter.
  - rewrite <- Hlen, count_positive. apply filter_length_all.
Qed.

(** X11: the example calculations agree with the table. Every line
    "Weight w → v each" is for a weight [w] above 0 of the weight column,
    and in the processed table every container cell of every row with that
    weight holds [v]; a line is written for each of the first three weights
    that are not missing, provided it is above 0, and for no other. *)
Theorem examples_match_table (σ : State) (df : loc) (d : DataFrame) (n : Z)
    (wc : Label) (count i : nat) (ws : list Cell) :
  heap σ !! df = Some d →
  well_formed d →
  find_weight_column parses_as_number d = Ok (Some wc, count) →
  list_index (columns d) wc = Ok i →
  getitem d wc = Some ws →
  Forall (λ w, is_text w = false) ws →
  1 ≤ n →
  ∃ notices σ' new_df cs p',
    process_file parses_as_number df n σ = (Ok notices, σ') ∧
    WriteContainerColumns cs ∈ notices ∧
    heap σ !! new_df = None ∧
    heap σ' !! new_df = Some p' ∧
    (∀ c, c ∈ cs → is_Some (getitem p' c)) ∧
    (∀ w v, WriteExample w v ∈ notices →
       gt_zero w = Ok true ∧ w ∈ sample ws ∧
       ∀ r c cells', ws !! r = Some w → c ∈ cs → getitem p' c = Some cells' →
                     cells' !! r = Some (CFloat v)) ∧
    (∀ w, w ∈ sample ws → gt_zero w = Ok true → ∃ v, WriteExample w v ∈ notices).
Proof.
  intros Hl Hwf Hfind Hidx Hget Htext Hn.
  destruct (process_file_ok parses_as_number σ df d n wc count i ws
              Hl Hwf Hfind Hidx Hget Htext Hn)
    as (c & σc & new & fw & cs & σp & p' & lines & _ & _ & _ & Hnew & Hp' & Hcs &
        Hcseq & Hfresh & _ & Hlines & Hrun).
  pose proof Hwf as [Hnd Hrect].
  pose proof (lookup_column d wc i ws Hnd Hidx Hget) as Hcol.
  pose proof (reshaped_facts d n i wc ws Hwf Hcol) as ([_ Hrectp] & Hlenp & Hlen & Hsub & _).
  cbv zeta in Hrectp, Hlenp, Hsub. rewrite <- Hcseq in Hsub.
  set (p := if decide (Z.of_nat i < n) then shifted_frame d n (n - Z.of_nat i) else d) in *.
  assert (Forall (λ w, is_text w = false) (sample ws)) as Hsample.
  { apply Forall_forall. intros w [Hin _]%sample_elem.
    by apply (proj1 (Forall_forall _ _) Htext). }
  destruct (example_lines_ok (sample ws) cs Hsample Hcs)
    as (lines' & Hlines' & Hsound & Hcomplete & _).
  assert (lines' = lines) as -> by congruence.
  eexists _, _, new, cs, p'. split; [exact Hrun|]. split_and!.
  - do 3 right. left.
  - exact Hfresh.
  - exact Hnew.
  - intros c' Hc'. rewrite Hp', getitem_fill_frame.
    destruct (getitem_is_Some p c' (Hsub c' Hc')) as [cells ->]. by eexists.
  - intros w v Hin.
    repeat (apply elem_of_cons in Hin as [Heq|Hin]; [congruence|]).
    destruct (sample ws) as [|w0 sw] eqn:Hs; [by apply elem_of_nil in Hin|].
    apply elem_of_cons in Hin as [Heq|Hin]; [done|].
    destruct (Hsound _ Hin) as (w' & v' & [= <- <-] & Hw & Hgt & Hshare).
    split_and!; [done | done |].
    intros r c' cells' Hr Hc' Hcells'.
    rewrite Hp', getitem_fill_frame in Hcells'.
    destruct (getitem p c') as [cells|] eqn:Hcells; simpl in Hcells'; [|done].
    rewrite decide_True in Hcells' by done. injection Hcells' as <-.
    rewrite <- Hshare.
    apply (fill_cells_written _ ws 0 r cells w Hr); [by apply positive_weight_iff|].
    apply getitem_elem in Hcells.
    apply (proj1 (Forall_forall _ _) Hrectp) in Hcells. simpl in Hcells.
    apply lookup_lt_Some in Hr. lia.
  - intros w Hw Hgt. destruct (Hcomplete w Hw Hgt) as [v Hv]. exists v.
    do 5 right. destruct (sample ws); [by apply elem_of_nil in Hw|]. by right.
Qed.

End ScriptClaims.

Section NoneOnly.

Variable parses_as_number : string → bool.

(** X12: [process_dataframe] returns [None] only on a table in which no
    column holds a numeric cell (the converse of C7): as soon as one does,
    it returns the triple or raises, so the script's test [if result:] after
    a successful preview never fails. *)
Theorem none_only_without_numbers (σ : State) (df : loc) (d : DataFrame) (n : Z) :
  heap σ !! df = Some d →
  NoDup (columns d) →
  (process_dataframe parses_as_number df n σ).1 = Ok None →
  ∀ c, c ∈ d → numeric_count parses_as_number c.2 = 0%nat.
Proof.
  intros Hl Hnd.
  destruct (find_weight_loop_detected parses_as_number [] d None 0%nat)
    as (wc & mx & Hfind & Hdet).
  { done. }
  { split; [done | constructor]. }
  simpl in Hfind, Hdet.
  unfold process_dataframe.
  unfold mbind at 1, Py_bind at 1, deref at 1. rewrite Hl.
  unfold mbind at 1, Py_bind at 1, lift at 1.
  unfold find_weight_column. rewrite Hfind.
  destruct wc as [wc|].
  - unfold mbind at 1, Py_bind at 1, st at 1.
    unfold mbind at 1, Py_bind at 1.
    destruct (shift_columns_and_create_containers _ _ _ _)
      as [[[[new fw] cs]| |] σ1]; [|done|done].
    unfold mbind at 1, Py_bind at 1, st at 1.
    unfold mbind at 1, Py_bind at 1, st at 1.
    unfold mbind at 1, Py_bind at 1, deref at 1. simpl heap.
    destruct (heap σ1 !! new) as [p|]; [|done].
    unfold mbind at 1, Py_bind at 1.
    destruct (getitem p fw) as [ws|]; [|done].
    unfold mret at 1, Py_ret at 1. unfold mbind at 1, Py_bind at 1.
    destruct (distribute_rows _ _ _ _ _) as [[k'| |] σ2]; done.
  - intros _ c Hc. destruct Hdet as [_ Hall].
    by apply (proj1 (Forall_forall _ _) Hall).
Qed.

End NoneOnly.

Lemma none_only_without_numbers_witness :
  (process_dataframe Examples.digits 1%positive 5 (initial Examples.texts)).1 = Ok None ∧
  ∀ c, c ∈ Examples.texts → numeric_count Examples.digits c.2 = 0%nat.
Proof.
  split; [reflexivity|].
  apply (none_only_without_numbers Examples.digits (initial Examples.texts) 1%positive
           Examples.texts 5).
  - reflexivity.
  - apply (bool_decide_unpack (NoDup (columns Examples.texts))). vm_compute. exact I.
  - reflexivity.
Defined.

Lemma preview_announces_reshape_witness :
  ∃ plan new_df fw cs new σ',
    preview_and_process Examples.digits 1%positive 5 false (initial Examples.abw)
    = (Ok ([MetricWeightColumn (LStr "weight"); MetricNumericValues 2;
            MetricColumnPosition (Z.of_nat 2 + 1)] ++ plan), initial Examples.abw) ∧
    shift_columns_and_create_containers 1%positive (LStr "weight") 5 (initial Examples.abw)
    = (Ok (new_df, fw, cs), σ') ∧
    heap σ' !! new_df = Some new ∧
    (Z.of_nat 2 < 5 →
       plan = [WarningShift (Z.of_nat 2 + 1) 5;
               InfoMove (Z.of_nat 2 + 1) (5 + (Z.of_nat 2 + 1))] ∧
       ∃ j, list_index (columns new) fw = Ok j ∧ Z.of_nat j + 1 = 5 + (Z.of_nat 2 + 1)) ∧
    (5 ≤ Z.of_nat 2 →
       plan = [SuccessPerfect (Z.of_nat 2 + 1) 2] ∧
       length cs = 2%nat ∧
       list_index (columns new) fw = Ok 2%nat).
Proof.
  apply (preview_announces_reshape Examples.digits (initial Examples.abw) 1%positive
           Examples.abw 5 (LStr "weight") 2 2).
  - reflexivity.
  - apply (bool_decide_unpack (well_formed Examples.abw)). vm_compute. exact I.
  - reflexivity.
  - reflexivity.
Defined.

Lemma total_rows_not_processed_rows_witness :
  ∃ notices σ' processed_rows containers,
    process_file Examples.digits 1%positive 1 (initial MoreExamples.weights_first)
    = (Ok notices, σ') ∧
    WriteTotalRows (len MoreExamples.weights_first) ∈ notices ∧
    (∀ rows, WriteTotalRows rows ∈ notices → rows = len MoreExamples.weights_first) ∧
    last (shown σ') = Some (StSuccessProcessed processed_rows containers) ∧
    processed_rows
    = length (filter (λ w, gt_zero w = Ok true)
                [CFloat 7; CFloat nan; CFloat 9; CFloat 1; CFloat 2]) ∧
    (processed_rows ≤ len MoreExamples.weights_first)%nat ∧
    (processed_rows = len MoreExamples.weights_first
     ↔ Forall (λ w, gt_zero w = Ok true)
         [CFloat 7; CFloat nan; CFloat 9; CFloat 1; CFloat 2]).
Proof.
  apply (total_rows_not_processed_rows Examples.digits (initial MoreExamples.weights_first)
           1%positive MoreExamples.weights_first 1 (LInt 0) 4 0
           [CFloat 7; CFloat nan; CFloat 9; CFloat 1; CFloat 2]).
  - reflexivity.
  - apply (bool_decide_unpack (well_formed MoreExamples.weights_first)). vm_compute. exact I.
  - vm_compute. reflexivity.
  - reflexivity.
  - reflexivity.
  - repeat constructor.
  - lia.
Defined.

Lemma examples_match_table_witness :
  ∃ notices σ' new_df cs p',
    process_file Examples.digits 1%positive 1 (initial MoreExamples.weights_first)
    = (Ok notices, σ') ∧
    WriteContainerColumns cs ∈ notices ∧
    heap (initial MoreExamples.weights_first) !! new_df = None ∧
    heap σ' !! new_df = Some p' ∧
    (∀ c, c ∈ cs → is_Some (getitem p' c)) ∧
    (∀ w v, WriteExample w v ∈ notices →
       gt_zero w = Ok true ∧
       w ∈ sample [CFloat 7; CFloat nan; CFloat 9; CFloat 1; CFloat 2] ∧
       ∀ r c cells',
         [CFloat 7; CFloat nan; CFloat 9; CFloat 1; CFloat 2] !! r = Some w →
         c ∈ cs → getitem p' c = Some cells' → cells' !! r = Some (CFloat v)) ∧
    (∀ w, w ∈ sample [CFloat 7; CFloat nan; CFloat 9; CFloat 1; CFloat 2] →
          gt_zero w = Ok true → ∃ v, WriteExample w v ∈ notices).
Proof.
  apply (examples_match_table Examples.digits (initial MoreExamples.weights_first)
           1%positive MoreExamples.weights_first 1 (LInt 0) 4 0
           [CFloat 7; CFloat nan; CFloat 9; CFloat 1; CFloat 2]).
  - reflexivity.
  - apply (bool_decide_unpack (well_formed MoreExamples.weights_first)). vm_compute. exact I.
  - vm_compute. reflexivity.
  - reflexivity.
  - reflexivity.
  - repeat constructor.
  - lia.
Defined.

(** ** Detection and reshaping together *)

Lemma numeric_count_le (parses_as_number : string → bool) (cells : list Cell) :
  (numeric_count parses_as_number cells ≤ length cells)%nat.
Proof. unfold numeric_count. apply length_filter. Qed.

Section Found.

Variable parses_as_number : string → bool.

(** X13: a label that [find_weight_column] returns is a column of the
    table, so [list.index] finds it and [df[...]] reads it without error;
    the count returned is the number of numeric cells of that column, at
    least 1 and at most the number of rows. *)
Theorem detected_column_in_table (d : DataFrame) (wc : Label) (count : nat) :
  well_formed d →
  find_weight_column parses_as_number d = Ok (Some wc, count) →
  ∃ i ws,
    list_index (columns d) wc = Ok i ∧
    getitem d wc = Some ws ∧
    d !! i = Some (wc, ws) ∧
    numeric_count parses_as_number ws = count ∧
    (1 ≤ count ≤ len d)%nat.
Proof.
  intros [Hnd Hrect] Hfind.
  destruct (find_weight_loop_detected parses_as_number [] d None 0%nat)
    as (wc' & mx & Hrun & Hdet).
  { done. }
  { split; [done | constructor]. }
  simpl in Hrun, Hdet. unfold find_weight_column in Hfind.
  rewrite Hrun in Hfind. injection Hfind as -> ->.
  destruct Hdet as (j & cells & Hj & Hc & Hpos & _).
  exists j, cells. split_and!.
  - apply list_index_NoDup; [done|]. unfold columns. by rewrite list_lookup_fmap, Hj.
  - by apply (getitem_lookup d j).
  - done.
  - done.
  - lia.
  - rewrite <- Hc. apply list_elem_of_lookup_2 in Hj.
    apply (proj1 (Forall_forall _ _) Hrect) in Hj. simpl in Hj. rewrite <- Hj.
    apply numeric_count_le.
Qed.

End Found.

Lemma detected_column_in_table_witness :
  ∃ i ws,
    list_index (columns Examples.tie) (LInt 1) = Ok i ∧
    getitem Examples.tie (LInt 1) = Some ws ∧
    Examples.tie !! i = Some (LInt 1, ws) ∧
    numeric_count Examples.digits ws = 2%nat ∧
    (1 ≤ 2 ≤ len Examples.tie)%nat.
Proof.
  apply (detected_column_in_table Examples.digits Examples.tie (LInt 1) 2).
  - apply (bool_decide_unpack (well_formed Examples.tie)). vm_compute. exact I.
  - reflexivity.
Defined.

Lemma shifted_frame_cells (d1 d2 : DataFrame) (n s : Z) :
  d1.*2 = d2.*2 → shifted_frame d1 n s = shifted_frame d2 n s.
Proof.
  intros Hcells.
  assert (len d1 = len d2) as Hlen.
  { destruct d1 as [|[l1 c1] d1], d2 as [|[l2 c2] d2]; simpl in *; congruence. }
  assert (length d1 = length d2) as Hlength.
  { by rewrite <- (length_fmap snd d1), <- (length_fmap snd d2), Hcells. }
  unfold shifted_frame. rewrite Hlen. f_equal.
  apply list_eq. intros j.
  rewrite !list_lookup_fmap, !enumerate_lookup.
  assert (d1.*2 !! j = d2.*2 !! j) as Hj by (by rewrite Hcells).
  rewrite !list_lookup_fmap in Hj.
  destruct (d1 !! j) as [[l1 c1]|], (d2 !! j) as [[l2 c2]|]; simpl in *; congruence.
Qed.

(** X14: on the shift path the labels of the input leave no trace. Two
    well-formed tables with the same cells, whatever their labels, and the
    weight column at the same index below the count, are reshaped into the
    same table with the same weight label and the same containers. *)
Theorem shift_forgets_labels (σ : State) (df1 df2 : loc) (d1 d2 : DataFrame)
    (wc1 wc2 : Label) (n : Z) (i : nat) :
  heap σ !! df1 = Some d1 →
  heap σ !! df2 = Some d2 →
  well_formed d1 →
  well_formed d2 →
  d1.*2 = d2.*2 →
  list_index (columns d1) wc1 = Ok i →
  list_index (columns d2) wc2 = Ok i →
  Z.of_nat i < n →
  ∃ new_df fw cs new σ',
    shift_columns_and_create_containers df1 wc1 n σ = (Ok (new_df, fw, cs), σ') ∧
    shift_columns_and_create_containers df2 wc2 n σ = (Ok (new_df, fw, cs), σ') ∧
    heap σ' !! new_df = Some new ∧
    ∀ j c cells, d1 !! j = Some (c, cells) →
      ∃ c', new !! (Z.to_nat n + j)%nat = Some (c', cells) ∧
            c' = Column_ (Z.of_nat j + (n - Z.of_nat i)).
Proof.
  intros Hl1 Hl2 Hwf1 Hwf2 Hcells Hidx1 Hidx2 Hlt.
  eexists _, _, _, _, _. split_and!.
  - by apply (shift_path σ df1 d1 wc1 n i).
  - rewrite (shift_path σ df2 d2 wc2 n i) by done.
    by rewrite (shifted_frame_cells d1 d2).
  - simpl. by rewrite lookup_insert_eq.
  - intros j c cells Hj. eexists. split; [|done].
    by apply (shifted_frame_original d1 n _ j c cells).
Qed.

Lemma shift_forgets_labels_witness :
  ∃ new_df fw cs new σ',
    shift_columns_and_create_containers 1%positive (LInt 0) 2
      (mkState (<[2%positive := [(LStr "kg", [CInt 0; CInt 3])]]>
                  {[ 1%positive := MoreExamples.only_weights ]}) [])
    = (Ok (new_df, fw, cs), σ') ∧
    shift_columns_and_create_containers 2%positive (LStr "kg") 2
      (mkState (<[2%positive := [(LStr "kg", [CInt 0; CInt 3])]]>
                  {[ 1%positive := MoreExamples.only_weights ]}) [])
    = (Ok (new_df, fw, cs), σ') ∧
    heap σ' !! new_df = Some new ∧
    ∀ j c cells, MoreExamples.only_weights !! j = Some (c, cells) →
      ∃ c', new !! (Z.to_nat 2 + j)%nat = Some (c', cells) ∧
            c' = Column_ (Z.of_nat j + (2 - Z.of_nat 0)).
Proof.
  apply (shift_forgets_labels
           (mkState (<[2%positive := [(LStr "kg", [CInt 0; CInt 3])]]>
                       {[ 1%positive := MoreExamples.only_weights ]}) [])
           1%positive 2%positive MoreExamples.only_weights [(LStr "kg", [CInt 0; CInt 3])]
           (LInt 0) (LStr "kg") 2 0).
  - reflexivity.
  - reflexivity.
  - apply (bool_decide_unpack (well_formed MoreExamples.only_weights)). vm_compute. exact I.
  - apply (bool_decide_unpack (well_formed [(LStr "kg", [CInt 0; CInt 3])])).
    vm_compute. exact I.
  - reflexivity.
  - reflexivity.
  - reflexivity.
  - lia.
Defined.
